(** * QQQ holdings analyser: the data engine of [data_fetcher.py]

    A shallow embedding of the holdings fallback chain, the batch price
    extractor, the market-cap cache and the contribution engine, followed by
    the properties the specification states about them.

    Conventions of the embedding.
    - A Python [float] is an IEEE binary64 value: Rocq's primitive [float].
      [round(x, n)] is Python's correctly rounded decimal rounding.
    - A Python [dict] is an association list in insertion order.
    - An exception is the [Raise] outcome of the [result] type; a
      [try ... except Exception] block is a match on that outcome.
    - Text is ASCII; the network, the clock and the pandas parsers are inputs
      of the functions that consult them. *)

From Stdlib Require Import ZArith List Bool Lia Floats Ascii String.
From Stdlib Require Import Sorting.Sorted Sorting.Permutation.
Import ListNotations.
Set Warnings "-inexact-float".

Open Scope string_scope.
Open Scope float_scope.
Open Scope nat_scope.

(** ** Exceptions *)

Inductive result (A : Type) : Type :=
| Ok (a : A)
| Raise.

Arguments Ok {A} a.
Arguments Raise {A}.

Definition bind {A B : Type} (r : result A) (k : A -> result B) : result B :=
  match r with
  | Ok a => k a
  | Raise => Raise
  end.

Notation "x <- r ;; k" := (bind r (fun x => k))
  (at level 61, r at next level, right associativity).

Definition option_bind {A B : Type} (o : option A) (k : A -> option B) : option B :=
  match o with
  | Some a => k a
  | None => None
  end.

Notation "x <-? o ;; k" := (option_bind o (fun x => k))
  (at level 61, o at next level, right associativity).

(** [try: body except Exception: return None] around a body that may itself
    return [None]. *)
Definition try_or_None {A : Type} (body : result (option A)) : option A :=
  match body with
  | Ok r => r
  | Raise => None
  end.

(** ** Floats *)

Module PyFloat.

(** Quotient of [a] by [b > 0] rounded to the nearest integer, ties to the
    even one. *)
Definition div_half_even (a b : Z) : Z :=
  let q := (a / b)%Z in
  let r := (a mod b)%Z in
  match (2 * r ?= b)%Z with
  | Lt => q
  | Gt => (q + 1)%Z
  | Eq => if Z.even q then q else (q + 1)%Z
  end.

(** The binary64 value nearest to [(-1)^s * k / p]. *)
Definition dec_quotient (s : bool) (k p : positive) : float :=
  SF2Prim (SFdiv prec emax (S754_finite s k 0) (S754_finite false p 0)).

Definition pow10 (n : nat) : positive := Z.to_pos (10 ^ Z.of_nat n).

(** [round(x, ndigits)] for [0 <= ndigits]: the exact value of [x] is
    rounded half-even to [ndigits] decimals and the decimal is converted
    back to the nearest binary64; zeros, infinities and NaN round to
    themselves and a result of zero keeps the sign of [x]. *)
Definition round (x : float) (ndigits : nat) : float :=
  match Prim2SF x with
  | S754_finite s m e =>
      let p := pow10 ndigits in
      let k := match e with
               | Zneg d => div_half_even (Zpos m * Zpos p) (2 ^ Zpos d)
               | _ => (Zpos m * 2 ^ e * Zpos p)%Z
               end in
      match k with
      | Zpos k => dec_quotient s k p
      | _ => if s then (-0)%float else 0%float
      end
  | _ => x
  end.

(** [x != 0] and [x == y] on floats. *)
Definition ne0 (x : float) : bool := negb (x =? 0)%float.

(** Truth value of a float: everything but the two zeros (NaN included). *)
Definition truthy (x : float) : bool := ne0 x.

(** [a or b] where [a] is a float or [None]. *)
Definition or_default (a : option float) (b : float) : float :=
  match a with
  | Some x => if truthy x then x else b
  | None => b
  end.

End PyFloat.

(** ** Text *)

Module PyStr.

Definition is_upper (c : ascii) : bool :=
  let n := nat_of_ascii c in (65 <=? n) && (n <=? 90).

Definition is_lower (c : ascii) : bool :=
  let n := nat_of_ascii c in (97 <=? n) && (n <=? 122).

Definition upper_char (c : ascii) : ascii :=
  if is_lower c then ascii_of_nat (nat_of_ascii c - 32) else c.

Definition lower_char (c : ascii) : ascii :=
  if is_upper c then ascii_of_nat (nat_of_ascii c + 32) else c.

Fixpoint smap (f : ascii -> ascii) (s : string) : string :=
  match s with
  | EmptyString => EmptyString
  | String c s' => String (f c) (smap f s')
  end.

Definition upper : string -> string := smap upper_char.
Definition lower : string -> string := smap lower_char.

(** [s.capitalize()] *)
Definition capitalize (s : string) : string :=
  match s with
  | EmptyString => EmptyString
  | String c s' => String (upper_char c) (lower s')
  end.

(** [s.replace(a, b)] for one-character [a] and [b]. *)
Definition replace_char (a b : ascii) : string -> string :=
  smap (fun c => if Ascii.eqb c a then b else c).

(** [s.replace(a, "")] for a one-character [a]. *)
Fixpoint remove_char (a : ascii) (s : string) : string :=
  match s with
  | EmptyString => EmptyString
  | String c s' => if Ascii.eqb c a then remove_char a s' else String c (remove_char a s')
  end.

(** The characters [str.strip()] removes: tab to carriage return, the four
    separators 28..31 and the space. *)
Definition is_space (c : ascii) : bool :=
  let n := nat_of_ascii c in
  ((9 <=? n) && (n <=? 13)) || ((28 <=? n) && (n <=? 32)).

Fixpoint lstrip (s : string) : string :=
  match s with
  | EmptyString => EmptyString
  | String c s' => if is_space c then lstrip s' else s
  end.

Fixpoint rstrip (s : string) : string :=
  match s with
  | EmptyString => EmptyString
  | String c s' =>
      match rstrip s' with
      | EmptyString => if is_space c then EmptyString else String c EmptyString
      | r => String c r
      end
  end.

Definition strip (s : string) : string := rstrip (lstrip s).

(** [sub in s] *)
Fixpoint contains (sub s : string) : bool :=
  String.prefix sub s ||
  match s with
  | EmptyString => false
  | String _ s' => contains sub s'
  end.

(** [sep.join(l)] *)
Definition join (sep : string) (l : list string) : string := String.concat sep l.

Definition mem (s : string) (l : list string) : bool :=
  existsb (String.eqb s) l.

End PyStr.

(** ** Dictionaries with text keys *)

Module PyDict.

Definition dict (V : Type) : Type := list (string * V).

(** [d[k] = v]: an existing key keeps its position. *)
Fixpoint set {V : Type} (k : string) (v : V) (d : dict V) : dict V :=
  match d with
  | [] => [(k, v)]
  | (k', v') :: d' =>
      if String.eqb k k' then (k, v) :: d' else (k', v') :: set k v d'
  end.

(** [d.get(k)] *)
Fixpoint get {V : Type} (k : string) (d : dict V) : option V :=
  match d with
  | [] => None
  | (k', v') :: d' => if String.eqb k k' then Some v' else get k d'
  end.

Definition keys {V : Type} (d : dict V) : list string := map fst d.

End PyDict.


(** ** Price fetching *)

(** A quote as [get_prices_batch] reports it. *)
Record Quote : Type := mkQuote {
  price : option float;
  prev_close : option float;
  change_dollar : option float;
  change_pct : option float;
  valid : bool
}.

Definition _empty_price : Quote :=
  {| price := None; prev_close := None; change_dollar := None;
     change_pct := None; valid := false |}.

(** yfinance uses BRK-B style; Invesco may use BRK.B or BRK/B. *)
Definition _normalize_ticker (ticker : string) : string :=
  PyStr.replace_char "/" "-" (PyStr.replace_char "." "-" ticker).

(** The table [yf.download] returns: numeric cells (a missing one is NaN),
    one list per row, under flat column labels or under two-level
    [(level 0, level 1)] keys. *)
Inductive ColumnIndex : Type :=
| FlatIndex (labels : list string)
| MultiIndex (keys : list (string * string)).

Record PriceFrame : Type := mkPriceFrame {
  columns : ColumnIndex;
  rows : list (list float)
}.

Definition n_columns (c : ColumnIndex) : nat :=
  match c with
  | FlatIndex labels => List.length labels
  | MultiIndex keys => List.length keys
  end.

(** [df.empty] *)
Definition price_frame_empty (df : PriceFrame) : bool :=
  (n_columns (columns df) =? 0) || (List.length (rows df) =? 0).

(** The selection [df[key]]: of every row, the cells under the columns the
    mask keeps. One kept column is a Series, several are a sub-table. *)
Fixpoint pick {A : Type} (mask : list bool) (row : list A) : list A :=
  match mask, row with
  | b :: mask', x :: row' => if b then x :: pick mask' row' else pick mask' row'
  | _, _ => []
  end.

Definition select (mask : list bool) (df : PriceFrame) : list (list float) :=
  map (pick mask) (rows df).

(** [.dropna()]: the rows with no missing cell. *)
Definition dropna (sel : list (list float)) : list (list float) :=
  filter (forallb (fun v => negb (is_nan v))) sel.

(** [index.unique()]: first occurrences, in order. *)
Fixpoint unique (l : list string) : list string :=
  match l with
  | [] => []
  | x :: l' => x :: filter (fun y => negb (String.eqb x y)) (unique l')
  end.

Definition key_eqb (a b : string * string) : bool :=
  String.eqb (fst a) (fst b) && String.eqb (snd a) (snd b).

(** Outcome of one of the two nested loops of [get_series]. *)
Inductive Scan : Type :=
| Found (s : list (list float))
| Exhausted
| KeyError.

(** The body of the inner loop over the candidate keys, in loop order:
    [s = df[key].dropna(); if len(s) > 0: return s]. *)
Fixpoint scan (keys : list (string * string)) (df : PriceFrame)
    (candidates : list (string * string)) : Scan :=
  match candidates with
  | [] => Exhausted
  | key :: rest =>
      if existsb (key_eqb key) keys then
        let s := dropna (select (map (key_eqb key) keys) df) in
        if 0 <? List.length s then Found s else scan keys df rest
      else KeyError
  end.

(** The loop of the single-ticker branch over the candidate labels. *)
Fixpoint scan_flat (labels : list string) (df : PriceFrame)
    (candidates : list string) : option (list (list float)) :=
  match candidates with
  | [] => None
  | col :: rest =>
      if PyStr.mem col labels then
        let s := dropna (select (map (String.eqb col) labels) df) in
        if 0 <? List.length s then Some s else scan_flat labels df rest
      else scan_flat labels df rest
  end.

(** Extract a named series from either MultiIndex or flat DataFrame; both
    orders of a two-level key are tried, [(ticker, field)] first. [None]
    when nothing is found or a lookup raises. *)
Definition get_series (ticker : string) (n_tickers : nat)
    (df : option PriceFrame) (field : string) : option (list (list float)) :=
  match df with
  | None => None
  | Some df =>
      if price_frame_empty df then None
      else
        let flat labels :=
          scan_flat labels df [field; PyStr.lower field; PyStr.capitalize field; "Price"] in
        match columns df with
        | MultiIndex keys =>
            if 1 <? n_tickers then
              let levels0 := unique (map fst keys) in
              let levels1 := unique (map snd keys) in
              let is_ticker v := String.eqb (PyStr.upper v) (PyStr.upper ticker) in
              let is_field v := String.eqb (PyStr.lower v) (PyStr.lower field) in
              let ticker_at_0 := existsb is_ticker levels0 in
              let ticker_at_1 := existsb is_ticker levels1 in
              let new_order :=
                flat_map (fun t_val => map (fun f_val => (t_val, f_val)) (filter is_field levels1))
                         (filter is_ticker levels0) in
              let old_order :=
                flat_map (fun f_val => map (fun t_val => (f_val, t_val)) (filter is_ticker levels1))
                         (filter is_field levels0) in
              let second :=
                if ticker_at_1 then
                  match scan keys df old_order with
                  | Found s => Some s
                  | _ => None
                  end
                else None in
              if ticker_at_0 then
                match scan keys df new_order with
                | Found s => Some s
                | KeyError => None
                | Exhausted => second
                end
              else second
            else
              (* a text key on a two-level index selects by level 0 *)
              flat (map fst keys)
        | FlatIndex labels => flat labels
        end
  end.

(** [s.iloc[-1 - k]]; out of range is an IndexError. *)
Definition iloc_from_end {A : Type} (k : nat) (s : list A) : result A :=
  match nth_error (rev s) k with
  | Some x => Ok x
  | None => Raise
  end.

(** [float(row)]: a scalar, or a row of exactly one cell; a wider row is a
    TypeError. *)
Definition float_of_row (row : list float) : result float :=
  match row with
  | [v] => Ok v
  | _ => Raise
  end.

Definition float_at (k : nat) (s : list (list float)) : result float :=
  row <- iloc_from_end k s ;; float_of_row row.

(** The first half of [_extract_price]: the locals [current_price] and
    [prev_close] as they stand at the test for a missing price. *)
Definition resolve_prices (ticker : string) (intraday daily : option PriceFrame)
    (n_tickers : nat) : result (option float * option float) :=
  (* Try intraday for current price (works during market hours) *)
  current_price <-
    match get_series ticker n_tickers intraday "Close" with
    | Some s =>
        if 0 <? List.length s then v <- float_at 0 s ;; Ok (Some v) else Ok None
    | None => Ok None
    end ;;
  (* Daily data for previous close and fallback current price *)
  match get_series ticker n_tickers daily "Close" with
  | Some s =>
      if 1 <=? List.length s then
        prev_close <- (if 2 <=? List.length s then float_at 1 s else float_at 0 s) ;;
        current_price <-
          match current_price with
          | None => v <- float_at 0 s ;; Ok (Some v)
          | Some _ => Ok current_price
          end ;;
        Ok (current_price, Some prev_close)
      else Ok (current_price, None)
  | None => Ok (current_price, None)
  end.

(** The second half: the quote built from the two resolved prices. *)
Definition quote_of (current_price prev_close : float) : Quote :=
  let change_dollar := (current_price - prev_close)%float in
  let change_pct :=
    if PyFloat.ne0 prev_close then (change_dollar / prev_close * 100)%float
    else 0%float in
  {| price := Some (PyFloat.round current_price 2);
     prev_close := Some (PyFloat.round prev_close 2);
     change_dollar := Some (PyFloat.round change_dollar 2);
     change_pct := Some (PyFloat.round change_pct 4);
     valid := true |}.

Definition _extract_price (ticker : string) (intraday daily : option PriceFrame)
    (n_tickers : nat) : result Quote :=
  r <- resolve_prices ticker intraday daily n_tickers ;;
  match r with
  | (Some current_price, Some prev_close) => Ok (quote_of current_price prev_close)
  | _ => Ok _empty_price
  end.

(** The vendor's batch download: ticker text, period and interval to a table,
    or [None] when the call raises. *)
Definition Download : Type := string -> string -> string -> option PriceFrame.

(** [{_normalize_ticker(t): t for t in tickers}] *)
Definition norm_map_of (tickers : list string) : PyDict.dict string :=
  fold_left (fun d t => PyDict.set (_normalize_ticker t) t d) tickers [].

(** Fetch intraday current price + previous close for a list of tickers.
    The market-status lookup of the source is not used by the result and is
    left out; the pause between the two downloads has no value to model. *)
Definition get_prices_batch (yf_download : Download) (tickers : list string)
    : PyDict.dict Quote :=
  match tickers with
  | [] => []
  | _ =>
      let norm_map := norm_map_of tickers in
      let norm_tickers := PyDict.keys norm_map in
      let ticker_str := PyStr.join " " norm_tickers in
      let n := List.length norm_tickers in
      let intraday := yf_download ticker_str "1d" "2m" in
      let daily := yf_download ticker_str "5d" "1d" in
      fold_left
        (fun results norm_t =>
           match PyDict.get norm_t norm_map with
           | Some original_t =>
               PyDict.set original_t
                 (match _extract_price norm_t intraday daily n with
                  | Ok data => data
                  | Raise => _empty_price
                  end) results
           | None => results
           end)
        norm_tickers []
  end.

(** ** Contribution *)

(** Approximate contribution of a holding to QQQ's total percentage move. *)
Definition calculate_contribution (weight change_pct : float) : float :=
  PyFloat.round (weight * change_pct) 4.

(** ** Holdings tables *)

(** A pandas column is typed: text cells (a missing one is [None]), or
    numbers (a missing one is NaN). A table is its labelled columns, in
    order; labels may repeat. *)
Inductive Column : Type :=
| StrCol (cells : list (option string))
| NumCol (cells : list float).

Definition Frame : Type := list (string * Column).

(** One cell of a row, as [tolist()] and [iterrows()] hand it out. *)
Inductive Cell : Type :=
| CText (s : string)
| CNum (x : float).

(** The conversions between text and numbers that Python and pandas
    provide: [float(s)] and [pd.to_numeric] on one text cell ([None] when the
    text is not a number), [str(x)] of a float and of any other value that
    is not text. *)
Record Builtins : Type := mkBuiltins {
  float_of_str : string -> option float;
  to_numeric_text : string -> option float;
  str_of_float : float -> string;
  str_of_cells : list Cell -> string
}.

Module Table.

Definition col_length (c : Column) : nat :=
  match c with
  | StrCol cells => List.length cells
  | NumCol cells => List.length cells
  end.

(** [len(df)] *)
Definition len (df : Frame) : nat :=
  match df with
  | [] => 0
  | (_, c) :: _ => col_length c
  end.

(** [df.empty] *)
Definition empty (df : Frame) : bool :=
  (List.length df =? 0) || (len df =? 0).

Definition labels (df : Frame) : list string := map fst df.

Definition has_col (label : string) (df : Frame) : bool :=
  PyStr.mem label (labels df).

Definition rename (f : string -> string) (df : Frame) : Frame :=
  map (fun lc => (f (fst lc), snd lc)) df.

Definition labelled (label : string) (df : Frame) : list Column :=
  map snd (filter (fun lc => String.eqb label (fst lc)) df).

(** [df[label]] used as a Series: the one column so labelled. No such
    column is a KeyError; several make a sub-table, on which the Series
    operations of the callers raise. *)
Definition get_col (label : string) (df : Frame) : result Column :=
  match labelled label df with
  | [c] => Ok c
  | _ => Raise
  end.

Definition col_filter (mask : list bool) (c : Column) : Column :=
  match c with
  | StrCol cells => StrCol (pick mask cells)
  | NumCol cells => NumCol (pick mask cells)
  end.

(** [df[mask]] *)
Definition filter_rows (mask : list bool) (df : Frame) : Frame :=
  map (fun lc => (fst lc, col_filter mask (snd lc))) df.

(** [df[label] = column]: every column so labelled is replaced; a new
    label is appended. *)
Definition set_col (label : string) (c : Column) (df : Frame) : Frame :=
  if has_col label df
  then map (fun lc => if String.eqb label (fst lc) then (fst lc, c) else lc) df
  else (df ++ [(label, c)])%list.

(** [df[[l1; l2; ...]]]; a missing label is a KeyError. *)
Fixpoint select_cols (ls : list string) (df : Frame) : result Frame :=
  match ls with
  | [] => Ok []
  | l :: ls' =>
      if has_col l df then
        rest <- select_cols ls' df ;;
        Ok (filter (fun lc => String.eqb l (fst lc)) df ++ rest)%list
      else Raise
  end.

(** [.notna()] *)
Definition notna (c : Column) : list bool :=
  match c with
  | StrCol cells => map (fun o => match o with Some _ => true | None => false end) cells
  | NumCol cells => map (fun x => negb (is_nan x)) cells
  end.

(** [.str.f()] for a text-to-text [f]; the accessor raises on a numeric
    column. *)
Definition str_map (f : string -> string) (c : Column) : result Column :=
  match c with
  | StrCol cells => Ok (StrCol (map (option_map f) cells))
  | NumCol _ => Raise
  end.

(** The rows at the given positions, in that order. *)
Definition take {A : Type} (idx : list nat) (l : list A) : list A :=
  flat_map (fun i => match nth_error l i with Some x => [x] | None => [] end) idx.

Definition col_take (idx : list nat) (c : Column) : Column :=
  match c with
  | StrCol cells => StrCol (take idx cells)
  | NumCol cells => NumCol (take idx cells)
  end.

Fixpoint insert_desc (x : nat * float) (l : list (nat * float)) : list (nat * float) :=
  match l with
  | [] => [x]
  | y :: l' => if (snd x <? snd y)%float then y :: insert_desc x l' else x :: l
  end.

(** Row positions by descending value, NaN last. Rows of equal value keep
    their order here; pandas' default sort leaves the order of ties open. *)
Definition argsort_desc (ws : list float) : list nat :=
  let indexed := combine (seq 0 (List.length ws)) ws in
  (map fst (fold_right insert_desc [] (filter (fun p => negb (is_nan (snd p))) indexed))
   ++ map fst (filter (fun p => is_nan (snd p)) indexed))%list.

(** [df.sort_values(label, ascending=False).reset_index(drop=True)] on a
    numeric column. *)
Definition sort_values_desc (label : string) (df : Frame) : result Frame :=
  c <- get_col label df ;;
  match c with
  | NumCol ws =>
      let idx := argsort_desc ws in
      Ok (map (fun lc => (fst lc, col_take idx (snd lc))) df)
  | StrCol _ => Raise
  end.

(** A scalar assigned to a column is repeated down the rows. *)
Definition broadcast (s : string) (df : Frame) : Column :=
  StrCol (repeat (Some s) (len df)).

End Table.

(** ** The ticker pattern [^[A-Z]{1,5}(-[A-Z])?$] *)

Module TickerRe.

Definition newline : ascii := ascii_of_nat 10.

(** What [$] accepts: the end of the text, or one newline before it. *)
Definition at_dollar (s : string) : bool :=
  match s with
  | EmptyString => true
  | String c EmptyString => Ascii.eqb c newline
  | _ => false
  end.

Definition at_end (s : string) : bool :=
  match s with
  | EmptyString => true
  | _ => false
  end.

(** [(-[A-Z])?] followed by the end test. *)
Definition suffix (fin : string -> bool) (s : string) : bool :=
  fin s ||
  match s with
  | String "-" (String c s') => PyStr.is_upper c && fin s'
  | _ => false
  end.

(** Up to [n] further capitals, then the suffix. *)
Fixpoint letters (fin : string -> bool) (n : nat) (s : string) {struct s} : bool :=
  match s with
  | String c s' =>
      if PyStr.is_upper c then
        match n with
        | S n' => letters fin n' s'
        | O => false
        end
      else suffix fin s
  | EmptyString => suffix fin s
  end.

Definition pattern (fin : string -> bool) (s : string) : bool :=
  match s with
  | String c s' => PyStr.is_upper c && letters fin 4 s'
  | EmptyString => false
  end.

(** [re.match(r'^[A-Z]{1,5}(-[A-Z])?$', s)] *)
Definition re_match (s : string) : bool := pattern at_dollar s.

End TickerRe.

(** The ticker-format invariant of the data model: 1-5 capitals and an
    optional one-capital suffix after a hyphen. *)
Definition ticker_format (s : string) : bool := TickerRe.pattern TickerRe.at_end s.

(** [.str.match(pattern)] as a row mask; a missing cell makes the mask
    unusable and indexing with it raises. *)
Definition str_match (c : Column) : result (list bool) :=
  match c with
  | StrCol cells =>
      if forallb (fun o => match o with Some _ => true | None => false end) cells
      then Ok (map (fun o => match o with Some s => TickerRe.re_match s | None => false end) cells)
      else Raise
  | NumCol _ => Raise
  end.

(** ** Holdings fetching *)

Section Holdings.

Context (py : Builtins).

Import Table.

(** The column-name normalisation of the Invesco tier ([col_map]). *)
Definition invesco_label (col : string) : string :=
  let cl := PyStr.lower col in
  if PyStr.contains "holding ticker" cl || String.eqb cl "ticker" then "ticker"
  else if PyStr.contains "security name" cl || String.eqb cl "name"
          || PyStr.contains "holding name" cl || PyStr.contains "description" cl then "name"
  else if PyStr.contains "weight" cl then "weight_str"
  else if PyStr.contains "sector" cl then "sector"
  else col.

(** Invesco stores a weight as the text "9.8840%":
    [.str.replace("%", "").str.strip().astype(float) / 100.0]. *)
Fixpoint astype_float (cells : list (option string)) : result (list float) :=
  match cells with
  | [] => Ok []
  | None :: rest => ws <- astype_float rest ;; Ok (nan :: ws)
  | Some s :: rest =>
      match float_of_str py s with
      | Some x => ws <- astype_float rest ;; Ok (x :: ws)
      | None => Raise
      end
  end.

Definition invesco_weight (weight_str : Column) : result (list float) :=
  c <- str_map (PyStr.remove_char "%") weight_str ;;
  c <- str_map PyStr.strip c ;;
  match c with
  | StrCol cells =>
      ws <- astype_float cells ;;
      Ok (map (fun x => (x / 100)%float) ws)
  | NumCol _ => Raise
  end.

(** The steps the Invesco and the Slickcharts tiers share: drop the rows
    without a ticker, clean the tickers and keep the rows whose ticker
    matches the pattern. *)
Definition clean_tickers (df : Frame) : result Frame :=
  ticker <- get_col "ticker" df ;;
  let df := filter_rows (notna ticker) df in
  ticker <- get_col "ticker" df ;;
  ticker <- str_map PyStr.strip ticker ;;
  ticker <- str_map PyStr.upper ticker ;;
  let df := set_col "ticker" ticker df in
  (* Only real equity tickers (1-5 uppercase letters or with hyphen for BRK-B style) *)
  ticker <- get_col "ticker" df ;;
  mask <- str_match ticker ;;
  Ok (filter_rows mask df).

Definition default_name (df : Frame) : result Frame :=
  if has_col "name" df then Ok df
  else ticker <- get_col "ticker" df ;; Ok (set_col "name" ticker df).

(** Download and parse Invesco's official QQQ holdings CSV. The input is
    the table [pd.read_csv] returns for the text from the header row on,
    or [Raise] when the request or the parse fails. *)
Definition _fetch_holdings_invesco (response : result Frame) : option Frame :=
  try_or_None (
    df_raw <- response ;;
    let df_raw := rename PyStr.strip df_raw in
    (* Normalize column names using flexible matching *)
    let df_raw := rename invesco_label df_raw in
    if negb (has_col "ticker" df_raw) || negb (has_col "weight_str" df_raw) then Ok None
    else
      df_raw <- clean_tickers df_raw ;;
      weight_str <- get_col "weight_str" df_raw ;;
      weight <- invesco_weight weight_str ;;
      let df_raw := set_col "weight" (NumCol weight) df_raw in
      df_raw <- default_name df_raw ;;
      let df_raw :=
        if has_col "sector" df_raw then df_raw
        else set_col "sector" (broadcast "" df_raw) df_raw in
      result <- select_cols ["ticker"; "name"; "weight"; "sector"] df_raw ;;
      result <- sort_values_desc "weight" result ;;
      Ok (Some result)).

Definition slickcharts_label (col : string) : string :=
  let cl := PyStr.lower col in
  if PyStr.mem cl ["symbol"; "ticker"] then "ticker"
  else if String.eqb cl "company" then "name"
  else if PyStr.contains "weight" cl then "weight_str"
  else col.

(** The table with a symbol-like and a weight-like column. *)
Definition slickcharts_main_table (t : Frame) : bool :=
  let cols_lower := map PyStr.lower (labels t) in
  existsb (PyStr.contains "symbol") cols_lower && existsb (PyStr.contains "weight") cols_lower.

(** [.astype(str)] *)
Definition astype_str (c : Column) : list string :=
  match c with
  | StrCol cells => map (fun o => match o with Some s => s | None => "nan" end) cells
  | NumCol cells => map (str_of_float py) cells
  end.

(** [pd.to_numeric(..., errors="coerce").fillna(0)] on text. *)
Definition to_numeric_fill0 (s : string) : float :=
  match to_numeric_text py s with
  | Some x => if is_nan x then 0%float else x
  | None => 0%float
  end.

(** Weight stored as text like "8.89" (percent). *)
Definition slickcharts_weight (weight_str : Column) : list float :=
  map (fun s => (to_numeric_fill0 (PyStr.strip (PyStr.remove_char "%" s)) / 100)%float)
      (astype_str weight_str).

(** Scrape QQQ top-100 holdings from Slickcharts as an intermediate
    fallback. The input is the list of tables [pd.read_html] returns, or
    [Raise] when the request or the parse fails. *)
Definition _fetch_holdings_slickcharts (response : result (list Frame)) : option Frame :=
  try_or_None (
    tables <- response ;;
    match tables with
    | [] => Ok None
    | first :: _ =>
        let df :=
          match find slickcharts_main_table tables with
          | Some t => t
          | None => first (* Take first table as best guess *)
          end in
        let df := rename PyStr.strip df in
        let df := rename slickcharts_label df in
        if negb (has_col "ticker" df) || negb (has_col "weight_str" df) then Ok None
        else
          df <- clean_tickers df ;;
          weight_str <- get_col "weight_str" df ;;
          let df := set_col "weight" (NumCol (slickcharts_weight weight_str)) df in
          df <- default_name df ;;
          let df := set_col "sector" (broadcast "" df) df in
          result <- select_cols ["ticker"; "name"; "weight"; "sector"] df ;;
          weight <- get_col "weight" result ;;
          match weight with
          | NumCol ws =>
              let result := filter_rows (map (fun w => (0 <? w)%float) ws) result in
              result <- sort_values_desc "weight" result ;;
              Ok (Some result)
          | StrCol _ => Raise
          end
    end).

Definition yfinance_label (col : string) : string :=
  let cl := PyStr.lower col in
  if PyStr.mem cl ["symbol"; "ticker"] then "ticker"
  else if PyStr.mem cl ["name"; "holding name"; "description"] then "name"
  else if PyStr.contains "percent" cl || PyStr.contains "weight" cl
          || PyStr.contains "holding" cl then "weight"
  else col.

(** [top.columns = ["ticker", "name", "weight"] + list(top.columns[3:])];
    fewer than three columns is a length mismatch. *)
Definition positional_labels (top : Frame) : result Frame :=
  match top with
  | (_, c0) :: (_, c1) :: (_, c2) :: rest =>
      Ok (("ticker", c0) :: ("name", c1) :: ("weight", c2) :: rest)
  | _ => Raise
  end.

(** [pd.to_numeric(column, errors="coerce").fillna(0)] *)
Definition to_numeric_column (c : Column) : list float :=
  match c with
  | NumCol cells => map (fun x => if is_nan x then 0%float else x) cells
  | StrCol cells =>
      map (fun o => match o with Some s => to_numeric_fill0 s | None => 0%float end) cells
  end.

(** [column.max()] of a column without NaN; NaN for no rows. *)
Definition column_max (ws : list float) : float :=
  match ws with
  | [] => nan
  | w :: ws' => fold_left (fun m x => if (m <? x)%float then x else m) ws' w
  end.

(** The vendor's [top_holdings]: the index (symbols) and the columns. *)
Record TopHoldings : Type := mkTopHoldings {
  index_label : string;
  index_cells : Column;
  top_columns : Frame
}.

(** [top.reset_index()]: the index becomes the first column; a label
    already in use is a ValueError. *)
Definition reset_index (top : TopHoldings) : result Frame :=
  if has_col (index_label top) (top_columns top) then Raise
  else Ok ((index_label top, index_cells top) :: top_columns top).

(** Use yfinance funds_data.top_holdings as fallback (returns ~25
    holdings). The input is the vendor's answer, [None] included, or
    [Raise] when the lookup fails. *)
Definition _fetch_holdings_yfinance (response : result (option TopHoldings)) : option Frame :=
  try_or_None (
    top <- response ;;
    match top with
    | None => Ok None
    | Some top =>
        if (List.length (top_columns top) =? 0) || (col_length (index_cells top) =? 0)
        then Ok None
        else
          top <- reset_index top ;;
          (* Rename defensively *)
          let top := rename yfinance_label top in
          top <- (if has_col "ticker" top then Ok top else positional_labels top) ;;
          weight <- get_col "weight" top ;;
          let weight := to_numeric_column weight in
          let weight :=
            if (1.5 <? column_max weight)%float
            then map (fun x => (x / 100)%float) weight
            else weight in
          let top := set_col "weight" (NumCol weight) top in
          let top := set_col "sector" (broadcast "Unknown" top) top in
          result <- select_cols ["ticker"; "name"; "weight"; "sector"] top ;;
          result <- sort_values_desc "weight" result ;;
          Ok (Some result)
    end).

End Holdings.

(** Static fallback holdings (top 30 QQQ components, approximate weights). *)
Definition _STATIC_HOLDINGS : list (string * string * float * string) :=
  [ ("MSFT",  "Microsoft Corp",           0.0840%float, "Technology");
    ("NVDA",  "NVIDIA Corp",              0.0820%float, "Technology");
    ("AAPL",  "Apple Inc",                0.0790%float, "Technology");
    ("AMZN",  "Amazon.com Inc",           0.0530%float, "Consumer Discretionary");
    ("GOOGL", "Alphabet Inc Class A",     0.0390%float, "Communication Services");
    ("META",  "Meta Platforms Inc",       0.0380%float, "Communication Services");
    ("GOOG",  "Alphabet Inc Class C",     0.0330%float, "Communication Services");
    ("TSLA",  "Tesla Inc",                0.0290%float, "Consumer Discretionary");
    ("COST",  "Costco Wholesale Corp",    0.0250%float, "Consumer Staples");
    ("AVGO",  "Broadcom Inc",             0.0240%float, "Technology");
    ("NFLX",  "Netflix Inc",              0.0170%float, "Communication Services");
    ("AMD",   "Advanced Micro Devices",   0.0160%float, "Technology");
    ("ADBE",  "Adobe Inc",                0.0130%float, "Technology");
    ("QCOM",  "QUALCOMM Inc",             0.0120%float, "Technology");
    ("PEP",   "PepsiCo Inc",              0.0120%float, "Consumer Staples");
    ("AMAT",  "Applied Materials Inc",    0.0110%float, "Technology");
    ("CSCO",  "Cisco Systems Inc",        0.0100%float, "Technology");
    ("TXN",   "Texas Instruments Inc",    0.0090%float, "Technology");
    ("INTC",  "Intel Corp",               0.0080%float, "Technology");
    ("INTU",  "Intuit Inc",               0.0080%float, "Technology");
    ("AMGN",  "Amgen Inc",                0.0070%float, "Health Care");
    ("ISRG",  "Intuitive Surgical Inc",   0.0070%float, "Health Care");
    ("HON",   "Honeywell International",  0.0060%float, "Industrials");
    ("BKNG",  "Booking Holdings Inc",     0.0060%float, "Consumer Discretionary");
    ("SBUX",  "Starbucks Corp",           0.0060%float, "Consumer Discretionary");
    ("GILD",  "Gilead Sciences Inc",      0.0050%float, "Health Care");
    ("MDLZ",  "Mondelez International",   0.0050%float, "Consumer Staples");
    ("ADP",   "Automatic Data Processing", 0.0050%float, "Technology");
    ("PANW",  "Palo Alto Networks Inc",   0.0050%float, "Technology");
    ("REGN",  "Regeneron Pharmaceuticals", 0.0040%float, "Health Care") ].

(** [pd.DataFrame(_STATIC_HOLDINGS)] *)
Definition static_frame : Frame :=
  [ ("ticker", StrCol (map (fun r => Some (fst (fst (fst r)))) _STATIC_HOLDINGS));
    ("name", StrCol (map (fun r => Some (snd (fst (fst r)))) _STATIC_HOLDINGS));
    ("weight", NumCol (map (fun r => snd (fst r)) _STATIC_HOLDINGS));
    ("sector", StrCol (map (fun r => Some (snd r)) _STATIC_HOLDINGS)) ].

(** Return the hardcoded static fallback list. Sorting a table that has its
    numeric weight column cannot fail. *)
Definition _get_static_holdings : Frame :=
  match Table.sort_values_desc "weight" static_frame with
  | Ok df => df
  | Raise => static_frame
  end.

(** ** Market status *)

Inductive Session : Type :=
| SessionPre
| SessionOpen
| SessionAfter
| SessionClosed.

Record MarketStatus : Type := mkMarketStatus {
  session : Session;
  label : string;
  refresh_interval : nat;
  time_et : string
}.

(** The current instant in Eastern Time: [now.weekday()], the hour and
    minute of [now.time()] and the formatted text. *)
Record LocalTime : Type := mkLocalTime {
  weekday : nat;
  hour : nat;
  minute : nat;
  formatted : string
}.

(** Determine current US market session based on Eastern Time. *)
Definition get_market_status (now : LocalTime) : MarketStatus :=
  let base := mkMarketStatus SessionClosed "Market Closed" 300 (formatted now) in
  if 5 <=? weekday now then
    mkMarketStatus SessionClosed "Market Closed (Weekend)" 300 (formatted now)
  else
    let t := hour now * 60 + minute now in
    if (4 * 60 <=? t) && (t <? 9 * 60 + 30) then
      mkMarketStatus SessionPre "Pre-Market" 120 (formatted now)
    else if (9 * 60 + 30 <=? t) && (t <? 16 * 60) then
      mkMarketStatus SessionOpen "Market Open" 75 (formatted now)
    else if (16 * 60 <=? t) && (t <? 20 * 60) then
      mkMarketStatus SessionAfter "After-Hours" 120 (formatted now)
    else base.

(** ** The aggregate result and the cache *)

Module Entry.
(** One element of [holdings_list]. *)
Record t : Type := mk {
  ticker : string;
  name : string;
  market_cap : option float;
  weight : float;
  price : option float;
  change_dollar : option float;
  change_pct : float;
  contribution : float;
  valid : bool
}.
End Entry.

Module Fund.
(** The ["qqq"] summary. *)
Record t : Type := mk {
  price : option float;
  change_dollar : option float;
  change_pct : option float;
  total_contribution : float
}.
End Fund.

Module Aggregate.
Record t : Type := mk {
  qqq : Fund.t;
  holdings : list Entry.t;
  market_status : MarketStatus;
  fetched_at : string
}.
End Aggregate.

Module Cache.
(** The module-level [_cache]. *)
Record t : Type := mk {
  data : option Aggregate.t;
  timestamp : float;
  holdings : option Frame;
  holdings_ts : float;
  market_caps : option (PyDict.dict (option float));
  market_caps_ts : float
}.

Definition initial : t := mk None 0 None 0 None 0.
End Cache.

(** seconds - how long before price data is stale *)
Definition PRICE_CACHE_TTL : float := 60.
(** 24 hours - holdings rarely change *)
Definition HOLDINGS_CACHE_TTL : float := 86400.

(** [(now - ts) < ttl] *)
Definition within_ttl (now ts ttl : float) : bool := (now - ts <? ttl)%float.

(** What the three remote holdings sources answer. *)
Record Sources : Type := mkSources {
  invesco_csv : result Frame;
  slickcharts_html : result (list Frame);
  yfinance_top : result (option TopHoldings)
}.

(** [df is None or df.empty] *)
Definition unusable (df : option Frame) : bool :=
  match df with
  | None => true
  | Some d => Table.empty d
  end.

(** The 4-layer fallback of [get_qqq_holdings], on a cache miss. *)
Definition holdings_chain (py : Builtins) (src : Sources) : Frame :=
  let df := _fetch_holdings_invesco py (invesco_csv src) in
  let df := if unusable df then _fetch_holdings_slickcharts py (slickcharts_html src) else df in
  let df := if unusable df then _fetch_holdings_yfinance py (yfinance_top src) else df in
  match df with
  | Some d => if Table.empty d then _get_static_holdings else d
  | None => _get_static_holdings
  end.

(** Returns the holdings table, sorted by weight descending, and the cache
    it leaves. Every tier catches its own exceptions and nothing else in the
    body can raise, so the function is total. *)
Definition get_qqq_holdings (py : Builtins) (now : float) (src : Sources) (c : Cache.t)
    : Frame * Cache.t :=
  match Cache.holdings c with
  | Some cached =>
      if within_ttl now (Cache.holdings_ts c) HOLDINGS_CACHE_TTL then (cached, c)
      else
        let df := holdings_chain py src in
        (df, Cache.mk (Cache.data c) (Cache.timestamp c) (Some df) now
                      (Cache.market_caps c) (Cache.market_caps_ts c))
  | None =>
      let df := holdings_chain py src in
      (df, Cache.mk (Cache.data c) (Cache.timestamp c) (Some df) now
                    (Cache.market_caps c) (Cache.market_caps_ts c))
  end.

(** ** Market caps *)

(** The vendor's [fast_info.market_cap] of a ticker: a number, [None], or an
    exception. *)
Definition FastInfo : Type := string -> result (option float).

(** Fetch market cap for one ticker: [float(mc) if mc else None], and
    [None] on any exception. *)
Definition _fetch_single_market_cap (fast_info : FastInfo) (ticker : string)
    : string * option float :=
  match fast_info (_normalize_ticker ticker) with
  | Ok (Some mc) => (ticker, if PyFloat.truthy mc then Some mc else None)
  | Ok None => (ticker, None)
  | Raise => (ticker, None)
  end.

(** Fetch market cap (USD) for all tickers, cached for 24 hours. The
    requests of the worker pool are independent; their results are entered
    in the order of the tickers. *)
Definition get_market_caps (fast_info : FastInfo) (now : float) (tickers : list string)
    (c : Cache.t) : PyDict.dict (option float) * Cache.t :=
  let fetch_all :=
    fold_left
      (fun result t =>
         let r := _fetch_single_market_cap fast_info t in
         PyDict.set (fst r) (snd r) result)
      tickers [] in
  match Cache.market_caps c with
  | Some cached =>
      if within_ttl now (Cache.market_caps_ts c) HOLDINGS_CACHE_TTL then (cached, c)
      else
        (fetch_all, Cache.mk (Cache.data c) (Cache.timestamp c) (Cache.holdings c)
                             (Cache.holdings_ts c) (Some fetch_all) now)
  | None =>
      (fetch_all, Cache.mk (Cache.data c) (Cache.timestamp c) (Cache.holdings c)
                           (Cache.holdings_ts c) (Some fetch_all) now)
  end.

(** ** Master data function *)

(** Everything outside the process that one call of [get_qqq_data] reads:
    the three readings of [time.time()], the Eastern and the UTC wall clock,
    and the answers of the remote sources. *)
Record World : Type := mkWorld {
  time_data : float;
  time_holdings : float;
  time_caps : float;
  local_time : LocalTime;
  utcnow_iso : string;
  sources : Sources;
  yf_download : Download;
  fast_info : FastInfo
}.

(** [holdings_df["ticker"].tolist()] as the batch fetch needs it: text only,
    because normalising a cell that is not text raises. *)
Definition ticker_texts (c : Column) : result (list string) :=
  match c with
  | StrCol cells =>
      fold_right
        (fun o acc =>
           match o with
           | Some s => l <- acc ;; Ok (s :: l)
           | None => Raise
           end)
        (Ok []) cells
  | NumCol [] => Ok []
  | NumCol _ => Raise
  end.

(** [float(row["weight"])] down the rows. *)
Definition weight_floats (py : Builtins) (c : Column) : result (list float) :=
  match c with
  | NumCol ws => Ok ws
  | StrCol cells => astype_float py cells
  end.

Definition cell_at (i : nat) (c : Column) : list Cell :=
  match c with
  | StrCol cells =>
      match nth_error cells i with
      | Some (Some s) => [CText s]
      | Some None => [CNum nan]
      | None => []
      end
  | NumCol cells =>
      match nth_error cells i with
      | Some x => [CNum x]
      | None => []
      end
  end.

(** [str(row.get("name", ticker))] for row [i]. *)
Definition row_name (py : Builtins) (df : Frame) (i : nat) (ticker : string) : string :=
  match Table.labelled "name" df with
  | [] => ticker
  | cols =>
      match flat_map (cell_at i) cols with
      | [CText s] => s
      | cells => str_of_cells py cells
      end
  end.

(** The body of the loop over the holdings rows, for one row. *)
Definition holding_entry (prices : PyDict.dict Quote)
    (market_caps : PyDict.dict (option float))
    (ticker name : string) (weight : float) : Entry.t :=
  let pd_ :=
    match PyDict.get ticker prices with
    | Some q => q
    | None => _empty_price
    end in
  let change_pct := PyFloat.or_default (change_pct pd_) 0 in
  let contrib := calculate_contribution weight change_pct in
  {| Entry.ticker := ticker;
     Entry.name := name;
     Entry.market_cap :=
       match PyDict.get ticker market_caps with
       | Some mc => mc
       | None => None
       end;
     Entry.weight := PyFloat.round (weight * 100) 4;
     Entry.price := price pd_;
     Entry.change_dollar := change_dollar pd_;
     Entry.change_pct := change_pct;
     Entry.contribution := contrib;
     Entry.valid := valid pd_ |}.

Fixpoint insert_by_abs (e : Entry.t) (l : list Entry.t) : list Entry.t :=
  match l with
  | [] => [e]
  | y :: l' =>
      if (abs (Entry.contribution e) <? abs (Entry.contribution y))%float
      then y :: insert_by_abs e l'
      else e :: l
  end.

(** [holdings_list.sort(key=lambda x: abs(x["contribution"]), reverse=True)]:
    largest absolute contribution first, equal keys in their given order
    (the sort is stable, reversed or not). With keys that [<] orders
    totally, that is without NaN, this is the one list a stable sort can
    return. *)
Definition sort_by_abs_contribution (l : list Entry.t) : list Entry.t :=
  fold_right insert_by_abs [] l.

(** The rows of the holdings table as the loop reads them. *)
Definition holding_rows (py : Builtins) (holdings_df : Frame) (tickers : list string)
    : result (list (string * string * float)) :=
  match tickers with
  | [] => Ok []
  | _ =>
      wcol <- Table.get_col "weight" holdings_df ;;
      weights <- weight_floats py wcol ;;
      Ok (map (fun itw =>
                 let i := fst (fst itw) in
                 let ticker := snd (fst itw) in
                 (ticker, row_name py holdings_df i ticker, snd itw))
              (combine (combine (seq 0 (List.length tickers)) tickers) weights))
  end.

(** The body of [get_qqq_data] past the cache test: the full pipeline, and
    the cache it leaves (also when it raises). *)
Definition compute_qqq_data (py : Builtins) (w : World) (c : Cache.t)
    : result Aggregate.t * Cache.t :=
  let now := time_data w in
  let market := get_market_status (local_time w) in
  let (holdings_df, c1) := get_qqq_holdings py (time_holdings w) (sources w) c in
  match (tcol <- Table.get_col "ticker" holdings_df ;; ticker_texts tcol) with
  | Raise => (Raise, c1)
  | Ok tickers =>
      (* Include QQQ itself in the batch so we get the ETF's own price too *)
      let all_tickers := "QQQ" :: tickers in
      let prices := get_prices_batch (yf_download w) all_tickers in
      let (market_caps, c2) := get_market_caps (fast_info w) (time_caps w) tickers c1 in
      let qqq_pd :=
        match PyDict.get "QQQ" prices with
        | Some q => q
        | None => _empty_price
        end in
      match holding_rows py holdings_df tickers with
      | Raise => (Raise, c2)
      | Ok rws =>
          let holdings_list :=
            map (fun r => holding_entry prices market_caps (fst (fst r)) (snd (fst r)) (snd r))
                rws in
          let total_contribution :=
            fold_left (fun acc e => (acc + Entry.contribution e)%float) holdings_list 0%float in
          let result :=
            {| Aggregate.qqq :=
                 {| Fund.price := price qqq_pd;
                    Fund.change_dollar := change_dollar qqq_pd;
                    Fund.change_pct := change_pct qqq_pd;
                    Fund.total_contribution := PyFloat.round total_contribution 4 |};
               Aggregate.holdings := sort_by_abs_contribution holdings_list;
               Aggregate.market_status := market;
               Aggregate.fetched_at := (utcnow_iso w ++ "Z")%string |} in
          (Ok result,
           Cache.mk (Some result) now (Cache.holdings c2) (Cache.holdings_ts c2)
                    (Cache.market_caps c2) (Cache.market_caps_ts c2))
      end
  end.

(** Returns the full dataset for the API endpoint, respecting the in-memory
    TTL cache for price data. *)
Definition get_qqq_data (py : Builtins) (w : World) (c : Cache.t)
    : result Aggregate.t * Cache.t :=
  match Cache.data c with
  | Some cached =>
      if within_ttl (time_data w) (Cache.timestamp c) PRICE_CACHE_TTL then (Ok cached, c)
      else compute_qqq_data py w c
  | None => compute_qqq_data py w c
  end.

(** [/api/refresh]: expire the price cache. *)
Definition api_force_refresh (c : Cache.t) : Cache.t :=
  Cache.mk (Cache.data c) 0 (Cache.holdings c) (Cache.holdings_ts c)
           (Cache.market_caps c) (Cache.market_caps_ts c).

(** The cache states the process can be in: the initial one and those the
    public operations leave, whatever the outside world answers. *)
Inductive Reachable (py : Builtins) : Cache.t -> Prop :=
| reach_initial : Reachable py Cache.initial
| reach_data : forall w c, Reachable py c -> Reachable py (snd (get_qqq_data py w c))
| reach_holdings : forall now src c,
    Reachable py c -> Reachable py (snd (get_qqq_holdings py now src c))
| reach_market_caps : forall fi now tickers c,
    Reachable py c -> Reachable py (snd (get_market_caps fi now tickers c))
| reach_refresh : forall c, Reachable py c -> Reachable py (api_force_refresh c).

(** ** Vocabulary of the properties *)

(** A selection whose rows hold one cell each: a pandas Series. *)
Definition is_series (s : list (list float)) : Prop :=
  Forall (fun row => List.length row = 1) s.

Definition no_missing (s : list (list float)) : Prop :=
  Forall (fun row => Forall (fun v => is_nan v = false) row) s.

(** The value [k] places before the end of a series: [k = 0] is the last
    value, [k = 1] the second-to-last. *)
Definition value_from_end (k : nat) (s : list (list float)) : option float :=
  match nth_error (rev s) k with
  | Some [v] => Some v
  | _ => None
  end.

(** Every row of the table has one cell per column. *)
Definition well_formed (df : PriceFrame) : Prop :=
  Forall (fun row => List.length row = n_columns (columns df)) (rows df).

(** The column keys are distinct, and a two-level table is read by the
    multi-ticker branch. *)
Definition distinct_columns (n_tickers : nat) (df : PriceFrame) : Prop :=
  match columns df with
  | FlatIndex labels => NoDup labels
  | MultiIndex keys => NoDup keys /\ 1 < n_tickers
  end.

(** In the words of the specification: the sources are tried in their fixed
    order and the first one that yields a usable (present, non-empty) table
    wins; the fallback is used when none does. *)
Fixpoint first_usable (tiers : list (option Frame)) (fallback : Frame) : Frame :=
  match tiers with
  | [] => fallback
  | Some d :: rest => if Table.empty d then first_usable rest fallback else d
  | None :: rest => first_usable rest fallback
  end.

(** Columns labelled [l] all satisfy [ok]. *)
Definition all_labelled (l : string) (ok : Column -> Prop) (df : Frame) : Prop :=
  forall c, In (l, c) df -> ok c.

(** A property of columns that survives dropping and reordering rows. *)
Definition row_closed (ok : Column -> Prop) : Prop :=
  (forall m c, ok c -> ok (Table.col_filter m c)) /\
  (forall idx c, ok c -> ok (Table.col_take idx c)).

Definition good_ticker (o : option string) : Prop :=
  exists s, o = Some s /\ ticker_format s = true.

Definition ticker_column (c : Column) : Prop :=
  exists cells, c = StrCol cells /\ Forall good_ticker cells.

Definition weight_column (ok : float -> Prop) (c : Column) : Prop :=
  exists ws, c = NumCol ws /\ Forall ok ws.

Definition in_unit (w : float) : Prop :=
  (0 <=? w)%float = true /\ (w <=? 1)%float = true.

Definition positive (w : float) : Prop := (0 <? w)%float = true.

(** The table has a ticker column and every ticker matches the ticker
    format. *)
Definition tickers_valid (df : Frame) : Prop :=
  Table.has_col "ticker" df = true /\ all_labelled "ticker" ticker_column df.

(** The table has a weight column and every weight lies in [0, 1]. *)
Definition weights_in_unit (df : Frame) : Prop :=
  Table.has_col "weight" df = true /\ all_labelled "weight" (weight_column in_unit) df.

Definition weights_positive (df : Frame) : Prop :=
  Table.has_col "weight" df = true /\ all_labelled "weight" (weight_column positive) df.

(** The holdings sets of the tiers that validate their tickers. *)
Inductive validated_output (py : Builtins) (df : Frame) : Prop :=
| from_invesco : forall response,
    _fetch_holdings_invesco py response = Some df -> validated_output py df
| from_slickcharts : forall response,
    _fetch_holdings_slickcharts py response = Some df -> validated_output py df
| from_static : df = _get_static_holdings -> validated_output py df.

(** [a] may stand before [b]: its absolute contribution is at least [b]'s. *)
Definition abs_ge (a b : Entry.t) : Prop :=
  (abs (Entry.contribution b) <=? abs (Entry.contribution a))%float = true.

Definition no_nan_contribution (l : list Entry.t) : Prop :=
  Forall (fun e => is_nan (Entry.contribution e) = false) l.

(** [a] is ranked before [b] in [l]. *)
Definition ranked_before (a b : Entry.t) (l : list Entry.t) : Prop :=
  exists l1 l2 l3, l = (l1 ++ a :: l2 ++ b :: l3)%list.

(** A quote is either valid or the empty one. *)
Definition quote_ok (q : Quote) : Prop :=
  valid q = false -> q = _empty_price.

(** What holds of an entry without a valid quote. *)
Definition entry_ok (e : Entry.t) : Prop :=
  Entry.valid e = false ->
  Entry.change_pct e = 0%float /\ Entry.price e = None /\ Entry.change_dollar e = None /\
  (is_finite (Entry.weight e) = true -> (Entry.contribution e =? 0)%float = true).

Definition result_ok (r : Aggregate.t) : Prop :=
  (no_nan_contribution (Aggregate.holdings r) -> StronglySorted abs_ge (Aggregate.holdings r)) /\
  Forall entry_ok (Aggregate.holdings r).

(** The invariant of the cache: cached holdings are never empty and a
    cached result has the properties of a computed one. *)
Definition cache_ok (c : Cache.t) : Prop :=
  (forall h, Cache.holdings c = Some h -> Table.empty h = false) /\
  (forall d, Cache.data c = Some d -> result_ok d).

Fixpoint last_char (s : string) : option ascii :=
  match s with
  | EmptyString => None
  | String c EmptyString => Some c
  | String _ s' => last_char s'
  end.

(** ** Sample inputs *)

Module Demo.

Definition is_digit (c : ascii) : bool :=
  let n := nat_of_ascii c in (48 <=? n) && (n <=? 57).

Fixpoint all_digits (s : string) (acc : N) : option N :=
  match s with
  | EmptyString => Some acc
  | String c s' =>
      if is_digit c then all_digits s' (acc * 10 + N.of_nat (nat_of_ascii c - 48))%N
      else None
  end.

Fixpoint split_dot (s : string) : string * string :=
  match s with
  | EmptyString => (EmptyString, EmptyString)
  | String c s' =>
      if Ascii.eqb c "." then (EmptyString, s')
      else let (a, b) := split_dot s' in (String c a, b)
  end.

(** [float(s)] on plain decimal text: a sign, digits and a fraction. The
    decimal is converted to the nearest binary64, as Python does; any other
    text is outside this sample reader. *)
Definition of_decimal_text (s : string) : option float :=
  let (neg, body) :=
    match s with
    | String "-" r => (true, r)
    | String "+" r => (false, r)
    | _ => (false, s)
    end in
  let (ip, fp) := split_dot body in
  if String.length ip + String.length fp =? 0 then None
  else
    match all_digits (ip ++ fp) 0 with
    | Some (Npos k) => Some (PyFloat.dec_quotient neg k (PyFloat.pow10 (String.length fp)))
    | Some N0 => Some (if neg then (-0)%float else 0%float)
    | None => None
    end.

(** The conversions used by the samples; no sample renders a number as
    text. *)
Definition py : Builtins :=
  mkBuiltins of_decimal_text of_decimal_text (fun _ => "nan") (fun _ => "nan").

(** An Invesco export after [pd.read_csv]. *)
Definition invesco_table : Frame :=
  [ ("Fund Ticker", StrCol [Some "QQQ"; Some "QQQ"; Some "QQQ"; Some "QQQ"]);
    ("Holding Ticker", StrCol [Some "AAPL "; Some "msft"; Some "NFLX"; None]);
    ("Name", StrCol [Some "Apple Inc"; Some "Microsoft Corp"; Some "Netflix Inc"; Some "Cash"]);
    ("Weight", StrCol [Some "30.0%"; Some "50.0%"; Some "1.5%"; Some "0.0%"]);
    ("Sector", StrCol [Some "Information Technology"; Some "Information Technology";
                       Some "Communication Services"; None]) ].

(** A vendor summary whose largest weight, 1.4, is below the threshold of
    1.5 above which the yfinance tier divides by 100. *)
Definition heavy_top : TopHoldings :=
  mkTopHoldings "Symbol" (StrCol [Some "AAPL"; Some "MSFT"])
    [ ("Name", StrCol [Some "Apple Inc"; Some "Microsoft Corp"]);
      ("Holding Percent", NumCol [1.4%float; 1.2%float]) ].

Definition column_keys : list (string * string) :=
  [ ("QQQ", "Close"); ("QQQ", "Volume"); ("AAPL", "Close"); ("AAPL", "Volume");
    ("MSFT", "Close"); ("MSFT", "Volume") ].

(** Two-minute bars of the day; the last bar of MSFT has no close yet. *)
Definition intraday : PriceFrame :=
  mkPriceFrame (MultiIndex column_keys)
    [ [400.5%float; 1000%float; 105.25%float; 500%float; 91%float; 300%float];
      [401.237%float; 1100%float; 110%float; 550%float; 90%float; 310%float];
      [401.237%float; 1200%float; 110%float; 600%float; nan; 320%float] ].

(** Daily bars, the last one being today's partial bar. *)
Definition daily : PriceFrame :=
  mkPriceFrame (MultiIndex column_keys)
    [ [398%float; 90000%float; 99%float; 50000%float; 101%float; 30000%float];
      [400.114%float; 91000%float; 100%float; 51000%float; 100%float; 31000%float];
      [401%float; 20000%float; 109.5%float; 9000%float; 90.5%float; 8000%float] ].

Definition download : Download :=
  fun _ period _ => if String.eqb period "1d" then Some intraday else Some daily.

Definition world : World :=
  {| time_data := 1700000000%float;
     time_holdings := 1700000000.25%float;
     time_caps := 1700000002%float;
     local_time := mkLocalTime 1 10 0 "10:00:00 AM ET";
     utcnow_iso := "2023-11-14T15:00:00";
     sources := mkSources (Ok invesco_table) Raise Raise;
     yf_download := download;
     fast_info :=
       fun t => if String.eqb t "AAPL" then Ok (Some 3000000000000%float)
                else if String.eqb t "MSFT" then Ok None
                else Raise |}.

Definition outcome : result Aggregate.t * Cache.t :=
  Eval vm_compute in get_qqq_data py world Cache.initial.

Definition empty_result : Aggregate.t :=
  Aggregate.mk (Fund.mk None None None 0) [] (get_market_status (local_time world)) "".

Definition result : Aggregate.t :=
  match fst outcome with
  | Ok r => r
  | Raise => empty_result
  end.

Definition cache_after : Cache.t := snd outcome.

(** A vendor summary with a class share in the dotted spelling. *)
Definition dotted_top : TopHoldings :=
  mkTopHoldings "Symbol" (StrCol [Some "AAPL"; Some "BRK.B"])
    [ ("Name", StrCol [Some "Apple Inc"; Some "Berkshire Hathaway Inc"]);
      ("Holding Percent", NumCol [0.08%float; 0.01%float]) ].

(** An Invesco export with an offsetting position. *)
Definition offset_table : Frame :=
  [ ("Holding Ticker", StrCol [Some "AAPL"; Some "CASH"]);
    ("Weight", StrCol [Some "100.5%"; Some "-0.5%"]) ].

(** The entry of NFLX, which has no quote in the sample tables. *)
Definition nflx_entry : Entry.t :=
  Entry.mk "NFLX" "Netflix Inc" None 1.5 None None 0 0 false.

(** The cache after a first call for the market caps of AAPL and MSFT. *)
Definition caps_cache : Cache.t :=
  snd (get_market_caps (fast_info world) 1700000000 ["AAPL"; "MSFT"] Cache.initial).

(** What the Invesco tier makes of [invesco_table]. *)
Definition invesco_holdings : Frame :=
  [ ("ticker", StrCol [Some "MSFT"; Some "AAPL"; Some "NFLX"]);
    ("name", StrCol [Some "Microsoft Corp"; Some "Apple Inc"; Some "Netflix Inc"]);
    ("weight", NumCol [0.5%float; 0.3%float; 0.015%float]);
    ("sector", StrCol [Some "Information Technology"; Some "Information Technology";
                       Some "Communication Services"]) ].

(** What the yfinance tier makes of [heavy_top]. *)
Definition heavy_holdings : Frame :=
  [ ("ticker", StrCol [Some "AAPL"; Some "MSFT"]);
    ("name", StrCol [Some "Apple Inc"; Some "Microsoft Corp"]);
    ("weight", NumCol [1.4%float; 1.2%float]);
    ("sector", StrCol [Some "Unknown"; Some "Unknown"]) ].

End Demo.

(** ** The header row of the Invesco export *)

(** The test of the loop over the lines of the response: a line that names
    the ticker (or holding) column and the weight column. *)
Definition is_header_line (line : string) : bool :=
  let line_lower := PyStr.lower line in
  (PyStr.contains "ticker" line_lower || PyStr.contains "holding" line_lower)
  && PyStr.contains "weight" line_lower.

(** The loop with its [break], counting from [i]. *)
Fixpoint first_header (i : nat) (lines : list string) : option nat :=
  match lines with
  | [] => None
  | line :: rest => if is_header_line line then Some i else first_header (S i) rest
  end.

(** Invesco CSV has metadata rows before the actual data header; without a
    header line the index stays 0. *)
Definition header_row_idx (lines : list string) : nat :=
  match first_header 0 lines with
  | Some i => i
  | None => 0
  end.

(** [lines[header_row_idx:]], the lines handed to the CSV parser. *)
Definition csv_lines (lines : list string) : list string :=
  skipn (header_row_idx lines) lines.

(** ** Vocabulary of the further properties *)

(** A character that normalisation leaves alone. *)
Definition plain_char (c : ascii) : Prop := c <> "."%char /\ c <> "/"%char.

(** The text of one newline. *)
Definition newline_text : string := String TickerRe.newline EmptyString.

(** [df is None or df.empty] for a price table. *)
Definition no_table (df : option PriceFrame) : bool :=
  match df with
  | None => true
  | Some d => price_frame_empty d
  end.

(** A two-level table names the ticker when one level of some column key is
    the ticker, letter case apart; a flat table is read without looking for
    the ticker. *)
Definition names_ticker (ticker : string) (df : PriceFrame) : bool :=
  match columns df with
  | MultiIndex keys =>
      existsb (fun k => String.eqb (PyStr.upper (fst k)) (PyStr.upper ticker)
                        || String.eqb (PyStr.upper (snd k)) (PyStr.upper ticker)) keys
  | FlatIndex _ => true
  end.

(** The order [sort_values(ascending=False)] leaves: the present weights in
    descending order, then the missing ones. *)
Definition weights_descending (ws : list float) : Prop :=
  exists present missing,
    ws = (present ++ missing)%list /\
    StronglySorted (fun a b => (b <=? a)%float = true) present /\
    Forall (fun w => is_nan w = false) present /\
    Forall (fun w => is_nan w = true) missing.

(** The table has one weight column, numeric and in that order. *)
Definition sorted_by_weight (df : Frame) : Prop :=
  exists ws, Table.get_col "weight" df = Ok (NumCol ws) /\ weights_descending ws.

(** The texts of the cells that are not missing, in order. *)
Definition present_texts (cells : list (option string)) : list string :=
  flat_map (fun o => match o with Some s => [s] | None => [] end) cells.

(** The tickers the cleaning step keeps: stripped, in capitals, matching the
    pattern. *)
Definition cleaned_tickers (cells : list (option string)) : list string :=
  filter TickerRe.re_match (map (fun s => PyStr.upper (PyStr.strip s)) (present_texts cells)).

(** An entry marked valid has its price and its change in dollars. *)
Definition entry_complete (e : Entry.t) : Prop :=
  Entry.valid e = true -> Entry.price e <> None /\ Entry.change_dollar e <> None.

(** The fund summary has its three quote fields, or none of them. *)
Definition fund_all_or_nothing (f : Fund.t) : Prop :=
  (Fund.price f = None <-> Fund.change_dollar f = None) /\
  (Fund.price f = None <-> Fund.change_pct f = None).

Definition result_complete (r : Aggregate.t) : Prop :=
  Forall entry_complete (Aggregate.holdings r) /\ fund_all_or_nothing (Aggregate.qqq r).

(** [t] is the last of the tickers with its normal form. *)
Definition last_spelling (t : string) (tickers : list string) : Prop :=
  exists before after,
    tickers = (before ++ t :: after)%list /\
    forall u, In u after -> _normalize_ticker u <> _normalize_ticker t.

(** The running sum of the loop over the holdings, rounded as the summary
    reports it. *)
Definition total_of (l : list Entry.t) : float :=
  PyFloat.round (fold_left (fun acc e => (acc + Entry.contribution e)%float) l 0%float) 4.

(** The labels of a holdings table. *)
Definition holdings_labels : list string := ["ticker"; "name"; "weight"; "sector"].

Definition holdings_schema (df : Frame) : Prop :=
  forall l, Table.has_col l df = true <-> In l holdings_labels.

(** Every column of the table has [n] rows. *)
Definition rectangular (n : nat) (df : Frame) : Prop :=
  Forall (fun lc => Table.col_length (snd lc) = n) df.

Definition col_cells_perm (c c' : Column) : Prop :=
  match c, c' with
  | StrCol a, StrCol b => Permutation a b
  | NumCol a, NumCol b => Permutation a b
  | _, _ => False
  end.

(** A vendor summary indexed by numbers instead of symbols. *)
Definition numbered_top : TopHoldings :=
  mkTopHoldings "Symbol" (NumCol [1%float; 2%float])
    [ ("Name", StrCol [Some "Apple Inc"; Some "Microsoft Corp"]);
      ("Holding Percent", NumCol [0.08%float; 0.07%float]) ].

(** ** Rounding to decimals, in the words of the specification *)

(** [k] is the integer nearest to the exact value of [m * 2^e * p], and the
    even one when two integers are equally near. *)
Definition nearest_integer (m : BinNums.positive) (e : Z) (p : BinNums.positive) (k : Z) : Prop :=
  match e with
  | Zneg d =>
      (2 * Z.abs (Zpos m * Zpos p - k * 2 ^ Zpos d) <= 2 ^ Zpos d)%Z /\
      ((2 * Z.abs (Zpos m * Zpos p - k * 2 ^ Zpos d) = 2 ^ Zpos d)%Z -> Z.even k = true)
  | _ => k = (Zpos m * 2 ^ e * Zpos p)%Z
  end.

(** The binary64 value of the decimal [(-1)^s * k / 10^n]: the correctly
    rounded quotient of the two integers, a zero keeping the sign. *)
Definition decimal (s : bool) (k : Z) (n : nat) : float :=
  match k with
  | Zpos k => PyFloat.dec_quotient s k (PyFloat.pow10 n)
  | _ => if s then (-0)%float else 0%float
  end.

(** [y] is [x] rounded to [n] decimals: for a finite [x] of sign [s] and
    magnitude [m * 2^e], [y] is the decimal of [k] units of [10^-n], with
    [k] the integer nearest to the magnitude in those units; a zero, an
    infinity and NaN are their own roundings. *)
Definition rounded_to_decimals (n : nat) (x y : float) : Prop :=
  match Prim2SF x with
  | S754_finite s m e =>
      exists k, (0 <= k)%Z /\ nearest_integer m e (PyFloat.pow10 n) k /\ y = decimal s k n
  | _ => y = x
  end.

(** ** Sample days with a reordering, an infinite close and a blank weight *)

Module Movers.

(** An Invesco export after [pd.read_csv], heaviest holding first. *)
Definition invesco_table : Frame :=
  [ ("Holding Ticker", StrCol [Some "AAPL"; Some "MSFT"; Some "NFLX"]);
    ("Name", StrCol [Some "Apple Inc"; Some "Microsoft Corp"; Some "Netflix Inc"]);
    ("Weight", StrCol [Some "50.0%"; Some "30.0%"; Some "20.0%"]) ].

Definition column_keys : list (string * string) :=
  [ ("QQQ", "Close"); ("AAPL", "Close"); ("MSFT", "Close"); ("NFLX", "Close") ].

(** Daily bars: AAPL rises 6%, MSFT is flat, NFLX falls 25%. *)
Definition daily : PriceFrame :=
  mkPriceFrame (MultiIndex column_keys)
    [ [400%float; 100%float; 50%float; 100%float];
      [404%float; 106%float; 50%float; 75%float] ].

(** The same bars with an infinite close for MSFT on both days. *)
Definition daily_infinite : PriceFrame :=
  mkPriceFrame (MultiIndex column_keys)
    [ [400%float; 100%float; infinity; 100%float];
      [404%float; 106%float; infinity; 75%float] ].

Definition world_of (d : PriceFrame) : World :=
  {| time_data := 1700000000%float;
     time_holdings := 1700000000.25%float;
     time_caps := 1700000002%float;
     local_time := mkLocalTime 1 17 0 "05:00:00 PM ET";
     utcnow_iso := "2023-11-14T22:00:00";
     sources := mkSources (Ok invesco_table) Raise Raise;
     yf_download := fun _ period _ => if String.eqb period "5d" then Some d else None;
     fast_info := fun _ => Raise |}.

Definition world : World := world_of daily.
Definition world_infinite : World := world_of daily_infinite.

Definition outcome : result Aggregate.t * Cache.t :=
  Eval vm_compute in get_qqq_data Demo.py world Cache.initial.

Definition outcome_infinite : result Aggregate.t * Cache.t :=
  Eval vm_compute in get_qqq_data Demo.py world_infinite Cache.initial.

Definition result : Aggregate.t :=
  match fst outcome with
  | Ok r => r
  | Raise => Demo.empty_result
  end.

Definition result_infinite : Aggregate.t :=
  match fst outcome_infinite with
  | Ok r => r
  | Raise => Demo.empty_result
  end.

(** The entries of AAPL and NFLX on both days, and that of MSFT on the day
    of the infinite close. *)
Definition aapl_entry : Entry.t :=
  Entry.mk "AAPL" "Apple Inc" None 50 (Some 106%float) (Some 6%float) 6 3 true.

Definition nflx_entry : Entry.t :=
  Entry.mk "NFLX" "Netflix Inc" None 20 (Some 75%float) (Some (-25)%float) (-25) (-5) true.

Definition msft_entry_infinite : Entry.t :=
  Entry.mk "MSFT" "Microsoft Corp" None 30 (Some infinity) (Some nan) nan nan true.

End Movers.

Module Blank.

(** An Invesco export whose last row has no weight. *)
Definition invesco_table : Frame :=
  [ ("Holding Ticker", StrCol [Some "AAPL"; Some "MSFT"; Some "NFLX"]);
    ("Name", StrCol [Some "Apple Inc"; Some "Microsoft Corp"; Some "Netflix Inc"]);
    ("Weight", StrCol [Some "30.0%"; Some "50.0%"; None]) ].

Definition world : World :=
  {| time_data := 1700000000%float;
     time_holdings := 1700000000.25%float;
     time_caps := 1700000002%float;
     local_time := mkLocalTime 1 10 0 "10:00:00 AM ET";
     utcnow_iso := "2023-11-14T15:00:00";
     sources := mkSources (Ok invesco_table) Raise Raise;
     yf_download := Demo.download;
     fast_info := fun _ => Raise |}.

Definition outcome : result Aggregate.t * Cache.t :=
  Eval vm_compute in get_qqq_data Demo.py world Cache.initial.

Definition result : Aggregate.t :=
  match fst outcome with
  | Ok r => r
  | Raise => Demo.empty_result
  end.

(** The entry of NFLX: no quote, and no weight. *)
Definition nflx_entry : Entry.t :=
  Entry.mk "NFLX" "Netflix Inc" None nan None None 0 nan false.

End Blank.

(** * Properties *)

Lemma bind_Ok {A B} (r : result A) (k : A -> result B) b :
  bind r k = Ok b -> exists a, r = Ok a /\ k a = Ok b.
Proof. destruct r as [a|]; simpl; [eauto | discriminate]. Qed.

Lemma try_or_None_Some {A} (body : result (option A)) a :
  try_or_None body = Some a -> body = Ok (Some a).
Proof. destruct body as [[x|]|]; simpl; congruence. Qed.

Ltac bind_inv H :=
  let a := fresh "x" in
  let E := fresh "E" in
  apply bind_Ok in H; destruct H as (a & E & H).

(** ** Floats: order and finiteness through the IEEE specification *)

Section FloatFacts.

Lemma SFcompare_antisym (x y : spec_float) :
  SFcompare y x = option_map CompOpp (SFcompare x y).
Proof.
  destruct x as [[]|[]| |[] mx ex], y as [[]|[]| |[] my ey]; simpl; try reflexivity;
    rewrite (Z.compare_antisym ex ey); destruct (ex ?= ey)%Z; simpl; try reflexivity;
    rewrite (Pos.compare_cont_antisym mx my Eq); simpl;
    try rewrite CompOpp_involutive; reflexivity.
Qed.

Lemma SFcompare_refl (x : spec_float) :
  x <> S754_nan -> SFcompare x x = Some Eq.
Proof.
  destruct x as [[]|[]| |[] m e]; simpl; intros H; try reflexivity; try congruence;
    rewrite Z.compare_refl, Pos.compare_cont_refl; reflexivity.
Qed.

Lemma SFcompare_not_nan (x y : spec_float) :
  x <> S754_nan -> y <> S754_nan -> exists c, SFcompare x y = Some c.
Proof.
  destruct x as [[]|[]| |[] mx ex], y as [[]|[]| |[] my ey]; simpl; intros;
    try congruence; eauto.
Qed.

Lemma SFleb_trans (x y z : spec_float) :
  SFleb x y = true -> SFleb y z = true -> SFleb x z = true.
Proof.
  unfold SFleb.
  destruct x as [[]|[]| |[] mx ex], y as [[]|[]| |[] my ey], z as [[]|[]| |[] mz ez];
    simpl; try congruence; try reflexivity.
  all: destruct (Z.compare_spec ex ey); destruct (Z.compare_spec ey ez);
    destruct (Z.compare_spec ex ez); try congruence; try lia; try reflexivity.
  all: subst.
  all: rewrite ?Pos.compare_cont_spec; simpl.
  all: destruct (Pos.compare_spec mx my); destruct (Pos.compare_spec my mz);
    destruct (Pos.compare_spec mx mz); simpl; try congruence; try lia.
Qed.

Lemma is_nan_Prim2SF (x : float) : is_nan x = true <-> Prim2SF x = S754_nan.
Proof.
  unfold is_nan. rewrite FloatAxioms.eqb_spec. unfold SFeqb.
  destruct (Prim2SF x) eqn:E; try (rewrite SFcompare_refl by discriminate);
    simpl; split; congruence.
Qed.

Lemma is_nan_abs (x : float) : is_nan (abs x) = is_nan x.
Proof.
  apply eq_true_iff_eq. rewrite !is_nan_Prim2SF, FloatAxioms.abs_spec.
  destruct (Prim2SF x); simpl; split; congruence.
Qed.

(** Without NaN, [<] and [<=] order the floats totally. *)
Lemma ltb_false_leb (a b : float) :
  is_nan a = false -> is_nan b = false -> (a <? b)%float = false -> (b <=? a)%float = true.
Proof.
  intros Ha Hb. rewrite FloatAxioms.ltb_spec, FloatAxioms.leb_spec. unfold SFltb, SFleb.
  rewrite (SFcompare_antisym (Prim2SF a) (Prim2SF b)).
  destruct (SFcompare_not_nan (Prim2SF a) (Prim2SF b)) as [c Hc].
  - intros E. apply is_nan_Prim2SF in E. congruence.
  - intros E. apply is_nan_Prim2SF in E. congruence.
  - rewrite Hc. destruct c; simpl; congruence.
Qed.

Lemma ltb_leb (a b : float) : (a <? b)%float = true -> (a <=? b)%float = true.
Proof.
  rewrite FloatAxioms.ltb_spec, FloatAxioms.leb_spec. unfold SFltb, SFleb.
  destruct (SFcompare (Prim2SF a) (Prim2SF b)) as [[]|]; congruence.
Qed.

Lemma leb_trans (a b c : float) :
  (a <=? b)%float = true -> (b <=? c)%float = true -> (a <=? c)%float = true.
Proof. rewrite !FloatAxioms.leb_spec. apply SFleb_trans. Qed.

Lemma Prim2SF_infinity : Prim2SF infinity = S754_infinity false.
Proof. reflexivity. Qed.

Lemma Prim2SF_zero : Prim2SF 0 = S754_zero false.
Proof. reflexivity. Qed.

Lemma Prim2SF_100 : exists m e, Prim2SF 100 = S754_finite false m e.
Proof. eexists. eexists. vm_compute. reflexivity. Qed.

Lemma is_finite_Prim2SF (x : float) :
  is_finite x = true <->
  (exists s, Prim2SF x = S754_zero s) \/ (exists s m e, Prim2SF x = S754_finite s m e).
Proof.
  unfold is_finite. rewrite negb_true_iff, orb_false_iff.
  unfold is_infinity. rewrite FloatAxioms.eqb_spec, FloatAxioms.abs_spec, Prim2SF_infinity.
  pose proof (is_nan_Prim2SF x) as Hn.
  destruct (Prim2SF x) as [s|s| |s m e] eqn:E.
  - split; [eauto|]. intros _. split; [|reflexivity].
    destruct (is_nan x); [|reflexivity]. destruct Hn as [Hn _]. now specialize (Hn eq_refl).
  - split.
    + intros [_ H]. destruct s; discriminate.
    + intros [[s' H]|(s' & m & e & H)]; discriminate.
  - split.
    + intros [H _]. destruct Hn as [_ Hn]. rewrite Hn in H by reflexivity. discriminate.
    + intros [[s' H]|(s' & m & e & H)]; discriminate.
  - split; [eauto 6|]. intros _. split; [|destruct s; reflexivity].
    destruct (is_nan x); [|reflexivity]. destruct Hn as [Hn _]. now specialize (Hn eq_refl).
Qed.

(** Zeros, infinities and NaN round to themselves. *)
Lemma round_not_finite (x : float) n :
  (forall s m e, Prim2SF x <> S754_finite s m e) -> PyFloat.round x n = x.
Proof.
  unfold PyFloat.round. destruct (Prim2SF x); intros H; try reflexivity.
  exfalso. eapply H. reflexivity.
Qed.

(** A finite weight times zero is a zero, and stays one when rounded. *)
Lemma round_mul_zero (w : float) n :
  is_finite w = true -> (PyFloat.round (w * 0) n =? 0)%float = true.
Proof.
  intros Hw. apply is_finite_Prim2SF in Hw.
  assert (exists s, Prim2SF (w * 0) = S754_zero s) as [s Hs].
  { rewrite FloatAxioms.mul_spec, Prim2SF_zero.
    destruct Hw as [[s ->]|(s & m & e & ->)]; simpl; eauto. }
  rewrite round_not_finite by (rewrite Hs; discriminate).
  rewrite FloatAxioms.eqb_spec, Hs, Prim2SF_zero. reflexivity.
Qed.

(** The displayed weight [round(weight * 100, 4)] is finite only for a
    finite weight. *)
Lemma round_mul_100_finite (w : float) n :
  is_finite (PyFloat.round (w * 100) n) = true -> is_finite w = true.
Proof.
  intros H. destruct (is_finite w) eqn:Hw; [reflexivity|]. exfalso.
  assert (~ ((exists s, Prim2SF w = S754_zero s) \/
             (exists s m e, Prim2SF w = S754_finite s m e))) as Hnf.
  { intros Hf. apply is_finite_Prim2SF in Hf. congruence. }
  destruct Prim2SF_100 as (m & e & H100).
  assert (Prim2SF (w * 100) = S754_nan \/
          exists s, Prim2SF (w * 100) = S754_infinity s) as Hp.
  { rewrite FloatAxioms.mul_spec, H100.
    destruct (Prim2SF w) as [s|s| |s m' e'] eqn:E; simpl; eauto.
    - exfalso. apply Hnf. eauto.
    - exfalso. apply Hnf. eauto 6. }
  rewrite round_not_finite in H by (destruct Hp as [->|[s ->]]; discriminate).
  apply is_finite_Prim2SF in H.
  destruct Hp as [Hp|[s Hp]]; rewrite Hp in H;
    destruct H as [[? H]|(? & ? & ? & H)]; discriminate.
Qed.

Lemma round_zero_4 : PyFloat.round 0 4 = 0%float.
Proof. vm_compute. reflexivity. Qed.

(** The integer [div_half_even a b] is a nearest one to [a / b]. *)
Lemma div_half_even_nearest (a b : Z) :
  (0 < b)%Z -> (2 * Z.abs (a - b * PyFloat.div_half_even a b) <= b)%Z.
Proof.
  intros Hb. unfold PyFloat.div_half_even.
  pose proof (Z.div_mod a b ltac:(lia)) as Hd.
  pose proof (Z.mod_pos_bound a b Hb) as Hm.
  destruct (Z.compare_spec (2 * (a mod b)) b) as [E|E|E];
    [destruct (Z.even (a / b))| |]; nia.
Qed.

End FloatFacts.

(** ** Series selected by [get_series] *)

Lemma dropna_no_missing sel : no_missing (dropna sel).
Proof.
  unfold no_missing, dropna. apply Forall_forall. intros row H.
  apply filter_In in H. destruct H as [_ H].
  apply Forall_forall. intros v Hv.
  rewrite forallb_forall in H. apply H in Hv. now apply negb_true_iff in Hv.
Qed.

Lemma dropna_series sel : is_series sel -> is_series (dropna sel).
Proof.
  unfold is_series, dropna. rewrite !Forall_forall. intros H row Hin.
  apply filter_In in Hin. now apply H.
Qed.

Lemma scan_Found keys df cands s :
  scan keys df cands = Found s -> 0 < List.length s /\ no_missing s.
Proof.
  induction cands as [|key rest IH]; simpl; [discriminate|].
  destruct (existsb (key_eqb key) keys); [|discriminate].
  destruct (0 <? _) eqn:E.
  - intros H. injection H as <-. split; [now apply Nat.ltb_lt | apply dropna_no_missing].
  - exact IH.
Qed.

Lemma scan_flat_Some labels df cands s :
  scan_flat labels df cands = Some s -> 0 < List.length s /\ no_missing s.
Proof.
  induction cands as [|col rest IH]; simpl; [discriminate|].
  destruct (PyStr.mem col labels); [|exact IH].
  destruct (0 <? _) eqn:E.
  - intros H. injection H as <-. split; [now apply Nat.ltb_lt | apply dropna_no_missing].
  - exact IH.
Qed.

Ltac split_get_series :=
  repeat match goal with
    | |- context [if ?b then _ else _] => destruct b
    | |- context [match scan ?a ?b ?c with _ => _ end] =>
        let E := fresh "E" in destruct (scan a b c) eqn:E
    end.

(** What [get_series] returns is never empty and has no missing value. *)
Lemma get_series_Some ticker n df field s :
  get_series ticker n df field = Some s -> 0 < List.length s /\ no_missing s.
Proof.
  unfold get_series. destruct df as [df|]; [|discriminate].
  destruct (price_frame_empty df); [discriminate|].
  destruct (columns df) as [labels|keys].
  - apply scan_flat_Some.
  - destruct (1 <? n).
    + split_get_series; intros H; try discriminate; injection H as <-;
        eapply scan_Found; eassumption.
    + apply scan_flat_Some.
Qed.

Lemma float_at_series k s :
  is_series s -> k < List.length s ->
  exists v, float_at k s = Ok v /\ nth_error (rev s) k = Some [v].
Proof.
  intros Hs Hk. unfold float_at, iloc_from_end.
  destruct (nth_error (rev s) k) as [row|] eqn:E.
  - assert (In row s) as Hin by (apply in_rev; eapply nth_error_In; eassumption).
    unfold is_series in Hs. rewrite Forall_forall in Hs. apply Hs in Hin.
    destruct row as [|v [|]]; simpl in Hin; try discriminate.
    exists v. simpl. auto.
  - apply nth_error_None in E. rewrite length_rev in E. lia.
Qed.

Section PickOne.

Context {K A : Type} (eqb : K -> K -> bool).
Hypothesis eqb_eq : forall a b, eqb a b = true <-> a = b.

Lemma pick_none (key : K) keys (row : list A) :
  ~ In key keys -> pick (map (eqb key) keys) row = [].
Proof.
  revert row. induction keys as [|k ks IH]; intros row Hn; [reflexivity|].
  destruct row as [|x r]; [reflexivity|]. simpl.
  destruct (eqb key k) eqn:E.
  - apply eqb_eq in E. subst. exfalso. apply Hn. now left.
  - apply IH. intros H. apply Hn. now right.
Qed.

Lemma pick_one (key : K) keys (row : list A) :
  NoDup keys -> In key keys -> List.length row = List.length keys ->
  List.length (pick (map (eqb key) keys) row) = 1.
Proof.
  revert row. induction keys as [|k ks IH]; intros row Hnd Hin Hlen; [destruct Hin|].
  destruct row as [|x r]; [discriminate|]. simpl in Hlen. simpl.
  inversion Hnd as [|? ? Hk Hnd']; subst.
  destruct (eqb key k) eqn:E.
  - apply eqb_eq in E. subst. simpl. now rewrite pick_none.
  - apply IH; [exact Hnd' | | lia]. destruct Hin as [->|H]; [|exact H].
    assert (eqb key key = true) by now apply eqb_eq. congruence.
Qed.

Lemma existsb_In (key : K) keys : existsb (eqb key) keys = true -> In key keys.
Proof.
  intros H. apply existsb_exists in H. destruct H as (k & Hin & E).
  apply eqb_eq in E. now subst.
Qed.

End PickOne.

Lemma select_series {K : Type} (eqb : K -> K -> bool)
    (eqb_eq : forall a b, eqb a b = true <-> a = b) (key : K) keys df :
  NoDup keys -> In key keys ->
  Forall (fun row => List.length row = List.length keys) (rows df) ->
  is_series (select (map (eqb key) keys) df).
Proof.
  intros Hnd Hin Hwf. unfold is_series, select.
  apply Forall_map. eapply Forall_impl; [|exact Hwf].
  intros row Hrow. simpl. now apply (pick_one eqb eqb_eq).
Qed.

Lemma key_eqb_eq a b : key_eqb a b = true <-> a = b.
Proof.
  unfold key_eqb. destruct a as [a1 a2], b as [b1 b2]. simpl.
  rewrite andb_true_iff, !String.eqb_eq.
  split; [intros [-> ->]; reflexivity | intros [= -> ->]; auto].
Qed.

Lemma scan_series keys df cands s :
  NoDup keys -> Forall (fun row => List.length row = List.length keys) (rows df) ->
  scan keys df cands = Found s -> is_series s.
Proof.
  intros Hnd Hwf. induction cands as [|key rest IH]; simpl; [discriminate|].
  destruct (existsb (key_eqb key) keys) eqn:Ex; [|discriminate].
  destruct (0 <? _); [|exact IH].
  intros [= <-]. apply dropna_series.
  apply (select_series key_eqb key_eqb_eq); auto.
  eapply (existsb_In key_eqb key_eqb_eq); eassumption.
Qed.

Lemma scan_flat_series labels df cands s :
  NoDup labels -> Forall (fun row => List.length row = List.length labels) (rows df) ->
  scan_flat labels df cands = Some s -> is_series s.
Proof.
  intros Hnd Hwf. induction cands as [|col rest IH]; simpl; [discriminate|].
  destruct (PyStr.mem col labels) eqn:Ex; [|exact IH].
  destruct (0 <? _); [|exact IH].
  intros [= <-]. apply dropna_series.
  apply (select_series String.eqb String.eqb_eq col); auto.
  eapply (existsb_In String.eqb String.eqb_eq); eassumption.
Qed.

(** With distinct column keys every selection of [get_series] is a Series. *)
Lemma get_series_is_series ticker n df field s :
  well_formed df -> distinct_columns n df ->
  get_series ticker n (Some df) field = Some s -> is_series s.
Proof.
  unfold well_formed, distinct_columns, get_series.
  destruct (price_frame_empty df); [discriminate|].
  destruct (columns df) as [labels|keys]; cbn [n_columns].
  - intros Hwf Hnd. now apply scan_flat_series.
  - intros Hwf [Hnd Hn]. apply Nat.ltb_lt in Hn. rewrite Hn.
    split_get_series; intros H; try discriminate; injection H as <-;
      eapply scan_series; eassumption.
Qed.

(** In a flat table the series of the field is its "Close" column, missing
    values dropped, whenever that column has a value. *)
Remark get_series_flat_close ticker n labels rws :
  let df := mkPriceFrame (FlatIndex labels) rws in
  let close := dropna (select (map (String.eqb "Close") labels) df) in
  PyStr.mem "Close" labels = true -> 0 < List.length close ->
  get_series ticker n (Some df) "Close" = Some close.
Proof.
  intros df close Hmem Hlen. unfold get_series.
  assert (price_frame_empty df = false) as ->.
  { unfold price_frame_empty. cbn [columns rows df n_columns].
    destruct labels as [|l labels]; [discriminate|].
    destruct rws as [|r rws]; [|reflexivity].
    exfalso. unfold close, select, dropna in Hlen. simpl in Hlen. lia. }
  cbn [columns df scan_flat]. rewrite Hmem. fold df. fold close.
  apply Nat.ltb_lt in Hlen. now rewrite Hlen.
Qed.

(** ** Dictionaries *)

Section DictFacts.

Context {V : Type}.

Lemma get_set_same k (v : V) d : PyDict.get k (PyDict.set k v d) = Some v.
Proof.
  induction d as [|[k' v'] d IH]; simpl.
  - now rewrite String.eqb_refl.
  - destruct (String.eqb k k') eqn:E; simpl; rewrite ?String.eqb_refl, ?E; auto.
Qed.

Lemma get_set_other k k' (v : V) d :
  k <> k' -> PyDict.get k (PyDict.set k' v d) = PyDict.get k d.
Proof.
  intros Hne. induction d as [|[k2 v2] d IH]; simpl.
  - apply String.eqb_neq in Hne. now rewrite Hne.
  - destruct (String.eqb k' k2) eqn:E; simpl.
    + apply String.eqb_eq in E. subst k2.
      apply String.eqb_neq in Hne. now rewrite Hne.
    + now rewrite IH.
Qed.

Lemma get_set k k' (v : V) d :
  PyDict.get k (PyDict.set k' v d) = if String.eqb k k' then Some v else PyDict.get k d.
Proof.
  destruct (String.eqb k k') eqn:E.
  - apply String.eqb_eq in E. subst. apply get_set_same.
  - apply String.eqb_neq in E. now apply get_set_other.
Qed.

Lemma keys_get k (d : PyDict.dict V) :
  In k (PyDict.keys d) <-> exists v, PyDict.get k d = Some v.
Proof.
  induction d as [|[k' v'] d IH]; simpl.
  - split; [tauto | intros [v H]; discriminate].
  - destruct (String.eqb k k') eqn:E.
    + apply String.eqb_eq in E. subst. split; eauto.
    + apply String.eqb_neq in E. rewrite IH.
      split; [intros [H|H]; congruence || auto | auto].
Qed.

End DictFacts.

(** ** The batch of [get_prices_batch] *)

Lemma norm_map_entries tickers k v :
  PyDict.get k (norm_map_of tickers) = Some v ->
  k = _normalize_ticker v /\ In v tickers.
Proof.
  unfold norm_map_of.
  assert (G : forall l acc,
    (forall k v, PyDict.get k acc = Some v -> k = _normalize_ticker v /\ In v tickers) ->
    (forall t, In t l -> In t tickers) ->
    forall k v,
      PyDict.get k (fold_left (fun d t => PyDict.set (_normalize_ticker t) t d) l acc) = Some v ->
      k = _normalize_ticker v /\ In v tickers).
  { induction l as [|t l IH]; simpl; intros acc Hacc Hl k0 v0 H.
    - now apply Hacc.
    - eapply IH; [| |exact H].
      + intros k1 v1. rewrite get_set.
        destruct (String.eqb k1 (_normalize_ticker t)) eqn:E.
        * intros H1. injection H1 as <-. apply String.eqb_eq in E. auto.
        * apply Hacc.
      + auto. }
  apply G; [intros ? ? H; discriminate | auto].
Qed.

(** Every normal form of an input ticker is a key of the map. *)
Lemma norm_map_covers tickers t :
  In t tickers ->
  exists v, PyDict.get (_normalize_ticker t) (norm_map_of tickers) = Some v.
Proof.
  unfold norm_map_of.
  assert (G : forall l acc,
    (In t l \/ exists v, PyDict.get (_normalize_ticker t) acc = Some v) ->
    exists v, PyDict.get (_normalize_ticker t)
                (fold_left (fun d t => PyDict.set (_normalize_ticker t) t d) l acc) = Some v).
  { induction l as [|x l IH]; simpl; intros acc H.
    - destruct H as [[]|H]; exact H.
    - apply IH. destruct H as [[->|H]|[v H]].
      + right. rewrite get_set_same. eauto.
      + now left.
      + right. rewrite get_set. destruct (String.eqb _ _); eauto. }
  intros H. apply G. now left.
Qed.

Section BatchFold.

Variable norm_map : PyDict.dict string.
Variable value : string -> Quote.

Let step (results : PyDict.dict Quote) (norm_t : string) : PyDict.dict Quote :=
  match PyDict.get norm_t norm_map with
  | Some original_t => PyDict.set original_t (value norm_t) results
  | None => results
  end.

Lemma batch_fold_get ks acc t q :
  PyDict.get t (fold_left step ks acc) = Some q ->
  PyDict.get t acc = Some q \/
  exists k, In k ks /\ PyDict.get k norm_map = Some t /\ q = value k.
Proof.
  revert acc. induction ks as [|k ks IH]; simpl; intros acc H; [now left|].
  apply IH in H. destruct H as [H|(k' & Hin & Hk & Hq)].
  - unfold step in H. destruct (PyDict.get k norm_map) as [o|] eqn:E; [|now left].
    rewrite get_set in H. destruct (String.eqb t o) eqn:Et.
    + apply String.eqb_eq in Et. subst o. injection H as <-. right. exists k. auto.
    + now left.
  - right. exists k'. auto.
Qed.

Lemma batch_fold_keys ks acc t :
  In t (PyDict.keys (fold_left step ks acc)) <->
  In t (PyDict.keys acc) \/ exists k, In k ks /\ PyDict.get k norm_map = Some t.
Proof.
  revert acc. induction ks as [|k ks IH]; simpl; intros acc.
  - split; [now left | intros [H|(k & [] & _)]; exact H].
  - rewrite IH. unfold step.
    destruct (PyDict.get k norm_map) as [o|] eqn:E.
    + rewrite !keys_get.
      split.
      * intros [[v H]|(k' & Hin & Hk)].
        -- rewrite get_set in H. destruct (String.eqb t o) eqn:Et.
           ++ apply String.eqb_eq in Et. subst o. right. exists k. auto.
           ++ left. eauto.
        -- right. exists k'. auto.
      * intros [[v H]|(k' & [<-|Hin] & Hk)].
        -- left. rewrite get_set. destruct (String.eqb t o); eauto.
        -- left. rewrite get_set. replace o with t by congruence.
           rewrite String.eqb_refl. eauto.
        -- right. exists k'. auto.
    + split.
      * intros [H|(k' & Hin & Hk)]; [now left | right; exists k'; auto].
      * intros [H|(k' & [<-|Hin] & Hk)]; [now left | congruence | right; exists k'; auto].
Qed.

End BatchFold.

Lemma extract_price_cases ticker intraday daily n :
  match resolve_prices ticker intraday daily n with
  | Ok (Some c, Some p) => _extract_price ticker intraday daily n = Ok (quote_of c p)
  | Ok _ => _extract_price ticker intraday daily n = Ok _empty_price
  | Raise => _extract_price ticker intraday daily n = Raise
  end.
Proof.
  unfold _extract_price.
  destruct (resolve_prices ticker intraday daily n) as [[[c|] [p|]]|]; reflexivity.
Qed.

Lemma batch_quotes_ok (dl : Download) tickers t q :
  PyDict.get t (get_prices_batch dl tickers) = Some q -> quote_ok q.
Proof.
  intros H. unfold get_prices_batch in H. destruct tickers as [|t0 tickers']; [discriminate|].
  apply batch_fold_get in H. destruct H as [H|(k & _ & _ & ->)]; [discriminate|].
  match goal with |- context [_extract_price ?a ?b ?c ?d] =>
    pose proof (extract_price_cases a b c d) as E;
    destruct (resolve_prices a b c d) as [[[?|] [?|]]|]; rewrite E
  end; unfold quote_ok; cbn; congruence.
Qed.

Lemma batch_keys_are_inputs (dl : Download) tickers t :
  In t (PyDict.keys (get_prices_batch dl tickers)) -> In t tickers.
Proof.
  unfold get_prices_batch. destruct tickers as [|t0 tickers']; [auto|].
  set (tickers := t0 :: tickers').
  intros H. apply batch_fold_keys in H. destruct H as [[]|(k & _ & Hk)].
  now apply norm_map_entries in Hk.
Qed.

(** ** Price extraction: the claims *)

Ltac derivation_done :=
  repeat lazymatch goal with
    | |- _ /\ _ => split
    | |- forall _, Some _ = Some _ -> _ =>
        let E := fresh "E" in intros ? E; injection E as <-
    | |- forall _, None = Some _ -> _ => intros ? ?; discriminate
    | |- _ <> None => discriminate
    | |- _ => first [reflexivity | assumption]
    end.

(** C2. For every ticker whose close columns are Series, [_extract_price]
    resolves both locals: the current price is the last value of the intraday
    close series when [get_series] finds one (it is then non-empty and free
    of missing values), otherwise the last value of the daily close series;
    the previous close is the second-to-last value of the daily close series
    when that has at least two values, otherwise its only value. A series
    here is what [get_series] returns, missing values dropped. *)
Theorem price_derivation_from_close_series ticker intraday daily n :
  let si := get_series ticker n intraday "Close" in
  let sd := get_series ticker n daily "Close" in
  (forall s, si = Some s -> is_series s) ->
  (forall s, sd = Some s -> is_series s) ->
  exists cur prev,
    resolve_prices ticker intraday daily n = Ok (cur, prev) /\
    cur = match si, sd with
          | Some s, _ => value_from_end 0 s
          | None, Some d => value_from_end 0 d
          | None, None => None
          end /\
    prev = match sd with
           | Some d => if 2 <=? List.length d then value_from_end 1 d else value_from_end 0 d
           | None => None
           end /\
    (forall s, si = Some s -> 0 < List.length s /\ no_missing s /\ cur <> None) /\
    (forall d, sd = Some d -> 0 < List.length d /\ no_missing d /\ cur <> None /\ prev <> None).
Proof.
  intros si sd Hi Hd. unfold resolve_prices. fold si. fold sd.
  destruct si as [s|] eqn:Ei.
  - destruct (get_series_Some _ _ _ _ _ Ei) as [Ls Ns].
    specialize (Hi s eq_refl).
    destruct (float_at_series 0 s Hi Ls) as (v & Hv & Ev).
    rewrite (proj2 (Nat.ltb_lt _ _) Ls), Hv. cbn [bind].
    destruct sd as [d|] eqn:Ed.
    + destruct (get_series_Some _ _ _ _ _ Ed) as [Ld Nd].
      specialize (Hd d eq_refl).
      rewrite (proj2 (Nat.leb_le 1 _) Ld).
      destruct (2 <=? List.length d) eqn:L2.
      * destruct (float_at_series 1 d Hd (proj1 (Nat.leb_le 2 _) L2)) as (p & Hp & Ep).
        rewrite Hp. cbn [bind]. exists (Some v), (Some p).
        unfold value_from_end. rewrite Ev, Ep. derivation_done.
      * destruct (float_at_series 0 d Hd Ld) as (p & Hp & Ep).
        rewrite Hp. cbn [bind]. exists (Some v), (Some p).
        unfold value_from_end. rewrite Ev, Ep. derivation_done.
    + exists (Some v), None. unfold value_from_end. rewrite Ev. derivation_done.
  - cbn [bind].
    destruct sd as [d|] eqn:Ed.
    + destruct (get_series_Some _ _ _ _ _ Ed) as [Ld Nd].
      specialize (Hd d eq_refl).
      rewrite (proj2 (Nat.leb_le 1 _) Ld).
      destruct (float_at_series 0 d Hd Ld) as (c & Hc & Ec).
      destruct (2 <=? List.length d) eqn:L2.
      * destruct (float_at_series 1 d Hd (proj1 (Nat.leb_le 2 _) L2)) as (p & Hp & Ep).
        rewrite Hp. cbn [bind]. rewrite Hc. cbn [bind]. exists (Some c), (Some p).
        unfold value_from_end. rewrite Ec, Ep. derivation_done.
      * rewrite Hc. cbn [bind]. exists (Some c), (Some c).
        unfold value_from_end. rewrite Ec. derivation_done.
    + exists None, None. derivation_done.
Qed.

Lemma demo_tables_distinct :
  well_formed Demo.intraday /\ distinct_columns 4 Demo.intraday /\
  well_formed Demo.daily /\ distinct_columns 4 Demo.daily.
Proof.
  assert (NoDup Demo.column_keys) as Hnd.
  { unfold Demo.column_keys.
    repeat (constructor; [simpl; intuition discriminate|]). constructor. }
  repeat split; try exact Hnd; try lia;
    unfold well_formed; simpl; repeat constructor.
Qed.

(** MSFT in the sample tables: the last intraday bar has no close, so the
    current price is the close of the bar before, 90; the previous close is
    the second-to-last daily close, 100. *)
Lemma price_derivation_from_close_series_witness :
  (forall s, get_series "MSFT" 4 (Some Demo.intraday) "Close" = Some s -> is_series s) /\
  (forall s, get_series "MSFT" 4 (Some Demo.daily) "Close" = Some s -> is_series s) /\
  resolve_prices "MSFT" (Some Demo.intraday) (Some Demo.daily) 4
    = Ok (Some 90%float, Some 100%float).
Proof.
  destruct demo_tables_distinct as (W1 & D1 & W2 & D2).
  assert (H1 : forall s, get_series "MSFT" 4 (Some Demo.intraday) "Close" = Some s -> is_series s)
    by (intros s; now apply get_series_is_series).
  assert (H2 : forall s, get_series "MSFT" 4 (Some Demo.daily) "Close" = Some s -> is_series s)
    by (intros s; now apply get_series_is_series).
  split; [exact H1|]. split; [exact H2|].
  destruct (price_derivation_from_close_series "MSFT" (Some Demo.intraday) (Some Demo.daily) 4 H1 H2)
    as (cur & prev & E & Ec & Ep & _).
  rewrite E, Ec, Ep. vm_compute. reflexivity.
Defined.

(** C5. For every quote built from two resolved prices, the reported
    [change_dollar] is the current price minus the previous close rounded to
    cents, and the reported [change_pct] is that difference divided by the
    previous close, times 100, rounded to 4 decimals, and exactly 0 when the
    previous close is zero. Both are computed from the resolved prices, which
    are rounded only when reported. *)
Theorem quote_change_fields_computed ticker intraday daily n c p :
  resolve_prices ticker intraday daily n = Ok (Some c, Some p) ->
  exists q,
    _extract_price ticker intraday daily n = Ok q /\
    change_dollar q = Some (PyFloat.round (c - p) 2) /\
    change_pct q =
      Some (if (p =? 0)%float then 0%float else PyFloat.round ((c - p) / p * 100) 4).
Proof.
  intros H. unfold _extract_price. rewrite H. cbn [bind].
  eexists. split; [reflexivity|]. unfold quote_of, PyFloat.ne0. cbn [change_dollar change_pct].
  split; [reflexivity|].
  destruct (p =? 0)%float; cbn [negb]; [now rewrite round_zero_4 | reflexivity].
Qed.

(** QQQ in the sample tables: 401.237 against 400.114 is a change of 1.12
    dollars and of 0.2807 percent. *)
Lemma quote_change_fields_computed_witness :
  resolve_prices "QQQ" (Some Demo.intraday) (Some Demo.daily) 4
    = Ok (Some 401.237%float, Some 400.114%float) /\
  exists q,
    _extract_price "QQQ" (Some Demo.intraday) (Some Demo.daily) 4 = Ok q /\
    change_dollar q = Some 1.12%float /\ change_pct q = Some 0.2807%float.
Proof.
  assert (H : resolve_prices "QQQ" (Some Demo.intraday) (Some Demo.daily) 4
              = Ok (Some 401.237%float, Some 400.114%float))
    by (vm_compute; reflexivity).
  split; [exact H|].
  destruct (quote_change_fields_computed _ _ _ _ _ _ H) as (q & E & Ed & Ep).
  exists q. split; [exact E|]. rewrite Ed, Ep. split; vm_compute; reflexivity.
Defined.

(** The reported fields do not satisfy the formula among themselves: for
    QQQ in the sample, 1.12 / 400.11 * 100 rounds to 0.2799, not 0.2807. *)
Remark change_pct_not_from_reported_fields :
  _extract_price "QQQ" (Some Demo.intraday) (Some Demo.daily) 4
    = Ok (mkQuote (Some 401.24%float) (Some 400.11%float) (Some 1.12%float)
                  (Some 0.2807%float) true) /\
  PyFloat.round (1.12 / 400.11 * 100) 4 = 0.2799%float.
Proof. split; vm_compute; reflexivity. Qed.

(** C1. For every ticker in the map returned by [get_prices_batch], the
    quote has [valid = true] and its four numeric fields present exactly
    when both a current price and a previous close were resolved for the
    ticker's normal form in the two downloads of the batch; otherwise
    [valid = false] and the four fields are absent. *)
Theorem quote_valid_iff_prices_resolved (dl : Download) tickers t q :
  let norm_tickers := PyDict.keys (norm_map_of tickers) in
  let ticker_str := PyStr.join " " norm_tickers in
  PyDict.get t (get_prices_batch dl tickers) = Some q ->
  match resolve_prices (_normalize_ticker t) (dl ticker_str "1d" "2m")
                       (dl ticker_str "5d" "1d") (List.length norm_tickers) with
  | Ok (Some c, Some p) =>
      valid q = true /\ price q <> None /\ prev_close q <> None /\
      change_dollar q <> None /\ change_pct q <> None
  | _ =>
      valid q = false /\ price q = None /\ prev_close q = None /\
      change_dollar q = None /\ change_pct q = None
  end.
Proof.
  intros norm_tickers ticker_str H.
  unfold get_prices_batch in H. destruct tickers as [|t0 tickers']; [discriminate|].
  set (tickers := t0 :: tickers') in *.
  apply batch_fold_get in H. destruct H as [H|(k & _ & Hk & ->)]; [discriminate|].
  apply norm_map_entries in Hk. destruct Hk as [-> _].
  fold norm_tickers. fold ticker_str.
  pose proof (extract_price_cases (_normalize_ticker t) (dl ticker_str "1d" "2m")
                (dl ticker_str "5d" "1d") (List.length norm_tickers)) as E.
  destruct (resolve_prices _ _ _ _) as [[[c|] [p|]]|]; rewrite E; cbn;
    repeat split; discriminate.
Qed.

(** In the sample batch AAPL has both prices and a valid quote; NFLX has
    no column in either table and the empty quote. *)
Lemma quote_valid_iff_prices_resolved_witness :
  let batch := get_prices_batch Demo.download ["QQQ"; "AAPL"; "MSFT"; "NFLX"] in
  PyDict.get "AAPL" batch
    = Some (mkQuote (Some 110%float) (Some 100%float) (Some 10%float) (Some 10%float) true) /\
  PyDict.get "NFLX" batch = Some _empty_price /\
  valid (mkQuote (Some 110%float) (Some 100%float) (Some 10%float) (Some 10%float) true) = true /\
  valid _empty_price = false.
Proof.
  cbv zeta.
  assert (H1 : PyDict.get "AAPL" (get_prices_batch Demo.download ["QQQ"; "AAPL"; "MSFT"; "NFLX"])
               = Some (mkQuote (Some 110%float) (Some 100%float) (Some 10%float)
                               (Some 10%float) true))
    by (vm_compute; reflexivity).
  assert (H2 : PyDict.get "NFLX" (get_prices_batch Demo.download ["QQQ"; "AAPL"; "MSFT"; "NFLX"])
               = Some _empty_price)
    by (vm_compute; reflexivity).
  pose proof (quote_valid_iff_prices_resolved _ _ _ _ H1) as T1.
  pose proof (quote_valid_iff_prices_resolved _ _ _ _ H2) as T2.
  vm_compute in T1, T2.
  split; [exact H1|]. split; [exact H2|]. split; [apply T1 | apply T2].
Defined.

(** C6, as amended. For every list of input tickers no two of which share a
    normal form, the key set of the map returned by [get_prices_batch] is
    exactly the set of the original input tickers: each ticker is normalised
    for the request and mapped back on output. (Without the condition every
    key is still an input ticker: [batch_keys_are_inputs].) *)
Theorem batch_keys_are_the_original_tickers (dl : Download) tickers :
  (forall a b, In a tickers -> In b tickers ->
               _normalize_ticker a = _normalize_ticker b -> a = b) ->
  forall t, In t (PyDict.keys (get_prices_batch dl tickers)) <-> In t tickers.
Proof.
  intros Hinj t. split; [apply batch_keys_are_inputs|].
  intros Hin. unfold get_prices_batch. destruct tickers as [|t0 tickers']; [destruct Hin|].
  set (tickers := t0 :: tickers') in *.
  apply batch_fold_keys. right.
  destruct (norm_map_covers tickers t Hin) as [v Hv].
  exists (_normalize_ticker t). split.
  - apply keys_get. eauto.
  - pose proof (norm_map_entries _ _ _ Hv) as [E Hv'].
    assert (t = v) as Etv by exact (Hinj t v Hin Hv' E).
    rewrite <- Etv in Hv. exact Hv.
Qed.

(** A class-share ticker written with a dot comes back under its own
    spelling. *)
Lemma batch_keys_are_the_original_tickers_witness :
  (forall a b, In a ["QQQ"; "BRK.B"; "AAPL"] -> In b ["QQQ"; "BRK.B"; "AAPL"] ->
               _normalize_ticker a = _normalize_ticker b -> a = b) /\
  (forall t, In t (PyDict.keys (get_prices_batch Demo.download ["QQQ"; "BRK.B"; "AAPL"]))
             <-> In t ["QQQ"; "BRK.B"; "AAPL"]) /\
  PyDict.keys (get_prices_batch Demo.download ["QQQ"; "BRK.B"; "AAPL"])
    = ["QQQ"; "BRK.B"; "AAPL"].
Proof.
  assert (H : forall a b, In a ["QQQ"; "BRK.B"; "AAPL"] -> In b ["QQQ"; "BRK.B"; "AAPL"] ->
                          _normalize_ticker a = _normalize_ticker b -> a = b).
  { intros a b Ha Hb. simpl in Ha, Hb.
    destruct Ha as [<-|[<-|[<-|[]]]]; destruct Hb as [<-|[<-|[<-|[]]]];
      vm_compute; congruence. }
  split; [exact H|]. split.
  - exact (batch_keys_are_the_original_tickers Demo.download _ H).
  - vm_compute. reflexivity.
Defined.

(** C6 as stated fails: two spellings of one class share collapse into one
    request and only the later spelling is a key of the result. *)
Lemma colliding_spellings_share_one_key :
  let tickers := ["BRK.B"; "BRK/B"] in
  let batch := get_prices_batch Demo.download tickers in
  PyDict.keys batch = ["BRK/B"] /\ In "BRK.B" tickers /\ ~ In "BRK.B" (PyDict.keys batch).
Proof.
  cbv zeta.
  assert (E : PyDict.keys (get_prices_batch Demo.download ["BRK.B"; "BRK/B"]) = ["BRK/B"])
    by (vm_compute; reflexivity).
  rewrite E. split; [reflexivity|]. split; [now left|].
  intros [H|[]]. discriminate H.
Qed.

(** ** Contribution: the claim *)

(** On a tie [div_half_even] returns the even neighbour. *)
Lemma div_half_even_tie (a b : Z) :
  (0 < b)%Z -> (2 * Z.abs (a - b * PyFloat.div_half_even a b) = b)%Z ->
  Z.even (PyFloat.div_half_even a b) = true.
Proof.
  intros Hb. unfold PyFloat.div_half_even.
  pose proof (Z.div_mod a b ltac:(lia)) as Hd.
  pose proof (Z.mod_pos_bound a b Hb) as Hm.
  destruct (Z.compare_spec (2 * (a mod b)) b) as [E|E|E].
  - intros _. destruct (Z.even (a / b)) eqn:Ev; [exact Ev|].
    rewrite Z.even_add, Ev. reflexivity.
  - intros H. exfalso.
    replace (a - b * (a / b))%Z with (a mod b)%Z in H by lia. lia.
  - intros H. exfalso.
    replace (a - b * (a / b + 1))%Z with (a mod b - b)%Z in H by lia. lia.
Qed.

Lemma div_half_even_nonneg (a b : Z) :
  (0 <= a)%Z -> (0 < b)%Z -> (0 <= PyFloat.div_half_even a b)%Z.
Proof.
  intros Ha Hb. unfold PyFloat.div_half_even.
  pose proof (Z.div_pos a b Ha Hb).
  destruct (2 * (a mod b) ?= b)%Z; [destruct (Z.even (a / b))| |]; lia.
Qed.

(** Python's [round(x, n)] is the rounding to [n] decimals. *)
Lemma round_rounded (x : float) (n : nat) : rounded_to_decimals n x (PyFloat.round x n).
Proof.
  unfold rounded_to_decimals, PyFloat.round.
  destruct (Prim2SF x) as [s|s| |s m e]; try reflexivity.
  cbv zeta.
  set (p := PyFloat.pow10 n).
  set (k := match e with
            | Zneg d => PyFloat.div_half_even (Zpos m * Zpos p) (2 ^ Zpos d)
            | _ => (Zpos m * 2 ^ e * Zpos p)%Z
            end).
  exists k. split; [|split].
  - unfold k. destruct e as [|e|d].
    + lia.
    + pose proof (Z.pow_pos_nonneg 2 (Zpos e) ltac:(lia) ltac:(lia)). nia.
    + apply div_half_even_nonneg; [lia|]. apply Z.pow_pos_nonneg; lia.
  - unfold nearest_integer, k. destruct e as [|e|d]; try reflexivity.
    assert (Hb : (0 < 2 ^ Zpos d)%Z) by (apply Z.pow_pos_nonneg; lia).
    pose proof (div_half_even_nearest (Zpos m * Zpos p) _ Hb) as H1.
    pose proof (div_half_even_tie (Zpos m * Zpos p) _ Hb) as H2.
    rewrite (Z.mul_comm (PyFloat.div_half_even _ _)). split; assumption.
  - reflexivity.
Qed.

(** The nearest integer, ties to even, is unique. *)
Lemma nearest_integer_unique m e p k k' :
  nearest_integer m e p k -> nearest_integer m e p k' -> k = k'.
Proof.
  unfold nearest_integer. destruct e as [|e|d]; try congruence.
  set (a := (Zpos m * Zpos p)%Z). set (b := (2 ^ Zpos d)%Z).
  assert (Hb : (0 < b)%Z) by (apply Z.pow_pos_nonneg; lia).
  intros [H1 T1] [H2 T2].
  assert (Hd : (k' = k \/ k' = k + 1 \/ k = k' + 1)%Z) by nia.
  destruct Hd as [-> | [-> | ->]]; [reflexivity| |]; exfalso.
  - assert (E1 : (2 * Z.abs (a - k * b) = b)%Z) by nia.
    assert (E2 : (2 * Z.abs (a - (k + 1) * b) = b)%Z) by nia.
    specialize (T1 E1). specialize (T2 E2).
    rewrite Z.even_add in T2. rewrite T1 in T2. discriminate T2.
  - assert (E1 : (2 * Z.abs (a - (k' + 1) * b) = b)%Z) by nia.
    assert (E2 : (2 * Z.abs (a - k' * b) = b)%Z) by nia.
    specialize (T1 E1). specialize (T2 E2).
    rewrite Z.even_add in T1. rewrite T2 in T1. discriminate T1.
Qed.

Lemma rounded_to_decimals_unique n x y y' :
  rounded_to_decimals n x y -> rounded_to_decimals n x y' -> y = y'.
Proof.
  unfold rounded_to_decimals. destruct (Prim2SF x) as [s|s| |s m e]; try congruence.
  intros (k & _ & Hk & ->) (k' & _ & Hk' & ->).
  now rewrite (nearest_integer_unique _ _ _ _ _ Hk Hk').
Qed.

(** C7. For every weight and change_pct, [calculate_contribution] is their
    binary64 product rounded to 4 decimals: the decimal of [k]
    ten-thousandths, [k] being the integer nearest to the product counted
    in ten-thousandths (the even one on a tie), and that rounding is
    unique. In particular [calculate_contribution(0.05, 2.0)] is exactly
    [0.1]; and [calculate_contribution(0.084, 1.2345)], whose product is
    0.103698, is [0.1037]. *)
Theorem calculate_contribution_rounds_product :
  (forall weight change_pct,
      rounded_to_decimals 4 (weight * change_pct) (calculate_contribution weight change_pct)) /\
  (forall weight change_pct y,
      rounded_to_decimals 4 (weight * change_pct) y ->
      calculate_contribution weight change_pct = y) /\
  calculate_contribution 0.05 2.0 = 0.1%float /\
  calculate_contribution 0.084 1.2345 = 0.1037%float.
Proof.
  split; [|split; [|split]].
  - intros weight change_pct. apply round_rounded.
  - intros weight change_pct y H.
    eapply rounded_to_decimals_unique; [apply round_rounded | exact H].
  - vm_compute. reflexivity.
  - vm_compute. reflexivity.
Qed.

(** A weight of 8.4% and a move of 1.2345%: the product 0.103698 is
    reported as 0.1037. *)
Lemma calculate_contribution_rounds_product_witness :
  (0.084 * 1.2345)%float = 0.103698%float /\
  rounded_to_decimals 4 (0.084 * 1.2345) 0.1037%float /\
  calculate_contribution 0.084 1.2345 = 0.1037%float.
Proof.
  assert (E : calculate_contribution 0.084 1.2345 = 0.1037%float)
    by (vm_compute; reflexivity).
  split; [vm_compute; reflexivity|]. split; [|exact E].
  rewrite <- E. exact (proj1 calculate_contribution_rounds_product 0.084%float 1.2345%float).
Defined.

(** Rounding to 4 decimals at work: ties go to the even digit of the exact
    binary value, and the sign of a zero result is kept. *)
Example calculate_contribution_samples :
  calculate_contribution 0.5 0.00025 = 0.0001%float /\
  calculate_contribution 0.084 1.2345 = 0.1037%float /\
  calculate_contribution 0.25 (-0.0001) = (-0)%float /\
  calculate_contribution 0.0790 (-2.5) = (-0.1975)%float.
Proof. repeat split; vm_compute; reflexivity. Qed.

(** ** The final ordering *)

Lemma insert_by_abs_perm e l : Permutation (e :: l) (insert_by_abs e l).
Proof.
  induction l as [|y l IH]; simpl; [reflexivity|].
  destruct (_ <? _)%float; [|reflexivity].
  rewrite perm_swap. now apply perm_skip.
Qed.

Lemma sort_by_abs_perm l : Permutation l (sort_by_abs_contribution l).
Proof.
  induction l as [|e l IH]; simpl; [constructor|].
  rewrite <- insert_by_abs_perm. now apply perm_skip.
Qed.

Lemma abs_ge_trans a b c : abs_ge a b -> abs_ge b c -> abs_ge a c.
Proof. unfold abs_ge. intros H1 H2. eapply leb_trans; eassumption. Qed.

Lemma insert_by_abs_sorted e l :
  is_nan (Entry.contribution e) = false -> no_nan_contribution l ->
  StronglySorted abs_ge l -> StronglySorted abs_ge (insert_by_abs e l).
Proof.
  intros He Hl Hs. induction l as [|y l IH]; simpl.
  - constructor; constructor.
  - inversion Hs as [|? ? Hs' Hy]; subst. inversion Hl as [|? ? Ny Nl]; subst.
    destruct (_ <? _)%float eqn:E.
    + constructor; [now apply IH|].
      eapply Permutation_Forall; [apply insert_by_abs_perm|].
      constructor; [|exact Hy]. unfold abs_ge. now apply ltb_leb.
    + assert (abs_ge e y) as Hey.
      { unfold abs_ge. apply ltb_false_leb; rewrite ?is_nan_abs; assumption. }
      constructor; [exact Hs|]. constructor; [exact Hey|].
      eapply Forall_impl; [|exact Hy]. intros z Hz. eapply abs_ge_trans; eassumption.
Qed.

Lemma sort_by_abs_sorted l :
  no_nan_contribution l -> StronglySorted abs_ge (sort_by_abs_contribution l).
Proof.
  induction l as [|e l IH]; simpl; intros H; [constructor|].
  inversion H as [|? ? He Hl]; subst.
  apply insert_by_abs_sorted; auto.
  eapply Permutation_Forall; [apply sort_by_abs_perm|exact Hl].
Qed.

Lemma sorted_tail_dominated a l1 l2 :
  StronglySorted abs_ge (l1 ++ a :: l2) -> Forall (abs_ge a) l2.
Proof.
  induction l1 as [|x l1 IH]; simpl; intros H; inversion H; subst; auto.
Qed.

(** In a sorted list an entry that may not stand before another stands
    after it. *)
Lemma sorted_ranked_before a b l :
  StronglySorted abs_ge l -> In a l -> In b l -> a <> b -> ~ abs_ge a b ->
  ranked_before b a l.
Proof.
  intros Hs Ha Hb Hne Hnot.
  apply in_split in Ha. destruct Ha as (l1 & l2 & ->).
  apply in_app_iff in Hb. destruct Hb as [Hb|[Hb|Hb]].
  - apply in_split in Hb. destruct Hb as (l3 & l4 & ->).
    exists l3, l4, l2. now rewrite <- app_assoc.
  - congruence.
  - apply sorted_tail_dominated in Hs. rewrite Forall_forall in Hs.
    elim Hnot. now apply Hs.
Qed.

(** ** Entries and the cache invariant *)

Lemma holding_entry_ok prices caps ticker name w :
  (forall q, PyDict.get ticker prices = Some q -> quote_ok q) ->
  entry_ok (holding_entry prices caps ticker name w).
Proof.
  intros Hq. unfold entry_ok, holding_entry. cbn.
  destruct (PyDict.get ticker prices) as [q|] eqn:E.
  - intros Hv. rewrite (Hq q eq_refl Hv). cbn. repeat split.
    intros Hw. unfold calculate_contribution. apply round_mul_zero.
    eapply round_mul_100_finite; eassumption.
  - intros _. cbn. repeat split.
    intros Hw. unfold calculate_contribution. apply round_mul_zero.
    eapply round_mul_100_finite; eassumption.
Qed.

Lemma static_not_empty : Table.empty _get_static_holdings = false.
Proof. vm_compute. reflexivity. Qed.

Lemma holdings_chain_not_empty py src : Table.empty (holdings_chain py src) = false.
Proof.
  unfold holdings_chain.
  match goal with
  | |- Table.empty (match ?x with _ => _ end) = false => destruct x as [d|]
  end.
  - destruct (Table.empty d) eqn:E; [apply static_not_empty | exact E].
  - apply static_not_empty.
Qed.

(** The chain of the source is the chain of the specification. *)
Lemma holdings_chain_first_usable py src :
  holdings_chain py src =
  first_usable [ _fetch_holdings_invesco py (invesco_csv src);
                 _fetch_holdings_slickcharts py (slickcharts_html src);
                 _fetch_holdings_yfinance py (yfinance_top src) ]
               _get_static_holdings.
Proof.
  unfold holdings_chain, first_usable, unusable.
  destruct (_fetch_holdings_invesco py (invesco_csv src)) as [d1|];
    [destruct (Table.empty d1) eqn:E1|];
    (destruct (_fetch_holdings_slickcharts py (slickcharts_html src)) as [d2|];
       [destruct (Table.empty d2) eqn:E2|]);
    (destruct (_fetch_holdings_yfinance py (yfinance_top src)) as [d3|];
       [destruct (Table.empty d3) eqn:E3|]);
    rewrite ?E1, ?E2, ?E3; reflexivity.
Qed.

Lemma get_qqq_holdings_ok py now src c :
  cache_ok c ->
  Table.empty (fst (get_qqq_holdings py now src c)) = false /\
  cache_ok (snd (get_qqq_holdings py now src c)).
Proof.
  intros Hc. pose proof Hc as [Hh Hd]. unfold get_qqq_holdings.
  destruct (Cache.holdings c) as [cached|] eqn:E.
  - destruct (within_ttl _ _ _); cbn [fst snd].
    + split; [now apply Hh | exact Hc].
    + split; [apply holdings_chain_not_empty|]. split; cbn; [|assumption].
      intros h [= <-]. apply holdings_chain_not_empty.
  - cbn [fst snd]. split; [apply holdings_chain_not_empty|]. split; cbn; [|assumption].
    intros h [= <-]. apply holdings_chain_not_empty.
Qed.

Lemma get_market_caps_ok fi now tickers c :
  cache_ok c -> cache_ok (snd (get_market_caps fi now tickers c)).
Proof.
  intros Hc. pose proof Hc as [Hh Hd]. unfold get_market_caps.
  destruct (Cache.market_caps c); [destruct (within_ttl _ _ _)|]; cbn [snd];
    try exact Hc; split; cbn; assumption.
Qed.

Lemma fresh_result_ok prices caps rws :
  (forall t q, PyDict.get t prices = Some q -> quote_ok q) ->
  let holdings_list :=
    map (fun r : string * string * float =>
           holding_entry prices caps (fst (fst r)) (snd (fst r)) (snd r)) rws in
  forall r, Aggregate.holdings r = sort_by_abs_contribution holdings_list -> result_ok r.
Proof.
  intros Hq hl r Hr. unfold result_ok. rewrite Hr. split.
  - intros Hn. apply sort_by_abs_sorted.
    eapply Permutation_Forall; [symmetry; apply sort_by_abs_perm|exact Hn].
  - eapply Permutation_Forall; [apply sort_by_abs_perm|].
    unfold hl. apply Forall_map, Forall_forall. intros x _.
    apply holding_entry_ok. intros q. apply Hq.
Qed.

Lemma compute_qqq_data_ok py w c :
  cache_ok c ->
  (forall r, fst (compute_qqq_data py w c) = Ok r -> result_ok r) /\
  cache_ok (snd (compute_qqq_data py w c)).
Proof.
  intros Hc. unfold compute_qqq_data.
  pose proof (get_qqq_holdings_ok py (time_holdings w) (sources w) c Hc) as [_ H1].
  destruct (get_qqq_holdings py (time_holdings w) (sources w) c) as [holdings_df c1].
  cbn [snd] in H1.
  destruct (bind _ _) as [tickers|]; [|cbn; split; [discriminate|exact H1]].
  pose proof (get_market_caps_ok (fast_info w) (time_caps w) tickers c1 H1) as H2.
  destruct (get_market_caps (fast_info w) (time_caps w) tickers c1) as [caps c2].
  cbn [snd] in H2.
  destruct (holding_rows py holdings_df tickers) as [rws|]; [|cbn; split; [discriminate|exact H2]].
  cbn [fst snd].
  assert (forall r,
    Aggregate.holdings r =
      sort_by_abs_contribution
        (map (fun r : string * string * float =>
                holding_entry (get_prices_batch (yf_download w) ("QQQ" :: tickers)) caps
                              (fst (fst r)) (snd (fst r)) (snd r)) rws) -> result_ok r) as Hr.
  { apply fresh_result_ok. intros t q. apply batch_quotes_ok. }
  split.
  - intros r [= <-]. apply Hr. reflexivity.
  - destruct H2 as [Hh _]. split; cbn; [exact Hh|].
    intros d [= <-]. apply Hr. reflexivity.
Qed.

Lemma get_qqq_data_ok py w c :
  cache_ok c ->
  (forall r, fst (get_qqq_data py w c) = Ok r -> result_ok r) /\
  cache_ok (snd (get_qqq_data py w c)).
Proof.
  intros Hc. unfold get_qqq_data.
  destruct (Cache.data c) as [cached|] eqn:E; [|now apply compute_qqq_data_ok].
  destruct (within_ttl _ _ _); [|now apply compute_qqq_data_ok].
  cbn. split; [|exact Hc]. intros r [= <-]. destruct Hc as [_ Hd]. now apply Hd.
Qed.

(** Every state the process can reach satisfies the invariant. *)
Lemma reachable_ok py c : Reachable py c -> cache_ok c.
Proof.
  induction 1 as [|w c _ IH|now src c _ IH|fi now tickers c _ IH|c _ IH].
  - split; cbn; discriminate.
  - now apply get_qqq_data_ok.
  - now apply get_qqq_holdings_ok.
  - now apply get_market_caps_ok.
  - destruct IH as [Hh Hd]. split; cbn; assumption.
Qed.

(** ** Holdings provider: the claim *)

(** A request that fails (network error, timeout, unparsable answer) makes
    the tier answer [None]. *)
Lemma failed_request_is_None py :
  _fetch_holdings_invesco py Raise = None /\
  _fetch_holdings_slickcharts py Raise = None /\
  _fetch_holdings_yfinance py Raise = None.
Proof. repeat split. Qed.

(** C4. [get_qqq_holdings] is a total function (each remote tier catches
    its own exceptions and nothing else in the body can raise) and, in every
    state the process can reach, its answer is a non-empty holdings set: on a
    cache miss it is the answer of the first tier, in the fixed order
    Invesco, Slickcharts, yfinance, that is neither [None] nor empty, and the
    static snapshot, itself non-empty, when none is; on a hit it is the
    cached set. *)
Theorem holdings_provider_always_answers py now src c :
  Reachable py c ->
  let answer := fst (get_qqq_holdings py now src c) in
  Table.empty answer = false /\
  Table.empty _get_static_holdings = false /\
  (answer =
     first_usable [ _fetch_holdings_invesco py (invesco_csv src);
                    _fetch_holdings_slickcharts py (slickcharts_html src);
                    _fetch_holdings_yfinance py (yfinance_top src) ]
                  _get_static_holdings \/
   (Cache.holdings c = Some answer /\
    within_ttl now (Cache.holdings_ts c) HOLDINGS_CACHE_TTL = true)).
Proof.
  intros Hr answer. apply reachable_ok in Hr.
  split; [apply get_qqq_holdings_ok; exact Hr|].
  split; [apply static_not_empty|].
  unfold answer, get_qqq_holdings.
  destruct (Cache.holdings c) as [cached|]; [destruct (within_ttl _ _ _) eqn:E|]; cbn [fst].
  - right. auto.
  - left. apply holdings_chain_first_usable.
  - left. apply holdings_chain_first_usable.
Qed.

(** With the three remote sources down, the first call answers with the
    static snapshot. *)
Lemma holdings_provider_always_answers_witness :
  Reachable Demo.py Cache.initial /\
  fst (get_qqq_holdings Demo.py 1700000000 (mkSources Raise Raise Raise) Cache.initial)
    = _get_static_holdings /\
  Table.empty
    (fst (get_qqq_holdings Demo.py 1700000000 (mkSources Raise Raise Raise) Cache.initial))
    = false.
Proof.
  split; [constructor|]. split; [reflexivity|].
  exact (proj1 (holdings_provider_always_answers Demo.py 1700000000
                  (mkSources Raise Raise Raise) Cache.initial (reach_initial Demo.py))).
Defined.

(** ** Aggregate result: the claims *)

(** C8, as amended. In every aggregate result produced by [get_qqq_data]
    whose contributions are numbers (none is NaN), the holdings are sorted by
    descending absolute contribution: each entry's absolute contribution is
    at least that of every later entry. In particular a holding with
    contribution -5.0 is ranked before one with contribution +3.0. *)
Theorem holdings_sorted_by_abs_contribution py w c r c' :
  Reachable py c ->
  get_qqq_data py w c = (Ok r, c') ->
  no_nan_contribution (Aggregate.holdings r) ->
  StronglySorted abs_ge (Aggregate.holdings r) /\
  (forall a b,
      In a (Aggregate.holdings r) -> In b (Aggregate.holdings r) ->
      Entry.contribution a = 3%float -> Entry.contribution b = (-5)%float ->
      ranked_before b a (Aggregate.holdings r)).
Proof.
  intros Hr E Hn. apply reachable_ok in Hr.
  destruct (get_qqq_data_ok py w c Hr) as [Hres _].
  rewrite E in Hres. destruct (Hres r eq_refl) as [Hs _].
  specialize (Hs Hn). split; [exact Hs|].
  intros a b Ha Hb Ea Eb. apply sorted_ranked_before; auto.
  - intros ->. rewrite Ea in Eb. vm_compute in Eb. discriminate Eb.
  - unfold abs_ge. rewrite Ea, Eb. vm_compute. discriminate.
Qed.

Lemma demo_outcome :
  get_qqq_data Demo.py Demo.world Cache.initial = (Ok Demo.result, Demo.cache_after).
Proof. vm_compute. reflexivity. Qed.

Lemma movers_outcome :
  get_qqq_data Demo.py Movers.world Cache.initial = (Ok Movers.result, snd Movers.outcome).
Proof. vm_compute. reflexivity. Qed.

(** A day on which the sort changes the order: in the table, by weight,
    AAPL (50%, up 6%: +3.0) comes before MSFT (30%, flat: 0.0) and NFLX
    (20%, down 25%: -5.0); in the result NFLX is ranked first and AAPL
    second. *)
Lemma holdings_sorted_by_abs_contribution_witness :
  Reachable Demo.py Cache.initial /\
  get_qqq_data Demo.py Movers.world Cache.initial = (Ok Movers.result, snd Movers.outcome) /\
  no_nan_contribution (Aggregate.holdings Movers.result) /\
  Table.get_col "ticker"
    (fst (get_qqq_holdings Demo.py (time_holdings Movers.world) (sources Movers.world)
            Cache.initial))
    = Ok (StrCol [Some "AAPL"; Some "MSFT"; Some "NFLX"]) /\
  map (fun e => (Entry.ticker e, Entry.contribution e)) (Aggregate.holdings Movers.result)
    = [("NFLX", (-5)%float); ("AAPL", 3%float); ("MSFT", 0%float)] /\
  StronglySorted abs_ge (Aggregate.holdings Movers.result) /\
  ranked_before Movers.nflx_entry Movers.aapl_entry (Aggregate.holdings Movers.result).
Proof.
  assert (Hn : no_nan_contribution (Aggregate.holdings Movers.result))
    by (repeat constructor).
  split; [constructor|]. split; [exact movers_outcome|]. split; [exact Hn|].
  split; [vm_compute; reflexivity|]. split; [vm_compute; reflexivity|].
  destruct (holdings_sorted_by_abs_contribution Demo.py Movers.world Cache.initial
              Movers.result (snd Movers.outcome) (reach_initial Demo.py) movers_outcome Hn)
    as [Hs Hr].
  split; [exact Hs|].
  apply (Hr Movers.aapl_entry Movers.nflx_entry).
  - right. left. reflexivity.
  - left. reflexivity.
  - reflexivity.
  - reflexivity.
Defined.

Lemma nan_not_comparable (x y : float) :
  is_nan x = true -> (abs y <=? abs x)%float = false /\ (abs x <=? abs y)%float = false.
Proof.
  intros H. rewrite <- is_nan_abs in H. apply is_nan_Prim2SF in H.
  rewrite !FloatAxioms.leb_spec, H. split; [|reflexivity].
  destruct (Prim2SF (abs y)); reflexivity.
Qed.

(** A list of two or more entries one of which has a NaN contribution is
    not sorted, in whatever order it stands. *)
Lemma nan_contribution_unsortable (l : list Entry.t) (e : Entry.t) :
  In e l -> is_nan (Entry.contribution e) = true -> 2 <= List.length l ->
  ~ StronglySorted abs_ge l.
Proof.
  intros Hin Hnan Hlen Hs.
  destruct l as [|a [|b l]]; simpl in Hlen; try lia.
  inversion Hs as [|? ? Hs' Ha]; subst.
  destruct Hin as [<-|Hin].
  - inversion Ha as [|? ? Hab _]; subst. unfold abs_ge in Hab.
    rewrite (proj1 (nan_not_comparable _ (Entry.contribution b) Hnan)) in Hab. discriminate.
  - rewrite Forall_forall in Ha. specialize (Ha e Hin). unfold abs_ge in Ha.
    rewrite (proj2 (nan_not_comparable _ (Entry.contribution a) Hnan)) in Ha. discriminate.
Qed.

Lemma movers_outcome_infinite :
  get_qqq_data Demo.py Movers.world_infinite Cache.initial
    = (Ok Movers.result_infinite, snd Movers.outcome_infinite).
Proof. vm_compute. reflexivity. Qed.

(** C8, the counterexample. The daily table reports an infinite close for
    MSFT on both days: its change is inf - inf, its change_pct and its
    contribution are NaN. The keys of the three entries, taken from the
    last to the first as [reverse=True] does, are 5, NaN, 3; neither
    [nan < 5] nor [3 < nan] holds, so [list.sort] finds them in order and
    leaves the list as the table has it: AAPL (+3.0) is ranked before NFLX
    (-5.0). No order of these three entries is sorted by absolute
    contribution. *)
Lemma nan_contribution_defeats_the_order :
  Reachable Demo.py Cache.initial /\
  get_qqq_data Demo.py Movers.world_infinite Cache.initial
    = (Ok Movers.result_infinite, snd Movers.outcome_infinite) /\
  map (fun e => (Entry.ticker e, Entry.contribution e)) (Aggregate.holdings Movers.result_infinite)
    = [("AAPL", 3%float); ("MSFT", nan); ("NFLX", (-5)%float)] /\
  ~ StronglySorted abs_ge (Aggregate.holdings Movers.result_infinite) /\
  Entry.contribution Movers.aapl_entry = 3%float /\
  Entry.contribution Movers.nflx_entry = (-5)%float /\
  ranked_before Movers.aapl_entry Movers.nflx_entry
    (Aggregate.holdings Movers.result_infinite) /\
  (forall l, Permutation l (Aggregate.holdings Movers.result_infinite) ->
             ~ StronglySorted abs_ge l).
Proof.
  assert (Hin : exists e, In e (Aggregate.holdings Movers.result_infinite) /\
                          is_nan (Entry.contribution e) = true).
  { eexists. split; [right; left; reflexivity | reflexivity]. }
  destruct Hin as (e & Hin & Hnan).
  assert (Hall : forall l, Permutation l (Aggregate.holdings Movers.result_infinite) ->
                           ~ StronglySorted abs_ge l).
  { intros l Hp. apply (nan_contribution_unsortable l e).
    - eapply Permutation_in; [symmetry; exact Hp | exact Hin].
    - exact Hnan.
    - rewrite (Permutation_length Hp). simpl. lia. }
  split; [constructor|]. split; [exact movers_outcome_infinite|].
  split; [vm_compute; reflexivity|]. split; [apply Hall; reflexivity|].
  split; [reflexivity|]. split; [reflexivity|]. split; [|exact Hall].
  exists [], [Movers.msft_entry_infinite], []. reflexivity.
Qed.

(** C10, as amended. In every aggregate result produced by [get_qqq_data],
    a holdings entry whose quote is missing or invalid ([valid] is false)
    has [change_pct] equal to 0.0 (filled in, not absent), has no price and
    no change_dollar, and, its weight being finite, has a contribution equal
    to 0.0 (as Python's [==] compares: a zero of either sign). With a weight
    that is not finite the contribution is not 0.0 but NaN. *)
Theorem invalid_entry_is_zero_filled py w c r c' e :
  Reachable py c ->
  get_qqq_data py w c = (Ok r, c') ->
  In e (Aggregate.holdings r) ->
  Entry.valid e = false ->
  Entry.change_pct e = 0%float /\
  Entry.price e = None /\
  Entry.change_dollar e = None /\
  (is_finite (Entry.weight e) = true -> (Entry.contribution e =? 0)%float = true).
Proof.
  intros Hr E Hin Hv. apply reachable_ok in Hr.
  destruct (get_qqq_data_ok py w c Hr) as [Hres _].
  rewrite E in Hres. destruct (Hres r eq_refl) as [_ He].
  rewrite Forall_forall in He. exact (He e Hin Hv).
Qed.

(** NFLX on the sample day. *)
Lemma invalid_entry_is_zero_filled_witness :
  Reachable Demo.py Cache.initial /\
  get_qqq_data Demo.py Demo.world Cache.initial = (Ok Demo.result, Demo.cache_after) /\
  In Demo.nflx_entry (Aggregate.holdings Demo.result) /\
  Entry.valid Demo.nflx_entry = false /\
  Entry.change_pct Demo.nflx_entry = 0%float /\
  Entry.price Demo.nflx_entry = None /\
  Entry.change_dollar Demo.nflx_entry = None /\
  (is_finite (Entry.weight Demo.nflx_entry) = true ->
   (Entry.contribution Demo.nflx_entry =? 0)%float = true).
Proof.
  assert (Hin : In Demo.nflx_entry (Aggregate.holdings Demo.result))
    by (vm_compute; auto).
  split; [constructor|]. split; [exact demo_outcome|]. split; [exact Hin|].
  split; [reflexivity|].
  exact (invalid_entry_is_zero_filled Demo.py Demo.world Cache.initial Demo.result
           Demo.cache_after Demo.nflx_entry (reach_initial Demo.py) demo_outcome Hin eq_refl).
Defined.

Lemma blank_outcome :
  get_qqq_data Demo.py Blank.world Cache.initial = (Ok Blank.result, snd Blank.outcome).
Proof. vm_compute. reflexivity. Qed.

(** C10, the counterexample. The Invesco export has a row for NFLX whose
    weight cell is blank: the tier keeps the row with the weight NaN, and
    with no quote for NFLX the entry is invalid with change_pct 0.0 and the
    contribution [round(nan * 0.0, 4)], which is NaN and not 0.0. *)
Lemma blank_weight_gives_nan_contribution :
  Reachable Demo.py Cache.initial /\
  get_qqq_data Demo.py Blank.world Cache.initial = (Ok Blank.result, snd Blank.outcome) /\
  Table.get_col "weight"
    (fst (get_qqq_holdings Demo.py (time_holdings Blank.world) (sources Blank.world)
            Cache.initial))
    = Ok (NumCol [0.5%float; 0.3%float; nan]) /\
  In Blank.nflx_entry (Aggregate.holdings Blank.result) /\
  Entry.valid Blank.nflx_entry = false /\
  Entry.change_pct Blank.nflx_entry = 0%float /\
  is_nan (Entry.contribution Blank.nflx_entry) = true /\
  (Entry.contribution Blank.nflx_entry =? 0)%float = false.
Proof.
  split; [constructor|]. split; [exact blank_outcome|].
  split; [vm_compute; reflexivity|].
  split; [right; right; left; reflexivity|].
  repeat split; reflexivity.
Qed.

(** ** Market caps: the claim *)

Lemma fetch_single_ticker fi t : fst (_fetch_single_market_cap fi t) = t.
Proof.
  unfold _fetch_single_market_cap.
  destruct (fi (_normalize_ticker t)) as [[mc|]|]; reflexivity.
Qed.

(** On a miss the map that is stored has the tickers of that call as its
    keys. *)
Lemma market_caps_miss_keys fi now tickers c t :
  Cache.market_caps c = None \/
  within_ttl now (Cache.market_caps_ts c) HOLDINGS_CACHE_TTL = false ->
  In t (PyDict.keys (fst (get_market_caps fi now tickers c))) <-> In t tickers.
Proof.
  intros Hmiss.
  assert (G : forall ks acc,
    In t (PyDict.keys
            (fold_left (fun result t0 =>
                          let r := _fetch_single_market_cap fi t0 in
                          PyDict.set (fst r) (snd r) result) ks acc)) <->
    In t (PyDict.keys acc) \/ In t ks).
  { induction ks as [|k ks IH]; simpl; intros acc; [tauto|].
    rewrite IH, fetch_single_ticker, !keys_get. split.
    - intros [[v H]|H]; [|auto]. rewrite get_set in H.
      destruct (String.eqb t k) eqn:E; [apply String.eqb_eq in E; auto | eauto].
    - intros [[v H]|[->|H]]; [| |auto]; left; rewrite get_set.
      + destruct (String.eqb t k); eauto.
      + rewrite String.eqb_refl. eauto. }
  unfold get_market_caps.
  destruct (Cache.market_caps c) as [m|]; [destruct (within_ttl _ _ _)|]; cbn [fst].
  - destruct Hmiss; discriminate.
  - rewrite G. simpl. tauto.
  - rewrite G. simpl. tauto.
Qed.

(** A second call within the TTL of a first one that missed answers with
    the map of the first call: its keys are the tickers of the first call,
    whatever is requested now. *)
Lemma market_caps_second_call fi1 fi2 t1 t2 tickers1 tickers2 c0 :
  Cache.market_caps c0 = None \/
  within_ttl t1 (Cache.market_caps_ts c0) HOLDINGS_CACHE_TTL = false ->
  within_ttl t2 t1 HOLDINGS_CACHE_TTL = true ->
  let first := get_market_caps fi1 t1 tickers1 c0 in
  let second := get_market_caps fi2 t2 tickers2 (snd first) in
  fst second = fst first /\
  (forall t, In t (PyDict.keys (fst second)) <-> In t tickers1).
Proof.
  intros Hmiss Hfresh first second.
  assert (fst second = fst first) as E.
  { unfold second, first, get_market_caps.
    destruct (Cache.market_caps c0) as [m|];
      [destruct (within_ttl t1 _ _); [destruct Hmiss; discriminate|]|];
      cbn [fst snd Cache.market_caps Cache.market_caps_ts]; now rewrite Hfresh. }
  split; [exact E|]. intros t. rewrite E. now apply market_caps_miss_keys.
Qed.

(** C9. For every tickers list, if the cache holds a market-caps map that
    was stored less than the 24-hour TTL ago, [get_market_caps] returns that
    map unchanged and leaves the cache as it is, whatever the tickers
    argument: the keys of the answer are those of the cached map, not those
    requested now. *)
Theorem market_caps_served_from_cache fi now tickers c m :
  Cache.market_caps c = Some m ->
  within_ttl now (Cache.market_caps_ts c) HOLDINGS_CACHE_TTL = true ->
  get_market_caps fi now tickers c = (m, c) /\
  (forall t, In t (PyDict.keys (fst (get_market_caps fi now tickers c)))
             <-> In t (PyDict.keys m)).
Proof.
  intros Hm Hfresh. unfold get_market_caps. rewrite Hm, Hfresh.
  split; [reflexivity | intros t; reflexivity].
Qed.

(** An hour after a call for AAPL and MSFT, a call for NFLX alone is
    answered with the map of the earlier call: NFLX is absent, AAPL and MSFT
    are present. *)
Lemma market_caps_served_from_cache_witness :
  Cache.market_caps Demo.caps_cache
    = Some [("AAPL", Some 3000000000000%float); ("MSFT", None)] /\
  within_ttl 1700003600 (Cache.market_caps_ts Demo.caps_cache) HOLDINGS_CACHE_TTL = true /\
  get_market_caps (fast_info Demo.world) 1700003600 ["NFLX"] Demo.caps_cache
    = ([("AAPL", Some 3000000000000%float); ("MSFT", None)], Demo.caps_cache).
Proof.
  assert (H1 : Cache.market_caps Demo.caps_cache
               = Some [("AAPL", Some 3000000000000%float); ("MSFT", None)])
    by (vm_compute; reflexivity).
  assert (H2 : within_ttl 1700003600 (Cache.market_caps_ts Demo.caps_cache)
                 HOLDINGS_CACHE_TTL = true)
    by (vm_compute; reflexivity).
  split; [exact H1|]. split; [exact H2|].
  exact (proj1 (market_caps_served_from_cache (fast_info Demo.world) 1700003600 ["NFLX"]
                  Demo.caps_cache _ H1 H2)).
Defined.

(** ** The pattern and the ticker format *)

Section TickerFacts.

Import TickerRe.

Lemma last_char_cons c s :
  last_char (String c s) = match s with EmptyString => Some c | _ => last_char s end.
Proof. destruct s; reflexivity. Qed.

Lemma at_dollar_at_end s :
  at_dollar s = true -> last_char s <> Some newline -> at_end s = true.
Proof.
  destruct s as [|c [|c' s']]; simpl; try reflexivity; try discriminate.
  intros H Hn. apply Ascii.eqb_eq in H. subst. now elim Hn.
Qed.

Lemma last_char_tail c s : s <> EmptyString -> last_char (String c s) = last_char s.
Proof. destruct s; [congruence | reflexivity]. Qed.

Lemma suffix_strict s :
  suffix at_dollar s = true -> last_char s <> Some newline -> suffix at_end s = true.
Proof.
  unfold suffix. intros H Hn. apply orb_true_iff in H. destruct H as [H|H].
  - rewrite (at_dollar_at_end s H Hn). reflexivity.
  - destruct s as [|c s]; [discriminate|].
    destruct (Ascii.eqb c "-") eqn:Ec.
    + apply Ascii.eqb_eq in Ec. subst c.
      destruct s as [|c s]; [discriminate|].
      apply andb_true_iff in H. destruct H as [Hu H].
      assert (at_end s = true) as ->.
      { apply at_dollar_at_end; [exact H|].
        destruct s as [|c' s]; [discriminate|]. exact Hn. }
      rewrite Hu. apply orb_true_r.
    + exfalso. revert H.
      destruct c as [[] [] [] [] [] [] [] []]; try discriminate; discriminate Ec.
Qed.

Lemma newline_not_upper : PyStr.is_upper newline = false.
Proof. reflexivity. Qed.

Lemma letters_strict n s :
  letters at_dollar n s = true -> last_char s <> Some newline -> letters at_end n s = true.
Proof.
  revert n. induction s as [|c s IH]; intros n; simpl.
  - intros H _. exact H.
  - destruct (PyStr.is_upper c) eqn:Eu.
    + destruct n as [|n]; [discriminate|]. intros H Hn. apply IH; [exact H|].
      destruct s as [|c' s]; [discriminate|]. exact Hn.
    + apply suffix_strict.
Qed.

(** A text the pattern accepts and that does not end in a newline has the
    ticker format. *)
Lemma re_match_format s :
  re_match s = true -> last_char s <> Some newline -> ticker_format s = true.
Proof.
  unfold re_match, ticker_format, pattern. destruct s as [|c s]; [discriminate|].
  intros H Hn. apply andb_true_iff in H. destruct H as [Hu H]. rewrite Hu. simpl.
  apply letters_strict; [exact H|].
  destruct s as [|c' s]; [discriminate|]. exact Hn.
Qed.

Lemma last_char_smap f s : last_char (PyStr.smap f s) = option_map f (last_char s).
Proof.
  induction s as [|c s IH]; [reflexivity|].
  destruct s as [|c' s]; [reflexivity|]. exact IH.
Qed.

Lemma upper_char_newline c : PyStr.upper_char c = newline -> c = newline.
Proof.
  destruct c as [[] [] [] [] [] [] [] []]; vm_compute; congruence.
Qed.

Lemma rstrip_last s c : last_char (PyStr.rstrip s) = Some c -> PyStr.is_space c = false.
Proof.
  revert c. induction s as [|a s IH]; intros c; simpl; [discriminate|].
  destruct (PyStr.rstrip s) as [|b r] eqn:E.
  - destruct (PyStr.is_space a) eqn:Ea; simpl; [discriminate|]. intros [= <-]. exact Ea.
  - intros H. apply IH. exact H.
Qed.

Lemma cleaned_no_newline t :
  last_char (PyStr.upper (PyStr.strip t)) <> Some newline.
Proof.
  unfold PyStr.upper, PyStr.strip. rewrite last_char_smap.
  destruct (last_char (PyStr.rstrip (PyStr.lstrip t))) as [c|] eqn:E; simpl; [|discriminate].
  intros [= H]. apply upper_char_newline in H. subst c.
  apply rstrip_last in E. discriminate E.
Qed.

Lemma cleaned_match_format t :
  re_match (PyStr.upper (PyStr.strip t)) = true ->
  ticker_format (PyStr.upper (PyStr.strip t)) = true.
Proof. intros H. apply re_match_format; [exact H | apply cleaned_no_newline]. Qed.

End TickerFacts.

(** ** Tables *)

Section TableFacts.

Import Table.

Lemma pick_In {A} mask (l : list A) x : In x (pick mask l) -> In x l.
Proof.
  revert l. induction mask as [|b mask IH]; intros [|y l]; simpl; try tauto.
  destruct b; simpl; intros H; [destruct H as [H|H]; auto | auto].
Qed.

Lemma take_In {A} idx (l : list A) x : In x (take idx l) -> In x l.
Proof.
  unfold take. intros H. apply in_flat_map in H. destruct H as (i & _ & H).
  destruct (nth_error l i) eqn:E; [|destruct H].
  destruct H as [<-|[]]. eapply nth_error_In; eassumption.
Qed.

Lemma pick_map_filter {A} (f : A -> bool) l : pick (map f l) l = filter f l.
Proof.
  induction l as [|x l IH]; simpl; [reflexivity|].
  destruct (f x); now rewrite IH.
Qed.

Lemma has_col_In l df : has_col l df = true <-> exists c, In (l, c) df.
Proof.
  unfold has_col, PyStr.mem, labels. rewrite existsb_exists. split.
  - intros (l' & Hin & E). apply String.eqb_eq in E. subst l'.
    apply in_map_iff in Hin. destruct Hin as ([l0 c] & E & Hin). simpl in E. subst. eauto.
  - intros [c Hin]. exists l. split; [|apply String.eqb_refl].
    apply in_map_iff. exists (l, c). auto.
Qed.

Lemma filter_rows_In m df l c :
  In (l, c) (filter_rows m df) -> exists c0, In (l, c0) df /\ c = col_filter m c0.
Proof.
  unfold filter_rows. intros H. apply in_map_iff in H.
  destruct H as ([l0 c0] & [= -> <-] & Hin). eauto.
Qed.

Lemma filter_rows_has_col m df l : has_col l (filter_rows m df) = has_col l df.
Proof.
  unfold has_col, labels, filter_rows. now rewrite map_map.
Qed.

Lemma all_labelled_filter_rows l ok m df :
  row_closed ok -> all_labelled l ok df -> all_labelled l ok (filter_rows m df).
Proof.
  intros [Hf _] H c Hin. apply filter_rows_In in Hin.
  destruct Hin as (c0 & Hin & ->). apply Hf, H, Hin.
Qed.

Lemma labelled_In l df c : In c (labelled l df) <-> In (l, c) df.
Proof.
  unfold labelled. rewrite in_map_iff. split.
  - intros ([l0 c0] & <- & Hin). apply filter_In in Hin. destruct Hin as [Hin E].
    simpl in E. apply String.eqb_eq in E. now subst.
  - intros Hin. exists (l, c). split; [reflexivity|].
    apply filter_In. split; [exact Hin | apply String.eqb_refl].
Qed.

Lemma get_col_unique l df c : get_col l df = Ok c -> forall c', In (l, c') df <-> c' = c.
Proof.
  unfold get_col. intros H c'. rewrite <- labelled_In.
  destruct (labelled l df) as [|c0 [|? ?]]; try discriminate.
  injection H as ->. simpl. split; [intros [H|[]]; auto | auto].
Qed.

Lemma get_col_has l df c : get_col l df = Ok c -> has_col l df = true.
Proof.
  intros H. apply has_col_In. exists c. now apply (get_col_unique l df c H).
Qed.

Lemma set_col_In l c df l' c' :
  In (l', c') (set_col l c df) ->
  (l' = l /\ c' = c) \/ (l' <> l /\ In (l', c') df).
Proof.
  unfold set_col. destruct (has_col l df) eqn:Hh.
  - intros H. apply in_map_iff in H. destruct H as ([l0 c0] & E & Hin). simpl in E.
    destruct (String.eqb l l0) eqn:El.
    + apply String.eqb_eq in El. subst l0. injection E as <- <-. now left.
    + apply String.eqb_neq in El. injection E as <- <-. right. split; [congruence|exact Hin].
  - intros H. apply in_app_iff in H. destruct H as [H|[H|[]]].
    + destruct (String.eqb l' l) eqn:El.
      * apply String.eqb_eq in El. subst l'. exfalso.
        assert (has_col l df = true) as Hc by (apply has_col_In; eauto).
        congruence.
      * apply String.eqb_neq in El. now right.
    + injection H as <- <-. now left.
Qed.

Lemma set_col_has l c df l' :
  has_col l' (set_col l c df) = true <-> l' = l \/ has_col l' df = true.
Proof.
  rewrite !has_col_In. unfold set_col. destruct (has_col l df) eqn:Hh.
  - split.
    + intros [c' H]. apply in_map_iff in H. destruct H as ([l0 c0] & E & Hin). simpl in E.
      destruct (String.eqb l l0); injection E as <- <-; right; eauto.
    + intros [->|[c' H]].
      * apply has_col_In in Hh. destruct Hh as [c0 Hin]. exists c.
        apply in_map_iff. exists (l, c0). simpl. rewrite String.eqb_refl. auto.
      * destruct (String.eqb l l') eqn:El.
        -- exists c. apply in_map_iff. exists (l', c'). simpl. rewrite El.
           apply String.eqb_eq in El. subst. auto.
        -- exists c'. apply in_map_iff. exists (l', c'). simpl. rewrite El. auto.
  - split.
    + intros [c' H]. apply in_app_iff in H. destruct H as [H|[[= <- <-]|[]]]; [right; eauto | now left].
    + intros [->|[c' H]]; [exists c | exists c']; apply in_app_iff; [right; now left | now left].
Qed.

Lemma all_labelled_set_other l ok l' c df :
  l <> l' -> all_labelled l ok df -> all_labelled l ok (set_col l' c df).
Proof.
  intros Hne H c' Hin. apply set_col_In in Hin. destruct Hin as [[E _]|[_ Hin]]; [congruence|].
  now apply H.
Qed.

Lemma all_labelled_set_same l (ok : Column -> Prop) c df :
  ok c -> all_labelled l ok (set_col l c df).
Proof.
  intros Hc c' Hin. apply set_col_In in Hin. destruct Hin as [[_ ->]|[E _]]; [exact Hc|congruence].
Qed.

Lemma select_cols_In ls df df' x :
  select_cols ls df = Ok df' -> In x df' -> In x df.
Proof.
  revert df'. induction ls as [|l ls IH]; simpl; intros df' H Hin.
  - injection H as <-. destruct Hin.
  - destruct (has_col l df); [|discriminate].
    bind_inv H. injection H as <-. apply in_app_iff in Hin. destruct Hin as [Hin|Hin].
    + apply filter_In in Hin. tauto.
    + eapply IH; eauto.
Qed.

Lemma select_cols_has ls df df' l :
  select_cols ls df = Ok df' -> In l ls -> has_col l df' = true.
Proof.
  revert df'. induction ls as [|l0 ls IH]; simpl; intros df' H Hin; [destruct Hin|].
  destruct (has_col l0 df) eqn:Hh; [|discriminate].
  bind_inv H. injection H as <-.
  apply has_col_In. destruct Hin as [->|Hin].
  - apply has_col_In in Hh. destruct Hh as [c Hc]. exists c.
    apply in_app_iff. left. apply filter_In. split; [exact Hc | apply String.eqb_refl].
  - specialize (IH _ E Hin). apply has_col_In in IH. destruct IH as [c Hc].
    exists c. apply in_app_iff. now right.
Qed.

Lemma all_labelled_select l ok ls df df' :
  select_cols ls df = Ok df' -> all_labelled l ok df -> all_labelled l ok df'.
Proof. intros H Hall c Hin. apply Hall. eapply select_cols_In; eauto. Qed.

Lemma sort_values_In label df df' l c :
  sort_values_desc label df = Ok df' -> In (l, c) df' ->
  exists idx c0, In (l, c0) df /\ c = col_take idx c0.
Proof.
  unfold sort_values_desc. intros H Hin. bind_inv H.
  destruct x as [cells|ws]; [discriminate|]. injection H as <-.
  apply in_map_iff in Hin. destruct Hin as ([l0 c0] & [= -> <-] & Hin). eauto.
Qed.

Lemma sort_values_has label df df' l :
  sort_values_desc label df = Ok df' -> has_col l df' = has_col l df.
Proof.
  unfold sort_values_desc. intros H. bind_inv H.
  destruct x as [cells|ws]; [discriminate|]. injection H as <-.
  unfold has_col, labels. now rewrite map_map.
Qed.

Lemma all_labelled_sort l ok label df df' :
  row_closed ok -> sort_values_desc label df = Ok df' ->
  all_labelled l ok df -> all_labelled l ok df'.
Proof.
  intros [_ Ht] H Hall c Hin.
  destruct (sort_values_In _ _ _ _ _ H Hin) as (idx & c0 & Hin0 & ->).
  apply Ht, Hall, Hin0.
Qed.

End TableFacts.

(** ** Holdings tiers *)

Lemma Forall_pick {A} (P : A -> Prop) mask l : Forall P l -> Forall P (pick mask l).
Proof.
  rewrite !Forall_forall. intros H x Hin. apply H. eapply pick_In; eassumption.
Qed.

Lemma Forall_take {A} (P : A -> Prop) idx l : Forall P l -> Forall P (Table.take idx l).
Proof.
  rewrite !Forall_forall. intros H x Hin. apply H. eapply take_In; eassumption.
Qed.

Lemma ticker_column_closed : row_closed ticker_column.
Proof.
  split; intros m c (cells & -> & H); simpl; eexists; split; try reflexivity;
    [now apply Forall_pick | now apply Forall_take].
Qed.

Lemma weight_column_closed ok : row_closed (weight_column ok).
Proof.
  split; intros m c (cells & -> & H); simpl; eexists; split; try reflexivity;
    [now apply Forall_pick | now apply Forall_take].
Qed.

Lemma str_map_Ok f c c' :
  Table.str_map f c = Ok c' ->
  exists cells, c = StrCol cells /\ c' = StrCol (map (option_map f) cells).
Proof. destruct c; simpl; intros [= <-]; eauto. Qed.

Lemma str_match_Ok c mask :
  str_match c = Ok mask ->
  exists cells, c = StrCol cells /\
    mask = map (fun o => match o with Some s => TickerRe.re_match s | None => false end) cells.
Proof.
  destruct c as [cells|]; simpl; [|discriminate].
  destruct (forallb _ cells); intros [= <-]; eauto.
Qed.

Lemma get_col_set_same l c df c' :
  Table.get_col l (Table.set_col l c df) = Ok c' -> c' = c.
Proof.
  intros H. pose proof (proj2 (get_col_unique _ _ _ H c') eq_refl) as Hin.
  apply set_col_In in Hin. destruct Hin as [[_ ->]|[Hne _]]; [reflexivity|congruence].
Qed.

(** After cleaning, every remaining ticker has the ticker format. *)
Lemma clean_tickers_valid df df' :
  clean_tickers df = Ok df' -> tickers_valid df'.
Proof.
  unfold clean_tickers. intros H.
  bind_inv H. bind_inv H. bind_inv H. bind_inv H. bind_inv H. bind_inv H.
  injection H as <-.
  apply str_map_Ok in E1. destruct E1 as (cells1 & -> & ->).
  apply str_map_Ok in E2. destruct E2 as (cells2 & [= <-] & ->).
  pose proof (get_col_has _ _ _ E3) as Hhas.
  pose proof (get_col_unique _ _ _ E3) as Hu.
  apply get_col_set_same in E3. subst x3.
  apply str_match_Ok in E4. destruct E4 as (cells & [= <-] & ->).
  split; [now rewrite filter_rows_has_col|].
  intros c Hin. apply filter_rows_In in Hin. destruct Hin as (c0 & Hin & ->).
  apply Hu in Hin. subst c0. simpl. eexists. split; [reflexivity|].
  rewrite pick_map_filter. apply Forall_forall. intros o Ho.
  apply filter_In in Ho. destruct Ho as [Ho Hm].
  destruct o as [s|]; [|discriminate]. exists s. split; [reflexivity|].
  apply in_map_iff in Ho. destruct Ho as ([u|] & Eu & Ho); [|discriminate].
  apply in_map_iff in Ho. destruct Ho as ([t|] & Et & _); [|discriminate].
  simpl in Eu, Et. injection Et as <-. injection Eu as <-.
  now apply cleaned_match_format.
Qed.

Lemma tickers_valid_set_other l c df :
  l <> "ticker" -> tickers_valid df -> tickers_valid (Table.set_col l c df).
Proof.
  intros Hne [Hh Ha]. split.
  - apply set_col_has. now right.
  - apply all_labelled_set_other; [congruence|exact Ha].
Qed.

Lemma tickers_valid_select ls df df' :
  Table.select_cols ls df = Ok df' -> In "ticker" ls -> tickers_valid df -> tickers_valid df'.
Proof.
  intros H Hin [_ Ha]. split.
  - eapply select_cols_has; eassumption.
  - eapply all_labelled_select; eassumption.
Qed.

Lemma tickers_valid_sort label df df' :
  Table.sort_values_desc label df = Ok df' -> tickers_valid df -> tickers_valid df'.
Proof.
  intros H [Hh Ha]. split.
  - now rewrite (sort_values_has _ _ _ _ H).
  - eapply all_labelled_sort; [apply ticker_column_closed|eassumption|exact Ha].
Qed.

Lemma tickers_valid_filter m df : tickers_valid df -> tickers_valid (Table.filter_rows m df).
Proof.
  intros [Hh Ha]. split.
  - now rewrite filter_rows_has_col.
  - apply all_labelled_filter_rows; [apply ticker_column_closed|exact Ha].
Qed.

Lemma default_name_valid df df' :
  default_name df = Ok df' -> tickers_valid df -> tickers_valid df'.
Proof.
  unfold default_name. destruct (Table.has_col "name" df).
  - intros [= <-]. auto.
  - intros H. bind_inv H. injection H as <-. apply tickers_valid_set_other. discriminate.
Qed.

Lemma invesco_tickers_valid py response df :
  _fetch_holdings_invesco py response = Some df -> tickers_valid df.
Proof.
  unfold _fetch_holdings_invesco. intros H. apply try_or_None_Some in H.
  bind_inv H. destruct (_ || _); [discriminate|].
  bind_inv H. bind_inv H. bind_inv H. bind_inv H. bind_inv H. bind_inv H.
  injection H as <-.
  eapply tickers_valid_sort; [eassumption|].
  eapply tickers_valid_select; [eassumption|now left|].
  assert (tickers_valid x3) as H3.
  { eapply default_name_valid; [eassumption|].
    apply tickers_valid_set_other; [discriminate|].
    eapply clean_tickers_valid; eassumption. }
  destruct (Table.has_col "sector" x3); [exact H3|].
  apply tickers_valid_set_other; [discriminate|exact H3].
Qed.

Lemma slickcharts_valid py response df :
  _fetch_holdings_slickcharts py response = Some df ->
  tickers_valid df /\ weights_positive df.
Proof.
  unfold _fetch_holdings_slickcharts. intros H. apply try_or_None_Some in H.
  bind_inv H. destruct x as [|first rest]; [discriminate|].
  destruct (_ || _); [discriminate|].
  bind_inv H. bind_inv H. bind_inv H. bind_inv H. bind_inv H.
  destruct x3 as [|ws]; [discriminate|].
  bind_inv H. injection H as <-.
  assert (tickers_valid x2) as H2.
  { eapply tickers_valid_select; [eassumption|now left|].
    apply tickers_valid_set_other; [discriminate|].
    eapply default_name_valid; [eassumption|].
    apply tickers_valid_set_other; [discriminate|].
    eapply clean_tickers_valid; eassumption. }
  split.
  - eapply tickers_valid_sort; [eassumption|]. now apply tickers_valid_filter.
  - split.
    + rewrite (sort_values_has _ _ _ _ E5), filter_rows_has_col.
      eapply get_col_has; eassumption.
    + eapply all_labelled_sort; [apply weight_column_closed|eassumption|].
      intros c Hin. apply filter_rows_In in Hin. destruct Hin as (c0 & Hin & ->).
      apply (get_col_unique _ _ _ E4) in Hin. subst c0. simpl.
      eexists. split; [reflexivity|]. rewrite pick_map_filter.
      apply Forall_forall. intros w Hw. apply filter_In in Hw. apply Hw.
Qed.

Lemma static_valid : tickers_valid _get_static_holdings /\ weights_in_unit _get_static_holdings.
Proof.
  split; (split; [vm_compute; reflexivity|]); intros c Hin.
  - vm_compute in Hin.
    destruct Hin as [[= <-]|[[=]|[[=]|[[=]|[]]]]].
    eexists. split; [reflexivity|].
    repeat (constructor; [eexists; split; [reflexivity|vm_compute; reflexivity]|]).
    constructor.
  - vm_compute in Hin.
    destruct Hin as [[=]|[[=]|[[= <-]|[[=]|[]]]]].
    eexists. split; [reflexivity|].
    repeat (constructor; [split; vm_compute; reflexivity|]).
    constructor.
Qed.

(** C3, as amended. Every holdings set returned by the Invesco tier, by the
    Slickcharts tier or by the static fallback has a ticker column all of
    whose tickers match the ticker format (1-5 capitals, optionally a hyphen
    and one capital); the weights of the static fallback lie in [0, 1] and
    those of a Slickcharts result are positive. No tier bounds its weights
    from above. *)
Theorem validated_tiers_keep_ticker_format py df :
  validated_output py df ->
  tickers_valid df /\
  (df = _get_static_holdings -> weights_in_unit df) /\
  ((exists response, _fetch_holdings_slickcharts py response = Some df) ->
   weights_positive df).
Proof.
  intros H. split; [|split].
  - destruct H as [response H|response H|H].
    + eapply invesco_tickers_valid; eassumption.
    + eapply slickcharts_valid; eassumption.
    + subst df. apply static_valid.
  - intros ->. apply static_valid.
  - intros [response H']. eapply slickcharts_valid; eassumption.
Qed.

(** The sample export: the row without a ticker is dropped, the tickers are
    trimmed and upper-cased, and all three match the format. *)
Lemma validated_tiers_keep_ticker_format_witness :
  validated_output Demo.py Demo.invesco_holdings /\
  _fetch_holdings_invesco Demo.py (Ok Demo.invesco_table) = Some Demo.invesco_holdings /\
  tickers_valid Demo.invesco_holdings.
Proof.
  assert (E : _fetch_holdings_invesco Demo.py (Ok Demo.invesco_table)
              = Some Demo.invesco_holdings)
    by (vm_compute; reflexivity).
  assert (H : validated_output Demo.py Demo.invesco_holdings)
    by (eapply from_invesco; exact E).
  split; [exact H|]. split; [exact E|].
  exact (proj1 (validated_tiers_keep_ticker_format Demo.py Demo.invesco_holdings H)).
Defined.

(** C3 as stated fails: the yfinance tier rescales only when its largest
    weight exceeds 1.5, so a summary with the weights 1.4 and 1.2 is returned
    with these weights, outside [0, 1]. *)
Lemma weights_up_to_threshold_pass_unchecked :
  _fetch_holdings_yfinance Demo.py (Ok (Some Demo.heavy_top))
    = Some Demo.heavy_holdings /\
  ~ weights_in_unit Demo.heavy_holdings.
Proof.
  split; [vm_compute; reflexivity|].
  intros [_ H].
  assert (In ("weight", NumCol [1.4%float; 1.2%float]) Demo.heavy_holdings) as Hin
    by (simpl; auto).
  destruct (H _ Hin) as (ws & E & F). injection E as <-.
  inversion F as [|? ? [_ Hle] _]. vm_compute in Hle. discriminate Hle.
Qed.

(** The yfinance tier returns the vendor's symbols as they come: a dotted
    class share is not in the ticker format and is kept. *)
Remark yfinance_symbols_are_not_validated :
  _fetch_holdings_yfinance Demo.py (Ok (Some Demo.dotted_top))
    = Some [ ("ticker", StrCol [Some "AAPL"; Some "BRK.B"]);
             ("name", StrCol [Some "Apple Inc"; Some "Berkshire Hathaway Inc"]);
             ("weight", NumCol [0.08%float; 0.01%float]);
             ("sector", StrCol [Some "Unknown"; Some "Unknown"]) ] /\
  ticker_format "BRK.B" = false.
Proof. split; vm_compute; reflexivity. Qed.

(** The Invesco tier takes the weights as written: one above 100% and a
    negative one both pass. *)
Remark invesco_weights_are_not_bounded :
  _fetch_holdings_invesco Demo.py (Ok Demo.offset_table)
    = Some [ ("ticker", StrCol [Some "AAPL"; Some "CASH"]);
             ("name", StrCol [Some "AAPL"; Some "CASH"]);
             ("weight", NumCol [1.005%float; (-0.005)%float]);
             ("sector", StrCol [Some ""; Some ""]) ].
Proof. vm_compute. reflexivity. Qed.

(** * Further properties of the code *)

(** ** Market sessions *)

(** X1. On a weekend day the market is closed whatever the clock says. On a
    weekday the session is read off the minutes since midnight: pre-market
    from 04:00 to 09:30, open from 09:30 to 16:00, after-hours from 16:00
    to 20:00, closed otherwise, each window including its start and
    excluding its end. The refresh interval follows the session: 75 s when
    open, 120 s before and after, 300 s when closed. *)
Theorem market_session_by_clock (now : LocalTime) :
  let t := hour now * 60 + minute now in
  let st := get_market_status now in
  (5 <= weekday now -> session st = SessionClosed) /\
  (weekday now < 5 ->
     (session st = SessionPre <-> 240 <= t < 570) /\
     (session st = SessionOpen <-> 570 <= t < 960) /\
     (session st = SessionAfter <-> 960 <= t < 1200) /\
     (session st = SessionClosed <-> t < 240 \/ 1200 <= t)) /\
  refresh_interval st =
    match session st with
    | SessionOpen => 75
    | SessionPre | SessionAfter => 120
    | SessionClosed => 300
    end /\
  time_et st = formatted now.
Proof.
  cbv zeta. unfold get_market_status.
  destruct (Nat.leb_spec 5 (weekday now)) as [Hw|Hw]; cbn [session refresh_interval time_et].
  - repeat split; try reflexivity; try lia.
  - destruct (Nat.leb_spec (4 * 60) (hour now * 60 + minute now)) as [H1|H1];
      destruct (Nat.ltb_spec (hour now * 60 + minute now) (9 * 60 + 30)) as [H2|H2];
      destruct (Nat.leb_spec (9 * 60 + 30) (hour now * 60 + minute now)) as [H3|H3];
      destruct (Nat.ltb_spec (hour now * 60 + minute now) (16 * 60)) as [H4|H4];
      destruct (Nat.leb_spec (16 * 60) (hour now * 60 + minute now)) as [H5|H5];
      destruct (Nat.ltb_spec (hour now * 60 + minute now) (20 * 60)) as [H6|H6];
      cbn [andb session refresh_interval time_et]; try lia;
      repeat split; try reflexivity; try discriminate; try lia; intros; try lia;
      try reflexivity; try discriminate.
Qed.

(** ** Ticker normalisation *)

Lemma normalize_ticker_cons c t :
  _normalize_ticker (String c t) =
  String (if Ascii.eqb c "." then "-"%char else if Ascii.eqb c "/" then "-"%char else c)
         (_normalize_ticker t).
Proof.
  unfold _normalize_ticker, PyStr.replace_char. simpl. f_equal.
  destruct (Ascii.eqb_spec c "."); [reflexivity|].
  destruct (Ascii.eqb_spec c "/"); reflexivity.
Qed.

(** X2. The normal form of a ticker contains neither a dot nor a slash, has
    the length of the ticker, and normalising it again changes nothing. *)
Theorem normalize_ticker_canonical (t : string) :
  let n := _normalize_ticker t in
  _normalize_ticker n = n /\
  ~ In "."%char (list_ascii_of_string n) /\
  ~ In "/"%char (list_ascii_of_string n) /\
  String.length n = String.length t.
Proof.
  cbv zeta. induction t as [|c t (IH1 & IH2 & IH3 & IH4)].
  - repeat split; simpl; auto.
  - rewrite normalize_ticker_cons.
    set (c' := if Ascii.eqb c "." then "-"%char else if Ascii.eqb c "/" then "-"%char else c).
    assert (Hd : c' <> "."%char /\ c' <> "/"%char).
    { unfold c'. destruct (Ascii.eqb_spec c "."); [split; discriminate|].
      destruct (Ascii.eqb_spec c "/"); [split; discriminate|]. split; assumption. }
    destruct Hd as [Hd Hs].
    rewrite normalize_ticker_cons, IH1.
    apply Ascii.eqb_neq in Hd, Hs. rewrite Hd, Hs.
    apply Ascii.eqb_neq in Hd, Hs.
    repeat split.
    + simpl. intros [E|E]; [congruence | auto].
    + simpl. intros [E|E]; [congruence | auto].
    + simpl. now rewrite IH4.
Qed.

(** The characters of a text in the ticker format. *)
Lemma suffix_hyphen fin s :
  TickerRe.suffix fin s =
  fin s || match s with
           | String a (String c s') => Ascii.eqb a "-" && PyStr.is_upper c && fin s'
           | _ => false
           end.
Proof.
  unfold TickerRe.suffix. f_equal. destruct s as [|a [|c s']]; try reflexivity.
  - destruct a as [[] [] [] [] [] [] [] []]; reflexivity.
  - destruct a as [[] [] [] [] [] [] [] []]; reflexivity.
Qed.

Lemma upper_plain c : PyStr.is_upper c = true -> plain_char c.
Proof. intros H. split; intros ->; discriminate H. Qed.

Lemma suffix_plain s :
  TickerRe.suffix TickerRe.at_end s = true -> Forall plain_char (list_ascii_of_string s).
Proof.
  rewrite suffix_hyphen. destruct s as [|a [|c s']]; simpl; try discriminate; [constructor|].
  destruct s'; simpl; rewrite ?andb_false_r; try discriminate.
  rewrite andb_true_r. intros H. apply andb_true_iff in H. destruct H as [Ha Hc].
  apply Ascii.eqb_eq in Ha. subst a.
  repeat constructor; try discriminate; apply (upper_plain _ Hc).
Qed.

Lemma letters_plain n s :
  TickerRe.letters TickerRe.at_end n s = true -> Forall plain_char (list_ascii_of_string s).
Proof.
  revert n. induction s as [|c s IH]; intros n; [constructor|].
  cbn [TickerRe.letters]. destruct (PyStr.is_upper c) eqn:Eu.
  - destruct n as [|n]; [discriminate|]. intros H. simpl. constructor.
    + now apply upper_plain.
    + now apply (IH n).
  - apply suffix_plain.
Qed.

Lemma plain_normalize s :
  Forall plain_char (list_ascii_of_string s) -> _normalize_ticker s = s.
Proof.
  induction s as [|c s IH]; [reflexivity|]. simpl. intros H. inversion H as [|? ? [Hd Hs] Hr]; subst.
  rewrite normalize_ticker_cons, (IH Hr).
  apply Ascii.eqb_neq in Hd, Hs. now rewrite Hd, Hs.
Qed.

Lemma format_normalize s : ticker_format s = true -> _normalize_ticker s = s.
Proof.
  unfold ticker_format, TickerRe.pattern. destruct s as [|c s]; [discriminate|].
  intros H. apply andb_true_iff in H. destruct H as [Hu H].
  apply plain_normalize. simpl. constructor; [now apply upper_plain | now apply (letters_plain 4)].
Qed.

(** X3. A ticker in the ticker format is its own normal form, so a batch
    requested for tickers that all have the format is keyed by exactly
    those tickers: none is lost to a shared normal form. *)
Theorem format_tickers_keep_their_keys (dl : Download) (tickers : list string) :
  Forall (fun t => ticker_format t = true) tickers ->
  (forall t, In t tickers -> _normalize_ticker t = t) /\
  (forall t, In t (PyDict.keys (get_prices_batch dl tickers)) <-> In t tickers).
Proof.
  intros Hf. rewrite Forall_forall in Hf.
  assert (Hn : forall t, In t tickers -> _normalize_ticker t = t).
  { intros t Hin. apply format_normalize. now apply Hf. }
  split; [exact Hn|].
  intros t. split; [apply batch_keys_are_inputs|].
  intros Hin. unfold get_prices_batch. destruct tickers as [|t0 tickers']; [destruct Hin|].
  set (tickers := t0 :: tickers') in *.
  apply batch_fold_keys. right.
  destruct (norm_map_covers tickers t Hin) as [v Hv].
  exists (_normalize_ticker t). split.
  - apply keys_get. eauto.
  - pose proof (norm_map_entries _ _ _ Hv) as [E Hv'].
    rewrite (Hn t Hin), (Hn v Hv') in E. rewrite <- E in Hv. exact Hv.
Qed.

Lemma format_tickers_keep_their_keys_witness :
  Forall (fun t => ticker_format t = true) ["QQQ"; "BRK-B"; "AAPL"] /\
  (forall t, In t (PyDict.keys (get_prices_batch Demo.download ["QQQ"; "BRK-B"; "AAPL"]))
             <-> In t ["QQQ"; "BRK-B"; "AAPL"]).
Proof.
  assert (H : Forall (fun t => ticker_format t = true) ["QQQ"; "BRK-B"; "AAPL"])
    by (repeat constructor).
  split; [exact H|].
  exact (proj2 (format_tickers_keep_their_keys Demo.download _ H)).
Defined.

(** ** The pattern and a trailing newline *)

Lemma at_dollar_newline t :
  TickerRe.at_dollar (t ++ newline_text) = TickerRe.at_end t.
Proof. destruct t as [|a [|b t]]; reflexivity. Qed.

Lemma suffix_newline t :
  TickerRe.suffix TickerRe.at_dollar (t ++ newline_text) = TickerRe.suffix TickerRe.at_end t.
Proof.
  rewrite !suffix_hyphen, at_dollar_newline. f_equal.
  destruct t as [|a [|c t]]; simpl.
  - reflexivity.
  - rewrite andb_false_r. reflexivity.
  - rewrite at_dollar_newline. reflexivity.
Qed.

Lemma letters_newline n t :
  TickerRe.letters TickerRe.at_dollar n (t ++ newline_text)
  = TickerRe.letters TickerRe.at_end n t.
Proof.
  revert n. induction t as [|c t IH]; intros n.
  - reflexivity.
  - change (String c t ++ newline_text) with (String c (t ++ newline_text)).
    cbn [TickerRe.letters]. destruct (PyStr.is_upper c).
    + destruct n; [reflexivity | apply IH].
    + apply (suffix_newline (String c t)).
Qed.

Lemma re_match_newline t : TickerRe.re_match (t ++ newline_text) = ticker_format t.
Proof.
  unfold TickerRe.re_match, ticker_format, TickerRe.pattern.
  destruct t as [|c t]; [reflexivity|].
  cbn [append]. now rewrite letters_newline.
Qed.

Lemma last_char_newline s :
  last_char s = Some TickerRe.newline -> exists t, s = t ++ newline_text.
Proof.
  induction s as [|c s IH]; [discriminate|].
  destruct s as [|c' s].
  - simpl. intros [= ->]. now exists EmptyString.
  - intros H. destruct (IH H) as [t Ht]. exists (String c t). simpl. now rewrite <- Ht.
Qed.

Lemma fin_weaker s : TickerRe.at_end s = true -> TickerRe.at_dollar s = true.
Proof. destruct s; [reflexivity | discriminate]. Qed.

Lemma suffix_weaker s :
  TickerRe.suffix TickerRe.at_end s = true -> TickerRe.suffix TickerRe.at_dollar s = true.
Proof.
  rewrite !suffix_hyphen. intros H. apply orb_true_iff in H. apply orb_true_iff.
  destruct H as [H|H]; [left; now apply fin_weaker|]. right.
  destruct s as [|a [|c s']]; try discriminate.
  apply andb_true_iff in H. destruct H as [H1 H2]. rewrite H1. now apply fin_weaker.
Qed.

Lemma letters_weaker n s :
  TickerRe.letters TickerRe.at_end n s = true -> TickerRe.letters TickerRe.at_dollar n s = true.
Proof.
  revert n. induction s as [|c s IH]; intros n; cbn [TickerRe.letters].
  - apply suffix_weaker.
  - destruct (PyStr.is_upper c); [|apply suffix_weaker].
    destruct n; [discriminate | apply IH].
Qed.

(** X4. The pattern of the Invesco and Slickcharts tiers accepts exactly the
    texts in the ticker format and those texts followed by one newline
    (the [$] of the pattern also matches before a final newline). *)
Theorem re_match_accepts_format_or_newline (s : string) :
  TickerRe.re_match s = true <->
  ticker_format s = true \/ exists t, s = t ++ newline_text /\ ticker_format t = true.
Proof.
  split.
  - intros H.
    assert (D : last_char s = Some TickerRe.newline \/ last_char s <> Some TickerRe.newline).
    { destruct (last_char s) as [c|]; [|right; discriminate].
      destruct (Ascii.eqb_spec c TickerRe.newline) as [->|N]; [now left | right; congruence]. }
    destruct D as [E|E].
    + destruct (last_char_newline s E) as [t ->]. right. exists t. split; [reflexivity|].
      now rewrite <- re_match_newline.
    + left. now apply re_match_format.
  - intros [H|(t & -> & H)].
    + unfold ticker_format, TickerRe.re_match, TickerRe.pattern in *.
      destruct s as [|c s]; [discriminate|].
      apply andb_true_iff in H. destruct H as [Hu H]. rewrite Hu. simpl.
      now apply letters_weaker.
    + now rewrite re_match_newline.
Qed.

(** ** The header row of the Invesco export *)

Lemma first_header_split i lines :
  match first_header i lines with
  | Some j =>
      exists preamble line rest,
        lines = (preamble ++ line :: rest)%list /\ j = i + List.length preamble /\
        Forall (fun l => is_header_line l = false) preamble /\ is_header_line line = true
  | None => Forall (fun l => is_header_line l = false) lines
  end.
Proof.
  revert i. induction lines as [|l lines IH]; intros i; simpl; [constructor|].
  destruct (is_header_line l) eqn:E.
  - exists [], l, lines. repeat split; [simpl; lia | constructor | exact E].
  - specialize (IH (S i)). destruct (first_header (S i) lines) as [j|].
    + destruct IH as (pre & line & rest & -> & -> & Hp & Hl).
      exists (l :: pre), line, rest. repeat split; [simpl; lia | now constructor | exact Hl].
    + now constructor.
Qed.

Lemma skipn_app_length {A} (a b : list A) : skipn (List.length a) (a ++ b) = b.
Proof. induction a; [reflexivity | assumption]. Qed.

(** X5. The Invesco tier hands the parser the lines of the response from
    the first header line on, a header line being one that contains
    "weight" and also "ticker" or "holding", in any letter case: the lines
    it skips are not header lines. A response without a header line is
    parsed whole. *)
Theorem csv_starts_at_first_header (lines : list string) :
  (exists preamble line rest,
      lines = (preamble ++ line :: rest)%list /\
      csv_lines lines = line :: rest /\
      header_row_idx lines = List.length preamble /\
      Forall (fun l => is_header_line l = false) preamble /\
      is_header_line line = true) \/
  (Forall (fun l => is_header_line l = false) lines /\
   header_row_idx lines = 0 /\ csv_lines lines = lines).
Proof.
  unfold csv_lines, header_row_idx.
  pose proof (first_header_split 0 lines) as H.
  destruct (first_header 0 lines) as [j|].
  - left. destruct H as (pre & line & rest & -> & -> & Hp & Hl).
    exists pre, line, rest. simpl. rewrite skipn_app_length. auto.
  - right. auto.
Qed.

(** ** Prices without a daily table *)

Lemma get_series_no_table ticker n df field :
  no_table df = true -> get_series ticker n df field = None.
Proof.
  destruct df as [d|]; simpl; [|reflexivity]. intros ->. reflexivity.
Qed.

Lemma resolve_without_daily ticker intraday daily n :
  no_table daily = true ->
  match resolve_prices ticker intraday daily n with
  | Ok (_, Some _) => False
  | _ => True
  end.
Proof.
  intros H. unfold resolve_prices. rewrite (get_series_no_table _ _ daily _ H).
  destruct (get_series ticker n intraday "Close") as [s|]; [|exact I].
  destruct (0 <? List.length s); [|exact I].
  destruct (float_at 0 s); simpl; exact I.
Qed.

(** X6. The previous close comes from the daily table only: when the daily
    download fails or is empty, every quote of the batch is the empty
    quote, whatever the intraday table holds. *)
Theorem no_daily_table_no_quote (dl : Download) (tickers : list string) t q :
  let ticker_str := PyStr.join " " (PyDict.keys (norm_map_of tickers)) in
  no_table (dl ticker_str "5d" "1d") = true ->
  PyDict.get t (get_prices_batch dl tickers) = Some q ->
  q = _empty_price.
Proof.
  intros ticker_str Hd H.
  unfold get_prices_batch in H. destruct tickers as [|t0 tickers']; [discriminate|].
  set (tickers := t0 :: tickers') in *.
  apply batch_fold_get in H. destruct H as [H|(k & _ & _ & ->)]; [discriminate|].
  fold ticker_str.
  match goal with |- context [_extract_price ?a ?b ?c ?d] =>
    pose proof (extract_price_cases a b c d) as E;
    pose proof (resolve_without_daily a b c d Hd) as R;
    destruct (resolve_prices a b c d) as [[[?|] [?|]]|]; rewrite E
  end; try reflexivity; destruct R.
Qed.

Lemma no_daily_table_no_quote_witness :
  let dl : Download :=
    fun _ period _ => if String.eqb period "1d" then Some Demo.intraday else None in
  no_table (dl (PyStr.join " " (PyDict.keys (norm_map_of ["QQQ"; "AAPL"]))) "5d" "1d") = true /\
  exists q, PyDict.get "AAPL" (get_prices_batch dl ["QQQ"; "AAPL"]) = Some q /\ q = _empty_price.
Proof.
  cbv zeta.
  set (dl := fun (_ period _ : string) =>
               if String.eqb period "1d" then Some Demo.intraday else None).
  assert (H1 : no_table (dl (PyStr.join " " (PyDict.keys (norm_map_of ["QQQ"; "AAPL"])))
                            "5d" "1d") = true) by reflexivity.
  assert (H2 : PyDict.get "AAPL" (get_prices_batch dl ["QQQ"; "AAPL"])
               = Some (mkQuote None None None None false)) by (vm_compute; reflexivity).
  split; [exact H1|]. eexists. split; [exact H2|].
  exact (no_daily_table_no_quote dl ["QQQ"; "AAPL"] "AAPL" _ H1 H2).
Defined.

(** ** A quote from one daily bar *)

Lemma sub_self_zero (v : float) : is_finite v = true -> (v - v)%float = 0%float.
Proof.
  intros H. apply Prim2SF_inj. rewrite FloatAxioms.sub_spec, Prim2SF_zero.
  apply is_finite_Prim2SF in H. destruct H as [[s E]|(s & m & e & E)]; rewrite E.
  - destruct s; reflexivity.
  - unfold SF64sub, SFsub. cbv zeta. rewrite Z.sub_diag. reflexivity.
Qed.

Lemma eqb_zero_Prim2SF (z : float) : (exists s, Prim2SF z = S754_zero s) -> (z =? 0)%float = true.
Proof.
  intros [s E]. rewrite FloatAxioms.eqb_spec, E, Prim2SF_zero. reflexivity.
Qed.

Lemma round_zero_like (z : float) n :
  (exists s, Prim2SF z = S754_zero s) -> PyFloat.round z n = z.
Proof.
  intros [s E]. apply round_not_finite. intros s' m e. rewrite E. discriminate.
Qed.

Lemma flat_change_pct (v : float) :
  is_finite v = true ->
  exists s, Prim2SF (if PyFloat.ne0 v then (0 / v * 100)%float else 0%float) = S754_zero s.
Proof.
  intros H. unfold PyFloat.ne0. rewrite FloatAxioms.eqb_spec, Prim2SF_zero.
  apply is_finite_Prim2SF in H. destruct H as [[s E]|(s & m & e & E)]; rewrite E.
  - simpl. exists false. exact Prim2SF_zero.
  - replace (negb (SFeqb (S754_finite s m e) (S754_zero false))) with true
      by (destruct s; reflexivity).
    destruct Prim2SF_100 as (m' & e' & E100).
    rewrite FloatAxioms.mul_spec, FloatAxioms.div_spec, Prim2SF_zero, E, E100.
    simpl. eauto.
Qed.

Lemma quote_of_same (v : float) :
  is_finite v = true ->
  exists z,
    quote_of v v = mkQuote (Some (PyFloat.round v 2)) (Some (PyFloat.round v 2))
                           (Some 0%float) (Some z) true /\
    (z =? 0)%float = true.
Proof.
  intros H. unfold quote_of. rewrite (sub_self_zero v H).
  destruct (flat_change_pct v H) as [s E].
  eexists. split.
  - f_equal.
  - rewrite round_zero_like by eauto. apply eqb_zero_Prim2SF. eauto.
Qed.

(** X7. When the intraday table gives no close and the daily series holds a
    single finite value, that value is both the current price and the
    previous close: the quote is valid, its change in dollars is 0 and its
    change in percent is a zero. *)
Theorem single_daily_bar_quote ticker intraday daily n (v : float) :
  get_series ticker n intraday "Close" = None ->
  get_series ticker n daily "Close" = Some [[v]] ->
  is_finite v = true ->
  exists z,
    _extract_price ticker intraday daily n
      = Ok (mkQuote (Some (PyFloat.round v 2)) (Some (PyFloat.round v 2))
                    (Some 0%float) (Some z) true) /\
    (z =? 0)%float = true.
Proof.
  intros Hi Hd Hf. unfold _extract_price, resolve_prices. rewrite Hi, Hd. simpl.
  destruct (quote_of_same v Hf) as (z & E & Hz). exists z. now rewrite E.
Qed.

Lemma single_daily_bar_quote_witness :
  let daily := mkPriceFrame (FlatIndex ["Close"; "Volume"]) [[101.5%float; 2000%float]] in
  get_series "QQQ" 1 None "Close" = None /\
  get_series "QQQ" 1 (Some daily) "Close" = Some [[101.5%float]] /\
  is_finite 101.5 = true /\
  exists z,
    _extract_price "QQQ" None (Some daily) 1
      = Ok (mkQuote (Some (PyFloat.round 101.5 2)) (Some (PyFloat.round 101.5 2))
                    (Some 0%float) (Some z) true) /\
    (z =? 0)%float = true.
Proof.
  cbv zeta.
  set (daily := mkPriceFrame (FlatIndex ["Close"; "Volume"]) [[101.5%float; 2000%float]]).
  assert (H1 : get_series "QQQ" 1 None "Close" = None) by reflexivity.
  assert (H2 : get_series "QQQ" 1 (Some daily) "Close" = Some [[101.5%float]])
    by (vm_compute; reflexivity).
  assert (H3 : is_finite 101.5 = true) by reflexivity.
  split; [exact H1|]. split; [exact H2|]. split; [exact H3|].
  exact (single_daily_bar_quote "QQQ" None (Some daily) 1 101.5%float H1 H2 H3).
Defined.

(** ** Market caps, ticker by ticker *)

Lemma market_caps_fold_get (fi : FastInfo) tickers acc t :
  PyDict.get t
    (fold_left (fun result t0 =>
                  let r := _fetch_single_market_cap fi t0 in
                  PyDict.set (fst r) (snd r) result) tickers acc)
  = if existsb (String.eqb t) tickers then Some (snd (_fetch_single_market_cap fi t))
    else PyDict.get t acc.
Proof.
  revert acc. induction tickers as [|t0 tickers IH]; intros acc; [reflexivity|].
  cbn [fold_left existsb]. rewrite IH. cbv zeta. rewrite fetch_single_ticker.
  destruct (existsb (String.eqb t) tickers); [now rewrite orb_true_r|].
  rewrite orb_false_r, get_set.
  destruct (String.eqb_spec t t0) as [->|N]; reflexivity.
Qed.

(** X8. On a cache miss [get_market_caps] answers every requested ticker on
    its own: the entry of a ticker is the market cap the vendor reports
    for its normal form, and [None] when that lookup raises or reports
    nothing or zero; the failure of one ticker leaves the others'
    entries alone. The map is what the cache keeps, stamped with the time
    of the call. *)
Theorem market_caps_answer_per_ticker (fi : FastInfo) now tickers c t :
  Cache.market_caps c = None \/
  within_ttl now (Cache.market_caps_ts c) HOLDINGS_CACHE_TTL = false ->
  In t tickers ->
  let answer := get_market_caps fi now tickers c in
  PyDict.get t (fst answer) =
    Some (match fi (_normalize_ticker t) with
          | Ok (Some mc) => if (mc =? 0)%float then None else Some mc
          | _ => None
          end) /\
  Cache.market_caps (snd answer) = Some (fst answer) /\
  Cache.market_caps_ts (snd answer) = now.
Proof.
  intros Hmiss Hin answer.
  assert (Hex : existsb (String.eqb t) tickers = true).
  { apply existsb_exists. exists t. split; [exact Hin | apply String.eqb_refl]. }
  assert (Hv : snd (_fetch_single_market_cap fi t) =
               match fi (_normalize_ticker t) with
               | Ok (Some mc) => if (mc =? 0)%float then None else Some mc
               | _ => None
               end).
  { unfold _fetch_single_market_cap, PyFloat.truthy, PyFloat.ne0.
    destruct (fi (_normalize_ticker t)) as [[mc|]|]; try reflexivity.
    simpl. destruct (mc =? 0)%float; reflexivity. }
  subst answer. unfold get_market_caps.
  destruct (Cache.market_caps c) as [m|] eqn:Em.
  - destruct Hmiss as [Hm|Hm]; [discriminate|]. rewrite Hm. cbn [fst snd Cache.market_caps Cache.market_caps_ts].
    rewrite market_caps_fold_get, Hex, Hv. auto.
  - cbn [fst snd Cache.market_caps Cache.market_caps_ts].
    rewrite market_caps_fold_get, Hex, Hv. auto.
Qed.

Lemma market_caps_answer_per_ticker_witness :
  let answer :=
    get_market_caps (fast_info Demo.world) 1700000000 ["AAPL"; "MSFT"; "NFLX"] Cache.initial in
  (Cache.market_caps Cache.initial = None \/
   within_ttl 1700000000 (Cache.market_caps_ts Cache.initial) HOLDINGS_CACHE_TTL = false) /\
  In "NFLX" ["AAPL"; "MSFT"; "NFLX"] /\
  PyDict.get "NFLX" (fst answer) = Some None /\
  fst answer = [("AAPL", Some 3000000000000%float); ("MSFT", None); ("NFLX", None)].
Proof.
  cbv zeta.
  assert (H1 : Cache.market_caps Cache.initial = None \/
               within_ttl 1700000000 (Cache.market_caps_ts Cache.initial) HOLDINGS_CACHE_TTL
               = false) by (left; reflexivity).
  assert (H2 : In "NFLX" ["AAPL"; "MSFT"; "NFLX"]) by (simpl; auto).
  split; [exact H1|]. split; [exact H2|]. split.
  - exact (proj1 (market_caps_answer_per_ticker (fast_info Demo.world) 1700000000
                    ["AAPL"; "MSFT"; "NFLX"] Cache.initial "NFLX" H1 H2)).
  - vm_compute. reflexivity.
Defined.

(** ** The caches between calls *)

Lemma compute_qqq_data_stores py w c r c' :
  compute_qqq_data py w c = (Ok r, c') ->
  Cache.data c' = Some r /\ Cache.timestamp c' = time_data w.
Proof.
  unfold compute_qqq_data.
  destruct (get_qqq_holdings py (time_holdings w) (sources w) c) as [holdings_df c1].
  destruct (tcol <- Table.get_col "ticker" holdings_df ;; ticker_texts tcol) as [tickers|];
    [|discriminate].
  destruct (get_market_caps (fast_info w) (time_caps w) tickers c1) as [market_caps c2].
  destruct (holding_rows py holdings_df tickers) as [rws|]; [|discriminate].
  intros [= <- <-]. split; reflexivity.
Qed.

Lemma get_qqq_data_stores py w c r c' :
  get_qqq_data py w c = (Ok r, c') -> Cache.data c' = Some r.
Proof.
  unfold get_qqq_data. destruct (Cache.data c) as [cached|] eqn:Ed.
  - destruct (within_ttl (time_data w) (Cache.timestamp c) PRICE_CACHE_TTL).
    + intros [= <- <-]. exact Ed.
    + intros H. now apply compute_qqq_data_stores in H.
  - intros H. now apply compute_qqq_data_stores in H.
Qed.

(** X9. A result that [get_qqq_data] returned is the cached one: a later
    call made less than 60 s after the cache stamp returns the same result
    and leaves the cache as it is, whatever the sources would answer by
    then. *)
Theorem data_served_from_cache py (w1 w2 : World) c r c' :
  get_qqq_data py w1 c = (Ok r, c') ->
  within_ttl (time_data w2) (Cache.timestamp c') PRICE_CACHE_TTL = true ->
  Cache.data c' = Some r /\ get_qqq_data py w2 c' = (Ok r, c').
Proof.
  intros H Httl. pose proof (get_qqq_data_stores _ _ _ _ _ H) as Hd.
  split; [exact Hd|]. unfold get_qqq_data. rewrite Hd, Httl. reflexivity.
Qed.

Lemma data_served_from_cache_witness :
  let later :=
    mkWorld 1700000059 1700000059 1700000059 (mkLocalTime 1 10 0 "10:00:59 AM ET")
            "2023-11-14T15:00:59" (mkSources Raise Raise Raise) (fun _ _ _ => None)
            (fun _ => Raise) in
  get_qqq_data Demo.py Demo.world Cache.initial = (Ok Demo.result, Demo.cache_after) /\
  within_ttl (time_data later) (Cache.timestamp Demo.cache_after) PRICE_CACHE_TTL = true /\
  get_qqq_data Demo.py later Demo.cache_after = (Ok Demo.result, Demo.cache_after).
Proof.
  cbv zeta.
  assert (H1 : get_qqq_data Demo.py Demo.world Cache.initial = (Ok Demo.result, Demo.cache_after))
    by exact demo_outcome.
  set (later := mkWorld 1700000059 1700000059 1700000059 (mkLocalTime 1 10 0 "10:00:59 AM ET")
            "2023-11-14T15:00:59" (mkSources Raise Raise Raise) (fun _ _ _ => None)
            (fun _ => Raise)).
  assert (H2 : within_ttl (time_data later) (Cache.timestamp Demo.cache_after) PRICE_CACHE_TTL
               = true) by (vm_compute; reflexivity).
  split; [exact H1|]. split; [exact H2|].
  exact (proj2 (data_served_from_cache Demo.py Demo.world later _ _ _ H1 H2)).
Defined.

(** X10. [/api/refresh] expires the price result only. After it, a call of
    [get_qqq_data] at any clock reading of at least 60 s recomputes the
    result instead of serving the cached one, while the holdings and the
    market caps are still answered from their own caches as before. *)
Theorem forced_refresh_recomputes py (w : World) c :
  within_ttl (time_data w) 0 PRICE_CACHE_TTL = false ->
  let c' := api_force_refresh c in
  get_qqq_data py w c' = compute_qqq_data py w c' /\
  (forall now src,
      fst (get_qqq_holdings py now src c') = fst (get_qqq_holdings py now src c)) /\
  (forall fi now tickers,
      fst (get_market_caps fi now tickers c') = fst (get_market_caps fi now tickers c)).
Proof.
  intros H c'. split; [|split].
  - unfold get_qqq_data. cbn [c' api_force_refresh Cache.data Cache.timestamp].
    rewrite H. destruct (Cache.data c); reflexivity.
  - intros now src. unfold get_qqq_holdings.
    cbn [c' api_force_refresh Cache.holdings Cache.holdings_ts].
    destruct (Cache.holdings c); [|reflexivity].
    destruct (within_ttl now (Cache.holdings_ts c) HOLDINGS_CACHE_TTL); reflexivity.
  - intros fi now tickers. unfold get_market_caps.
    cbn [c' api_force_refresh Cache.market_caps Cache.market_caps_ts].
    destruct (Cache.market_caps c); [|reflexivity].
    destruct (within_ttl now (Cache.market_caps_ts c) HOLDINGS_CACHE_TTL); reflexivity.
Qed.

Lemma forced_refresh_recomputes_witness :
  within_ttl (time_data Demo.world) 0 PRICE_CACHE_TTL = false /\
  get_qqq_data Demo.py Demo.world Demo.cache_after = (Ok Demo.result, Demo.cache_after) /\
  get_qqq_data Demo.py Demo.world (api_force_refresh Demo.cache_after)
    = compute_qqq_data Demo.py Demo.world (api_force_refresh Demo.cache_after).
Proof.
  assert (H : within_ttl (time_data Demo.world) 0 PRICE_CACHE_TTL = false)
    by (vm_compute; reflexivity).
  split; [exact H|]. split; [vm_compute; reflexivity|].
  exact (proj1 (forced_refresh_recomputes Demo.py Demo.world Demo.cache_after H)).
Defined.

Lemma get_qqq_holdings_stores py now src c :
  Cache.holdings (snd (get_qqq_holdings py now src c))
  = Some (fst (get_qqq_holdings py now src c)).
Proof.
  unfold get_qqq_holdings. destruct (Cache.holdings c) as [cached|] eqn:E; [|reflexivity].
  destruct (within_ttl now (Cache.holdings_ts c) HOLDINGS_CACHE_TTL); [exact E | reflexivity].
Qed.

(** X11. The table [get_qqq_holdings] returns is the one it leaves in the
    cache, and a later call made less than 24 h after the cache stamp
    returns that table again without consulting any source: the answer is
    the same whatever the sources would say. *)
Theorem holdings_served_from_cache py now1 now2 (src1 src2 : Sources) c :
  let first := get_qqq_holdings py now1 src1 c in
  within_ttl now2 (Cache.holdings_ts (snd first)) HOLDINGS_CACHE_TTL = true ->
  Cache.holdings (snd first) = Some (fst first) /\
  get_qqq_holdings py now2 src2 (snd first) = (fst first, snd first).
Proof.
  intros first H. subst first.
  pose proof (get_qqq_holdings_stores py now1 src1 c) as E.
  split; [exact E|].
  unfold get_qqq_holdings at 1. rewrite E, H. reflexivity.
Qed.

Lemma holdings_served_from_cache_witness :
  let first := get_qqq_holdings Demo.py 1700000000 (sources Demo.world) Cache.initial in
  within_ttl 1700080000 (Cache.holdings_ts (snd first)) HOLDINGS_CACHE_TTL = true /\
  fst first = Demo.invesco_holdings /\
  get_qqq_holdings Demo.py 1700080000 (mkSources Raise Raise Raise) (snd first)
    = (fst first, snd first).
Proof.
  cbv zeta.
  assert (H : within_ttl 1700080000
                (Cache.holdings_ts
                   (snd (get_qqq_holdings Demo.py 1700000000 (sources Demo.world) Cache.initial)))
                HOLDINGS_CACHE_TTL = true) by (vm_compute; reflexivity).
  split; [exact H|]. split; [vm_compute; reflexivity|].
  exact (proj2 (holdings_served_from_cache Demo.py 1700000000 1700080000 (sources Demo.world)
                  (mkSources Raise Raise Raise) Cache.initial H)).
Defined.

(** ** Sorting a table by weight *)

Section SortFacts.

Import Table.

Lemma insert_desc_perm x l : Permutation (x :: l) (insert_desc x l).
Proof.
  induction l as [|y l IH]; simpl; [reflexivity|].
  destruct (snd x <? snd y)%float; [|reflexivity].
  rewrite perm_swap. now constructor.
Qed.

Lemma sort_desc_perm l : Permutation l (fold_right insert_desc [] l).
Proof.
  induction l as [|x l IH]; simpl; [constructor|].
  rewrite <- insert_desc_perm. now constructor.
Qed.

Lemma insert_desc_sorted x l :
  is_nan (snd x) = false ->
  Forall (fun p : nat * float => is_nan (snd p) = false) l ->
  StronglySorted (fun p q : nat * float => (snd q <=? snd p)%float = true) l ->
  StronglySorted (fun p q : nat * float => (snd q <=? snd p)%float = true) (insert_desc x l).
Proof.
  intros Hx Hl Hs. induction l as [|y l IH]; simpl.
  - repeat constructor.
  - inversion Hl as [|? ? Hy Hl']; subst. inversion Hs as [|? ? Hs' Hy']; subst.
    destruct (snd x <? snd y)%float eqn:E.
    + constructor; [now apply IH|].
      eapply Permutation_Forall; [apply insert_desc_perm|].
      constructor; [now apply ltb_leb | exact Hy'].
    + assert (Hyx : (snd y <=? snd x)%float = true) by now apply ltb_false_leb.
      constructor; [exact Hs|]. constructor; [exact Hyx|].
      eapply Forall_impl; [|exact Hy']. intros z Hz. cbv beta in *.
      eapply leb_trans; eassumption.
Qed.

Lemma sort_desc_sorted l :
  Forall (fun p : nat * float => is_nan (snd p) = false) l ->
  StronglySorted (fun p q : nat * float => (snd q <=? snd p)%float = true)
                 (fold_right insert_desc [] l).
Proof.
  induction 1 as [|x l Hx Hl IH]; simpl; [constructor|].
  apply insert_desc_sorted; [exact Hx| |exact IH].
  eapply Permutation_Forall; [apply sort_desc_perm | exact Hl].
Qed.

Lemma sorted_map_snd (l : list (nat * float)) :
  StronglySorted (fun p q : nat * float => (snd q <=? snd p)%float = true) l ->
  StronglySorted (fun a b : float => (b <=? a)%float = true) (map snd l).
Proof.
  induction 1 as [|p l Hs IH Hp]; simpl; constructor; [exact IH|].
  apply Forall_map. exact Hp.
Qed.

Lemma combine_seq_nth {A} (ws : list A) s :
  Forall (fun p => s <= fst p /\ nth_error ws (fst p - s) = Some (snd p))
         (combine (seq s (List.length ws)) ws).
Proof.
  revert s. induction ws as [|w ws IH]; intros s; simpl; constructor.
  - simpl. rewrite Nat.sub_diag. auto.
  - eapply Forall_impl; [|apply (IH (S s))]. intros [i v] [Hle Hn]. simpl in *.
    split; [lia|]. replace (i - s) with (S (i - S s)) by lia. exact Hn.
Qed.

Lemma indexed_nth {A} (ws : list A) :
  Forall (fun p => nth_error ws (fst p) = Some (snd p)) (combine (seq 0 (List.length ws)) ws).
Proof.
  eapply Forall_impl; [|apply (combine_seq_nth ws 0)].
  intros p [_ H]. now rewrite Nat.sub_0_r in H.
Qed.

Lemma take_map_fst {A} (ws : list A) (l : list (nat * A)) :
  Forall (fun p => nth_error ws (fst p) = Some (snd p)) l ->
  take (map fst l) ws = map snd l.
Proof.
  unfold take. induction 1 as [|p l Hp Hl IH]; simpl; [reflexivity|].
  now rewrite Hp, IH.
Qed.

Lemma take_app {A} i j (l : list A) : take (i ++ j) l = (take i l ++ take j l)%list.
Proof. unfold take. apply flat_map_app. Qed.

(** The row positions [argsort_desc] returns, applied to the weights. *)
Lemma take_argsort ws :
  let indexed := combine (seq 0 (List.length ws)) ws in
  take (argsort_desc ws) ws =
  (map snd (fold_right insert_desc [] (filter (fun p => negb (is_nan (snd p))) indexed))
   ++ map snd (filter (fun p => is_nan (snd p)) indexed))%list.
Proof.
  intros indexed. unfold argsort_desc. fold indexed. rewrite take_app.
  pose proof (indexed_nth ws) as H. fold indexed in H. rewrite Forall_forall in H.
  f_equal; apply take_map_fst; apply Forall_forall; intros p Hp; apply H.
  - eapply Permutation_in in Hp; [|symmetry; apply sort_desc_perm].
    apply filter_In in Hp. apply Hp.
  - apply filter_In in Hp. apply Hp.
Qed.

Lemma argsort_descending ws : weights_descending (take (argsort_desc ws) ws).
Proof.
  rewrite take_argsort. cbv zeta.
  set (indexed := combine (seq 0 (List.length ws)) ws).
  assert (Hn : Forall (fun p : nat * float => is_nan (snd p) = false)
                 (filter (fun p => negb (is_nan (snd p))) indexed)).
  { apply Forall_forall. intros p Hp. apply filter_In in Hp. destruct Hp as [_ Hp].
    now apply negb_true_iff in Hp. }
  eexists _, _. split; [reflexivity|]. split; [|split].
  - apply sorted_map_snd, sort_desc_sorted, Hn.
  - apply Forall_map. eapply Permutation_Forall; [apply sort_desc_perm | exact Hn].
  - apply Forall_map, Forall_forall. intros p Hp. apply filter_In in Hp. apply Hp.
Qed.

Lemma partition_perm {A} (f : A -> bool) l :
  Permutation l (filter (fun x => negb (f x)) l ++ filter f l).
Proof.
  induction l as [|x l IH]; simpl; [constructor|].
  destruct (f x); simpl.
  - apply Permutation_cons_app. exact IH.
  - now constructor.
Qed.

Lemma map_fst_indexed {A} (ws : list A) s :
  map fst (combine (seq s (List.length ws)) ws) = seq s (List.length ws).
Proof. revert s. induction ws as [|w ws IH]; intros s; simpl; [reflexivity | now rewrite IH]. Qed.

Lemma argsort_perm ws : Permutation (argsort_desc ws) (seq 0 (List.length ws)).
Proof.
  unfold argsort_desc. rewrite <- map_app.
  rewrite <- (map_fst_indexed ws 0) at 3. apply Permutation_map.
  rewrite <- sort_desc_perm. symmetry. apply partition_perm.
Qed.

Lemma take_seq_all {A} (l : list A) s pre :
  s = List.length pre -> take (seq s (List.length l)) (pre ++ l) = l.
Proof.
  revert s pre. induction l as [|x l IH]; intros s pre Hs; [reflexivity|].
  simpl. rewrite Hs at 1. rewrite nth_error_app2 by lia. rewrite Nat.sub_diag. simpl.
  f_equal. replace (pre ++ x :: l)%list with ((pre ++ [x]) ++ l)%list
    by (rewrite <- app_assoc; reflexivity).
  apply IH. rewrite length_app. simpl. lia.
Qed.

Lemma take_perm {A} idx (l : list A) :
  Permutation idx (seq 0 (List.length l)) -> Permutation (take idx l) l.
Proof.
  intros H. pose proof (take_seq_all l 0 [] eq_refl) as E. cbn [app] in E.
  rewrite <- E at 2. unfold take. now apply Permutation_flat_map.
Qed.

Lemma col_take_perm idx c :
  Permutation idx (seq 0 (col_length c)) -> col_cells_perm c (col_take idx c).
Proof.
  destruct c as [cells|cells]; simpl; intros H; symmetry; now apply take_perm.
Qed.

Lemma labelled_map l (f : Column -> Column) df :
  labelled l (map (fun lc => (fst lc, f (snd lc))) df) = map f (labelled l df).
Proof.
  unfold labelled. induction df as [|[l' c] df IH]; simpl; [reflexivity|].
  destruct (String.eqb l l'); simpl; now rewrite IH.
Qed.

Lemma get_col_map l (f : Column -> Column) df c :
  get_col l df = Ok c -> get_col l (map (fun lc => (fst lc, f (snd lc))) df) = Ok (f c).
Proof.
  unfold get_col. rewrite labelled_map.
  destruct (labelled l df) as [|c0 [|c1 r]]; try discriminate. now intros [= ->].
Qed.

Lemma sort_values_sorted df df' :
  sort_values_desc "weight" df = Ok df' -> sorted_by_weight df'.
Proof.
  unfold sort_values_desc. intros H. bind_inv H.
  destruct x as [|ws]; [discriminate|]. injection H as <-.
  exists (take (argsort_desc ws) ws). split.
  - apply (get_col_map _ (col_take (argsort_desc ws)) _ _ E).
  - apply argsort_descending.
Qed.

End SortFacts.

(** X12. Sorting a table by weight moves whole rows: the rows of the result
    are the rows of the table at a permutation of the row positions, the
    same for every column, so no row is lost or repeated and, in a table
    whose columns all have the length of the weight column, every column
    of the result holds the cells it held before. *)
Theorem sort_values_reorders_rows (df df' : Frame) (ws : list float) :
  Table.get_col "weight" df = Ok (NumCol ws) ->
  Table.sort_values_desc "weight" df = Ok df' ->
  exists idx,
    Permutation idx (seq 0 (List.length ws)) /\
    df' = map (fun lc => (fst lc, Table.col_take idx (snd lc))) df /\
    (rectangular (List.length ws) df ->
     Forall2 (fun lc lc' => fst lc' = fst lc /\ col_cells_perm (snd lc) (snd lc')) df df').
Proof.
  intros Hw H. unfold Table.sort_values_desc in H. rewrite Hw in H. simpl in H.
  injection H as <-. exists (Table.argsort_desc ws).
  split; [apply argsort_perm|]. split; [reflexivity|].
  intros Hr. unfold rectangular in Hr. clear Hw.
  induction Hr as [|lc df Hlc Hr IH]; simpl; constructor.
  - split; [reflexivity|]. simpl. apply col_take_perm. rewrite Hlc. apply argsort_perm.
  - exact IH.
Qed.

Lemma sort_values_reorders_rows_witness :
  let df := [ ("ticker", StrCol [Some "NFLX"; Some "MSFT"; Some "AAPL"]);
              ("weight", NumCol [0.015%float; 0.5%float; 0.3%float]) ] in
  Table.get_col "weight" df = Ok (NumCol [0.015%float; 0.5%float; 0.3%float]) /\
  Table.sort_values_desc "weight" df
    = Ok [ ("ticker", StrCol [Some "MSFT"; Some "AAPL"; Some "NFLX"]);
           ("weight", NumCol [0.5%float; 0.3%float; 0.015%float]) ] /\
  exists idx,
    Permutation idx (seq 0 3) /\
    [ ("ticker", StrCol [Some "MSFT"; Some "AAPL"; Some "NFLX"]);
      ("weight", NumCol [0.5%float; 0.3%float; 0.015%float]) ]
    = map (fun lc => (fst lc, Table.col_take idx (snd lc))) df.
Proof.
  cbv zeta.
  set (df := [ ("ticker", StrCol [Some "NFLX"; Some "MSFT"; Some "AAPL"]);
               ("weight", NumCol [0.015%float; 0.5%float; 0.3%float]) ]).
  assert (H1 : Table.get_col "weight" df = Ok (NumCol [0.015%float; 0.5%float; 0.3%float]))
    by reflexivity.
  assert (H2 : Table.sort_values_desc "weight" df
               = Ok [ ("ticker", StrCol [Some "MSFT"; Some "AAPL"; Some "NFLX"]);
                      ("weight", NumCol [0.5%float; 0.3%float; 0.015%float]) ])
    by (vm_compute; reflexivity).
  split; [exact H1|]. split; [exact H2|].
  destruct (sort_values_reorders_rows df _ _ H1 H2) as (idx & Hp & E & _).
  exists idx. split; [exact Hp | exact E].
Defined.

(** ** What every holdings table looks like *)

Lemma select_cols_labels ls df df' l :
  Table.select_cols ls df = Ok df' -> Table.has_col l df' = true -> In l ls.
Proof.
  revert df'. induction ls as [|l0 ls IH]; intros df' H Hl.
  - injection H as <-. discriminate Hl.
  - simpl in H. destruct (Table.has_col l0 df); [|discriminate].
    bind_inv H. injection H as <-.
    apply has_col_In in Hl. destruct Hl as [c Hc]. apply in_app_or in Hc.
    destruct Hc as [Hc|Hc].
    + apply filter_In in Hc. destruct Hc as [_ Hc]. simpl in Hc.
      apply String.eqb_eq in Hc. now left.
    + right. apply (IH x E). apply has_col_In. eauto.
Qed.

Lemma select_cols_schema df df' :
  Table.select_cols holdings_labels df = Ok df' -> holdings_schema df'.
Proof.
  intros H l. split.
  - now apply (select_cols_labels _ _ _ _ H).
  - now apply (select_cols_has _ _ _ _ H).
Qed.

Lemma sort_values_schema label df df' :
  Table.sort_values_desc label df = Ok df' -> holdings_schema df -> holdings_schema df'.
Proof. intros H Hs l. rewrite (sort_values_has _ _ _ _ H). apply Hs. Qed.

Lemma invesco_shape py response df :
  _fetch_holdings_invesco py response = Some df -> sorted_by_weight df /\ holdings_schema df.
Proof.
  unfold _fetch_holdings_invesco. intros H. apply try_or_None_Some in H.
  bind_inv H. destruct (_ || _); [discriminate|].
  bind_inv H. bind_inv H. bind_inv H. bind_inv H. bind_inv H. bind_inv H.
  injection H as <-. split.
  - eapply sort_values_sorted; eassumption.
  - eapply sort_values_schema; [eassumption|]. eapply select_cols_schema; eassumption.
Qed.

Lemma slickcharts_shape py response df :
  _fetch_holdings_slickcharts py response = Some df ->
  sorted_by_weight df /\ holdings_schema df.
Proof.
  unfold _fetch_holdings_slickcharts. intros H. apply try_or_None_Some in H.
  bind_inv H. destruct x as [|first rest]; [discriminate|].
  destruct (_ || _); [discriminate|].
  bind_inv H. bind_inv H. bind_inv H. bind_inv H. bind_inv H.
  destruct x3 as [|ws]; [discriminate|].
  bind_inv H. injection H as <-. split.
  - eapply sort_values_sorted; eassumption.
  - eapply sort_values_schema; [eassumption|].
    intros l. rewrite filter_rows_has_col. revert l.
    eapply select_cols_schema; eassumption.
Qed.

Lemma yfinance_shape py response df :
  _fetch_holdings_yfinance py response = Some df -> sorted_by_weight df /\ holdings_schema df.
Proof.
  unfold _fetch_holdings_yfinance. intros H. apply try_or_None_Some in H.
  bind_inv H. destruct x as [top|]; [|discriminate].
  destruct (_ || _); [discriminate|].
  bind_inv H. bind_inv H. bind_inv H. bind_inv H. bind_inv H.
  injection H as <-. split.
  - eapply sort_values_sorted; eassumption.
  - eapply sort_values_schema; [eassumption|]. eapply select_cols_schema; eassumption.
Qed.

Lemma static_shape : sorted_by_weight _get_static_holdings /\ holdings_schema _get_static_holdings.
Proof.
  unfold _get_static_holdings.
  destruct (Table.sort_values_desc "weight" static_frame) as [df|] eqn:E;
    [|vm_compute in E; discriminate E].
  split.
  - eapply sort_values_sorted; exact E.
  - eapply sort_values_schema; [exact E|]. intros l. split.
    + intros H. apply has_col_In in H. destruct H as [c Hc].
      destruct Hc as [[= <- _]|[[= <- _]|[[= <- _]|[[= <- _]|[]]]]]; simpl; auto.
    + intros [<-|[<-|[<-|[<-|[]]]]]; reflexivity.
Qed.

Lemma holdings_chain_cases (P : Frame -> Prop) py src :
  (forall response df, _fetch_holdings_invesco py response = Some df -> P df) ->
  (forall response df, _fetch_holdings_slickcharts py response = Some df -> P df) ->
  (forall response df, _fetch_holdings_yfinance py response = Some df -> P df) ->
  P _get_static_holdings ->
  P (holdings_chain py src).
Proof.
  intros H1 H2 H3 H4. rewrite holdings_chain_first_usable. simpl.
  destruct (_fetch_holdings_invesco py (invesco_csv src)) as [d1|] eqn:E1;
    [destruct (Table.empty d1); [|eapply H1; eassumption]|];
    (destruct (_fetch_holdings_slickcharts py (slickcharts_html src)) as [d2|] eqn:E2;
       [destruct (Table.empty d2); [|eapply H2; eassumption]|]);
    (destruct (_fetch_holdings_yfinance py (yfinance_top src)) as [d3|] eqn:E3;
       [destruct (Table.empty d3); [|eapply H3; eassumption]|]);
    exact H4.
Qed.

Lemma holdings_chain_shape py src :
  sorted_by_weight (holdings_chain py src) /\ holdings_schema (holdings_chain py src).
Proof.
  apply (holdings_chain_cases (fun df => sorted_by_weight df /\ holdings_schema df)).
  - apply invesco_shape.
  - apply slickcharts_shape.
  - apply yfinance_shape.
  - apply static_shape.
Qed.

Lemma get_qqq_holdings_answer py now src c :
  fst (get_qqq_holdings py now src c) = holdings_chain py src \/
  Cache.holdings c = Some (fst (get_qqq_holdings py now src c)).
Proof.
  unfold get_qqq_holdings. destruct (Cache.holdings c) as [cached|]; [|now left].
  destruct (within_ttl now (Cache.holdings_ts c) HOLDINGS_CACHE_TTL); [now right | now left].
Qed.

Lemma market_caps_keeps_holdings fi now tickers c :
  Cache.holdings (snd (get_market_caps fi now tickers c)) = Cache.holdings c.
Proof.
  unfold get_market_caps.
  destruct (Cache.market_caps c); [destruct (within_ttl _ _ _)|]; reflexivity.
Qed.

Lemma compute_keeps_holdings py w c :
  Cache.holdings (snd (compute_qqq_data py w c))
  = Cache.holdings (snd (get_qqq_holdings py (time_holdings w) (sources w) c)).
Proof.
  unfold compute_qqq_data.
  destruct (get_qqq_holdings py (time_holdings w) (sources w) c) as [holdings_df c1].
  destruct (bind _ _) as [tickers|]; [|reflexivity].
  pose proof (market_caps_keeps_holdings (fast_info w) (time_caps w) tickers c1) as H.
  destruct (get_market_caps (fast_info w) (time_caps w) tickers c1) as [caps c2].
  destruct (holding_rows py holdings_df tickers); exact H.
Qed.

(** A property of every table the fallback chain can produce holds of every
    table the cache can hold. *)
Lemma reachable_holdings (P : Frame -> Prop) py :
  (forall src, P (holdings_chain py src)) ->
  forall c, Reachable py c -> forall h, Cache.holdings c = Some h -> P h.
Proof.
  intros HP.
  assert (Hstep : forall now src c,
             (forall h, Cache.holdings c = Some h -> P h) ->
             forall h, Cache.holdings (snd (get_qqq_holdings py now src c)) = Some h -> P h).
  { intros now src c IH h. rewrite get_qqq_holdings_stores. intros [= <-].
    destruct (get_qqq_holdings_answer py now src c) as [->|E]; [apply HP | now apply IH]. }
  induction 1 as [|w c _ IH|now src c _ IH|fi now tickers c _ IH|c _ IH]; intros h.
  - discriminate.
  - unfold get_qqq_data. destruct (Cache.data c); [destruct (within_ttl _ _ _)|];
      try apply IH; rewrite compute_keeps_holdings; now apply Hstep.
  - now apply Hstep.
  - rewrite market_caps_keeps_holdings. apply IH.
  - apply IH.
Qed.

Lemma reachable_answer (P : Frame -> Prop) py now src c :
  (forall src, P (holdings_chain py src)) ->
  Reachable py c -> P (fst (get_qqq_holdings py now src c)).
Proof.
  intros HP Hr.
  destruct (get_qqq_holdings_answer py now src c) as [->|E]; [apply HP|].
  eapply reachable_holdings; eassumption.
Qed.

(** X13. The table [get_qqq_holdings] returns, fetched or cached, always
    has one numeric weight column and its rows are sorted by weight in
    descending order, with the rows of a missing weight last. *)
Theorem holdings_sorted_by_weight py now src c :
  Reachable py c -> sorted_by_weight (fst (get_qqq_holdings py now src c)).
Proof.
  apply (reachable_answer sorted_by_weight). intros s. apply holdings_chain_shape.
Qed.

Lemma holdings_sorted_by_weight_witness :
  Reachable Demo.py Cache.initial /\
  fst (get_qqq_holdings Demo.py 1700000000 (sources Demo.world) Cache.initial)
    = Demo.invesco_holdings /\
  sorted_by_weight (fst (get_qqq_holdings Demo.py 1700000000 (sources Demo.world) Cache.initial)).
Proof.
  assert (H : Reachable Demo.py Cache.initial) by constructor.
  split; [exact H|]. split; [vm_compute; reflexivity|].
  exact (holdings_sorted_by_weight Demo.py 1700000000 (sources Demo.world) Cache.initial H).
Defined.

(** X14. The table [get_qqq_holdings] returns, fetched or cached, has the
    columns ticker, name, weight and sector and no other. *)
Theorem holdings_have_the_four_columns py now src c :
  Reachable py c ->
  forall l, Table.has_col l (fst (get_qqq_holdings py now src c)) = true
            <-> In l ["ticker"; "name"; "weight"; "sector"].
Proof.
  apply (reachable_answer holdings_schema). intros s. apply holdings_chain_shape.
Qed.

Lemma holdings_have_the_four_columns_witness :
  Reachable Demo.py Cache.initial /\
  Table.labels (fst (get_qqq_holdings Demo.py 1700000000 (mkSources Raise Raise
                                        (Ok (Some Demo.heavy_top))) Cache.initial))
    = ["ticker"; "name"; "weight"; "sector"] /\
  (Table.has_col "sector"
     (fst (get_qqq_holdings Demo.py 1700000000 (mkSources Raise Raise
                               (Ok (Some Demo.heavy_top))) Cache.initial)) = true
   <-> In "sector" ["ticker"; "name"; "weight"; "sector"]).
Proof.
  assert (H : Reachable Demo.py Cache.initial) by constructor.
  split; [exact H|]. split; [vm_compute; reflexivity|].
  exact (holdings_have_the_four_columns Demo.py 1700000000
           (mkSources Raise Raise (Ok (Some Demo.heavy_top))) Cache.initial H "sector").
Defined.

(** ** The result for every holding *)

Lemma ticker_texts_Some tickers : ticker_texts (StrCol (map Some tickers)) = Ok tickers.
Proof.
  simpl. induction tickers as [|t ts IH]; simpl; [reflexivity | now rewrite IH].
Qed.

Lemma combine_rows_tickers (tickers : list string) (ws : list float) s :
  List.length ws = List.length tickers ->
  map (fun itw : nat * string * float => snd (fst itw))
      (combine (combine (seq s (List.length tickers)) tickers) ws) = tickers.
Proof.
  revert ws s. induction tickers as [|t ts IH]; intros ws s H; [reflexivity|].
  destruct ws as [|w ws]; [discriminate|]. simpl. f_equal. apply IH. simpl in H. lia.
Qed.

Lemma holding_rows_Ok py df tickers ws :
  Table.get_col "weight" df = Ok (NumCol ws) ->
  List.length ws = List.length tickers ->
  exists rws,
    holding_rows py df tickers = Ok rws /\
    map (fun r : string * string * float => fst (fst r)) rws = tickers.
Proof.
  intros Hw Hl. unfold holding_rows. destruct tickers as [|t ts] eqn:Et.
  - exists []. auto.
  - rewrite <- Et in *. rewrite Hw. simpl. eexists. split; [reflexivity|].
    rewrite map_map. simpl. now apply combine_rows_tickers.
Qed.

(** X15. When the holdings table has a text ticker for every row and a
    numeric weight column of the same length, the computation of
    [get_qqq_data] succeeds whatever the price and market-cap vendors
    answer: the result lists every holding exactly once, with or without a
    quote, carries the market status of the call and is what the cache
    keeps. *)
Theorem data_computed_for_every_holding py (w : World) c tickers ws :
  let df := fst (get_qqq_holdings py (time_holdings w) (sources w) c) in
  Table.get_col "ticker" df = Ok (StrCol (map Some tickers)) ->
  Table.get_col "weight" df = Ok (NumCol ws) ->
  List.length ws = List.length tickers ->
  exists r,
    fst (compute_qqq_data py w c) = Ok r /\
    Permutation (map Entry.ticker (Aggregate.holdings r)) tickers /\
    Aggregate.market_status r = get_market_status (local_time w) /\
    Cache.data (snd (compute_qqq_data py w c)) = Some r.
Proof.
  intros df Ht Hw Hl. subst df. unfold compute_qqq_data.
  destruct (get_qqq_holdings py (time_holdings w) (sources w) c) as [holdings_df c1].
  cbn [fst] in Ht, Hw. rewrite Ht. cbn [bind]. rewrite ticker_texts_Some.
  destruct (get_market_caps (fast_info w) (time_caps w) tickers c1) as [caps c2].
  destruct (holding_rows_Ok py holdings_df tickers ws Hw Hl) as (rws & -> & Hr).
  cbv zeta. eexists. split; [reflexivity|].
  cbn [fst snd Cache.data Aggregate.holdings Aggregate.market_status].
  split; [|split; reflexivity].
  rewrite <- sort_by_abs_perm, map_map. cbn [holding_entry Entry.ticker]. now rewrite Hr.
Qed.

Lemma data_computed_for_every_holding_witness :
  let quiet :=
    mkWorld 1700000000 1700000000 1700000000 (mkLocalTime 5 10 0 "10:00:00 AM ET")
            "2023-11-18T15:00:00" (sources Demo.world) (fun _ _ _ => None) (fun _ => Raise) in
  let df := fst (get_qqq_holdings Demo.py (time_holdings quiet) (sources quiet) Cache.initial) in
  Table.get_col "ticker" df = Ok (StrCol (map Some ["MSFT"; "AAPL"; "NFLX"])) /\
  Table.get_col "weight" df = Ok (NumCol [0.5%float; 0.3%float; 0.015%float]) /\
  exists r,
    fst (compute_qqq_data Demo.py quiet Cache.initial) = Ok r /\
    Permutation (map Entry.ticker (Aggregate.holdings r)) ["MSFT"; "AAPL"; "NFLX"] /\
    Forall (fun e => Entry.valid e = false) (Aggregate.holdings r).
Proof.
  cbv zeta.
  set (quiet := mkWorld 1700000000 1700000000 1700000000 (mkLocalTime 5 10 0 "10:00:00 AM ET")
            "2023-11-18T15:00:00" (sources Demo.world) (fun _ _ _ => None) (fun _ => Raise)).
  assert (H1 : Table.get_col "ticker"
                 (fst (get_qqq_holdings Demo.py (time_holdings quiet) (sources quiet)
                         Cache.initial))
               = Ok (StrCol (map Some ["MSFT"; "AAPL"; "NFLX"]))) by (vm_compute; reflexivity).
  assert (H2 : Table.get_col "weight"
                 (fst (get_qqq_holdings Demo.py (time_holdings quiet) (sources quiet)
                         Cache.initial))
               = Ok (NumCol [0.5%float; 0.3%float; 0.015%float])) by (vm_compute; reflexivity).
  split; [exact H1|]. split; [exact H2|].
  destruct (data_computed_for_every_holding Demo.py quiet Cache.initial _ _ H1 H2 eq_refl)
    as (r & E & Hp & _).
  exists r. split; [exact E|]. split; [exact Hp|].
  vm_compute in E. injection E as <-. repeat constructor.
Defined.

(** ** A ticker the tables do not name *)

Lemma unique_In x l : In x (unique l) -> In x l.
Proof.
  revert x. induction l as [|y l IH]; intros x; simpl; [auto|].
  intros [H|H]; [now left|]. right. apply IH. apply filter_In in H. apply H.
Qed.

Lemma existsb_unique_false (f : string -> bool) l :
  (forall x, In x l -> f x = false) -> existsb f (unique l) = false.
Proof.
  intros H. destruct (existsb f (unique l)) eqn:E; [|reflexivity].
  apply existsb_exists in E. destruct E as (x & Hx & Hf).
  apply unique_In in Hx. rewrite (H x Hx) in Hf. discriminate.
Qed.

Lemma get_series_unnamed ticker n d field :
  1 < n -> names_ticker ticker d = false -> get_series ticker n (Some d) field = None.
Proof.
  intros Hn Hd. unfold get_series, names_ticker in *.
  destruct (price_frame_empty d); [reflexivity|].
  destruct (columns d) as [labels|keys]; [discriminate|].
  apply Nat.ltb_lt in Hn. rewrite Hn.
  assert (H : forall k, In k keys ->
                String.eqb (PyStr.upper (fst k)) (PyStr.upper ticker) = false /\
                String.eqb (PyStr.upper (snd k)) (PyStr.upper ticker) = false).
  { intros k Hk. apply orb_false_iff.
    destruct (_ || _) eqn:E; [|reflexivity].
    rewrite <- Hd. symmetry. apply existsb_exists. exists k. auto. }
  rewrite !existsb_unique_false; [reflexivity| |].
  - intros x Hx. apply in_map_iff in Hx. destruct Hx as (k & <- & Hk). apply H, Hk.
  - intros x Hx. apply in_map_iff in Hx. destruct Hx as (k & <- & Hk). apply H, Hk.
Qed.

(** X16. In a batch of more than one ticker, a ticker that neither level of
    the column keys of the intraday and the daily table names (letter case
    apart) gets the empty quote: the extraction returns it and raises
    nothing. *)
Theorem unnamed_ticker_gets_empty_quote ticker intraday daily n :
  1 < n ->
  (forall d, intraday = Some d -> names_ticker ticker d = false) ->
  (forall d, daily = Some d -> names_ticker ticker d = false) ->
  _extract_price ticker intraday daily n = Ok _empty_price.
Proof.
  intros Hn Hi Hd.
  assert (Ei : get_series ticker n intraday "Close" = None).
  { destruct intraday as [d|]; [|reflexivity]. apply get_series_unnamed; auto. }
  assert (Ed : get_series ticker n daily "Close" = None).
  { destruct daily as [d|]; [|reflexivity]. apply get_series_unnamed; auto. }
  unfold _extract_price, resolve_prices. rewrite Ei, Ed. reflexivity.
Qed.

Lemma unnamed_ticker_gets_empty_quote_witness :
  1 < 4 /\
  names_ticker "NFLX" Demo.intraday = false /\
  names_ticker "NFLX" Demo.daily = false /\
  names_ticker "aapl" Demo.daily = true /\
  _extract_price "NFLX" (Some Demo.intraday) (Some Demo.daily) 4 = Ok _empty_price.
Proof.
  assert (H0 : 1 < 4) by lia.
  assert (H1 : forall d, Some Demo.intraday = Some d -> names_ticker "NFLX" d = false)
    by (intros d [= <-]; reflexivity).
  assert (H2 : forall d, Some Demo.daily = Some d -> names_ticker "NFLX" d = false)
    by (intros d [= <-]; reflexivity).
  split; [exact H0|]. split; [reflexivity|]. split; [reflexivity|]. split; [reflexivity|].
  exact (unnamed_ticker_gets_empty_quote "NFLX" (Some Demo.intraday) (Some Demo.daily) 4
           H0 H1 H2).
Defined.

(** ** A computation that fails *)

Lemma holdings_keeps_data py now src c :
  Cache.data (snd (get_qqq_holdings py now src c)) = Cache.data c /\
  Cache.timestamp (snd (get_qqq_holdings py now src c)) = Cache.timestamp c.
Proof.
  unfold get_qqq_holdings.
  destruct (Cache.holdings c); [destruct (within_ttl _ _ _)|]; split; reflexivity.
Qed.

Lemma market_caps_keeps_data fi now tickers c :
  Cache.data (snd (get_market_caps fi now tickers c)) = Cache.data c /\
  Cache.timestamp (snd (get_market_caps fi now tickers c)) = Cache.timestamp c.
Proof.
  unfold get_market_caps.
  destruct (Cache.market_caps c); [destruct (within_ttl _ _ _)|]; split; reflexivity.
Qed.

Lemma compute_failure_keeps_data py w c :
  fst (compute_qqq_data py w c) = Raise ->
  Cache.data (snd (compute_qqq_data py w c)) = Cache.data c /\
  Cache.timestamp (snd (compute_qqq_data py w c)) = Cache.timestamp c.
Proof.
  unfold compute_qqq_data.
  pose proof (holdings_keeps_data py (time_holdings w) (sources w) c) as H1.
  destruct (get_qqq_holdings py (time_holdings w) (sources w) c) as [holdings_df c1].
  cbn [snd] in H1.
  destruct (bind _ _) as [tickers|]; [|intros _; exact H1].
  pose proof (market_caps_keeps_data (fast_info w) (time_caps w) tickers c1) as H2.
  destruct (get_market_caps (fast_info w) (time_caps w) tickers c1) as [caps c2].
  cbn [snd] in H2.
  destruct (holding_rows py holdings_df tickers); [discriminate|].
  intros _. cbn [snd]. destruct H2 as [-> ->]. exact H1.
Qed.

(** X17. When [get_qqq_data] raises, the price cache is left as it was:
    the result cached before (if any) and its stamp are unchanged, so the
    failure is not cached and the next call computes again; the holdings
    table fetched on the way stays cached. *)
Theorem failed_computation_is_not_cached py (w : World) c :
  fst (get_qqq_data py w c) = Raise ->
  let c' := snd (get_qqq_data py w c) in
  Cache.data c' = Cache.data c /\
  Cache.timestamp c' = Cache.timestamp c /\
  Cache.holdings c' = Some (fst (get_qqq_holdings py (time_holdings w) (sources w) c)) /\
  get_qqq_data py w c = compute_qqq_data py w c.
Proof.
  intros H c'. subst c'.
  assert (E : get_qqq_data py w c = compute_qqq_data py w c).
  { unfold get_qqq_data in *. destruct (Cache.data c); [|reflexivity].
    destruct (within_ttl _ _ _); [discriminate H | reflexivity]. }
  rewrite E in *. destruct (compute_failure_keeps_data py w c H) as [H1 H2].
  repeat split; try assumption.
  rewrite compute_keeps_holdings. apply get_qqq_holdings_stores.
Qed.

Lemma failed_computation_is_not_cached_witness :
  let w :=
    mkWorld 1700090000 1700090000 1700090000 (mkLocalTime 2 11 0 "11:00:00 AM ET")
            "2023-11-15T16:00:00" (mkSources Raise Raise (Ok (Some numbered_top)))
            Demo.download (fun _ => Raise) in
  fst (get_qqq_data Demo.py w Demo.cache_after) = Raise /\
  Cache.data (snd (get_qqq_data Demo.py w Demo.cache_after)) = Some Demo.result /\
  Cache.timestamp (snd (get_qqq_data Demo.py w Demo.cache_after))
    = Cache.timestamp Demo.cache_after.
Proof.
  cbv zeta.
  set (w := mkWorld 1700090000 1700090000 1700090000 (mkLocalTime 2 11 0 "11:00:00 AM ET")
            "2023-11-15T16:00:00" (mkSources Raise Raise (Ok (Some numbered_top)))
            Demo.download (fun _ => Raise)).
  assert (H : fst (get_qqq_data Demo.py w Demo.cache_after) = Raise) by (vm_compute; reflexivity).
  destruct (failed_computation_is_not_cached Demo.py w Demo.cache_after H) as (H1 & H2 & _).
  split; [exact H|]. split; [|exact H2].
  rewrite H1. vm_compute. reflexivity.
Defined.

(** ** Valid entries and the fund summary *)

Lemma batch_quote_shape (dl : Download) tickers t q :
  PyDict.get t (get_prices_batch dl tickers) = Some q ->
  q = _empty_price \/ exists c p, q = quote_of c p.
Proof.
  intros H. unfold get_prices_batch in H. destruct tickers as [|t0 tickers']; [discriminate|].
  apply batch_fold_get in H. destruct H as [H|(k & _ & _ & ->)]; [discriminate|].
  match goal with |- context [_extract_price ?a ?b ?c ?d] =>
    pose proof (extract_price_cases a b c d) as E;
    destruct (resolve_prices a b c d) as [[[?|] [?|]]|]; rewrite E
  end; eauto.
Qed.

Lemma computed_result_complete py w c r :
  fst (compute_qqq_data py w c) = Ok r -> result_complete r.
Proof.
  unfold compute_qqq_data.
  destruct (get_qqq_holdings py (time_holdings w) (sources w) c) as [holdings_df c1].
  destruct (bind _ _) as [tickers|]; [|discriminate].
  destruct (get_market_caps (fast_info w) (time_caps w) tickers c1) as [caps c2].
  destruct (holding_rows py holdings_df tickers) as [rws|]; [|discriminate].
  cbn [fst]. intros [= <-].
  pose proof (batch_quote_shape (yf_download w) ("QQQ" :: tickers)) as Hq.
  split; cbn [Aggregate.holdings Aggregate.qqq].
  - eapply Permutation_Forall; [apply sort_by_abs_perm|].
    apply Forall_map, Forall_forall. intros x _. unfold entry_complete, holding_entry.
    cbn [Entry.valid Entry.price Entry.change_dollar].
    destruct (PyDict.get (fst (fst x)) _) as [q|] eqn:E; [|discriminate].
    destruct (Hq _ _ E) as [->|(cp & p & ->)]; cbn; [discriminate|].
    intros _. split; discriminate.
  - unfold fund_all_or_nothing. cbn [Fund.price Fund.change_dollar Fund.change_pct].
    destruct (PyDict.get "QQQ" _) as [q|] eqn:E.
    + destruct (Hq _ _ E) as [->|(cp & p & ->)]; cbn;
        repeat split; intros; try reflexivity; discriminate.
    + cbn. repeat split; intros; reflexivity.
Qed.

(** A property of every computed result holds of every cached result. *)
Lemma reachable_data (P : Aggregate.t -> Prop) py :
  (forall w c r, fst (compute_qqq_data py w c) = Ok r -> P r) ->
  forall c, Reachable py c -> forall d, Cache.data c = Some d -> P d.
Proof.
  intros HP.
  assert (Hstep : forall w c,
             (forall d, Cache.data c = Some d -> P d) ->
             forall d, Cache.data (snd (compute_qqq_data py w c)) = Some d -> P d).
  { intros w c IH d Hd.
    pose proof (compute_failure_keeps_data py w c) as F.
    destruct (compute_qqq_data py w c) as [[r|] c'] eqn:E; cbn [fst snd] in *.
    - apply compute_qqq_data_stores in E as E'. destruct E' as [E' _].
      rewrite E' in Hd. injection Hd as <-.
      apply (HP w c). now rewrite E.
    - destruct (F eq_refl) as [Fd _]. rewrite Fd in Hd. now apply IH. }
  induction 1 as [|w c _ IH|now src c _ IH|fi now tickers c _ IH|c _ IH]; intros d.
  - discriminate.
  - unfold get_qqq_data. destruct (Cache.data c) as [cached|] eqn:Ec;
      [destruct (within_ttl _ _ _)|].
    + cbn [snd]. rewrite Ec. intros [= <-]. now apply IH.
    + apply Hstep. intros d' Hd'. apply IH. rewrite <- Ec. exact Hd'.
    + apply Hstep. intros d' Hd'. apply IH. rewrite <- Ec. exact Hd'.
  - rewrite (proj1 (holdings_keeps_data py now src c)). apply IH.
  - rewrite (proj1 (market_caps_keeps_data fi now tickers c)). apply IH.
  - apply IH.
Qed.

Lemma reachable_result (P : Aggregate.t -> Prop) py w c r c' :
  (forall w c r, fst (compute_qqq_data py w c) = Ok r -> P r) ->
  Reachable py c -> get_qqq_data py w c = (Ok r, c') -> P r.
Proof.
  intros HP Hr H.
  apply (reachable_data P py HP c'); [|eapply get_qqq_data_stores; exact H].
  replace c' with (snd (get_qqq_data py w c)) by now rewrite H.
  now constructor.
Qed.

(** X18. In every result of [get_qqq_data], fresh or cached, an entry
    marked valid carries a price and a change in dollars, and the summary
    of the fund itself has its price, its change in dollars and its change
    in percent all present or all absent. *)
Theorem valid_entries_carry_a_price py (w : World) c r c' :
  Reachable py c ->
  get_qqq_data py w c = (Ok r, c') ->
  (forall e, In e (Aggregate.holdings r) -> Entry.valid e = true ->
             Entry.price e <> None /\ Entry.change_dollar e <> None) /\
  (Fund.price (Aggregate.qqq r) = None <-> Fund.change_dollar (Aggregate.qqq r) = None) /\
  (Fund.price (Aggregate.qqq r) = None <-> Fund.change_pct (Aggregate.qqq r) = None).
Proof.
  intros Hr H.
  destruct (reachable_result result_complete py w c r c' (computed_result_complete py) Hr H)
    as [He Hf].
  split; [|exact Hf]. intros e Hin. rewrite Forall_forall in He. now apply He.
Qed.

Lemma valid_entries_carry_a_price_witness :
  Reachable Demo.py Cache.initial /\
  get_qqq_data Demo.py Demo.world Cache.initial = (Ok Demo.result, Demo.cache_after) /\
  map (fun e => (Entry.ticker e, Entry.valid e, Entry.price e))
      (Aggregate.holdings Demo.result)
    = [("MSFT", true, Some 90%float); ("AAPL", true, Some 110%float); ("NFLX", false, None)] /\
  (forall e, In e (Aggregate.holdings Demo.result) -> Entry.valid e = true ->
             Entry.price e <> None /\ Entry.change_dollar e <> None).
Proof.
  assert (H1 : Reachable Demo.py Cache.initial) by constructor.
  assert (H2 : get_qqq_data Demo.py Demo.world Cache.initial = (Ok Demo.result, Demo.cache_after))
    by exact demo_outcome.
  split; [exact H1|]. split; [exact H2|]. split; [vm_compute; reflexivity|].
  exact (proj1 (valid_entries_carry_a_price Demo.py Demo.world Cache.initial _ _ H1 H2)).
Defined.

(** ** The cleaning step keeps the tickers that match *)

Section CleanFacts.

Import Table.

Lemma labelled_set_same l c df :
  labelled l (map (fun lc : string * Column => if String.eqb l (fst lc) then (fst lc, c) else lc) df)
  = map (fun _ => c) (labelled l df).
Proof.
  unfold labelled. induction df as [|[l' c'] df IH]; simpl; [reflexivity|].
  destruct (String.eqb l l') eqn:E; simpl; rewrite E; simpl; now rewrite IH.
Qed.

Lemma get_col_set_same_Ok l c c0 df :
  get_col l df = Ok c0 -> get_col l (set_col l c df) = Ok c.
Proof.
  intros H. unfold set_col. rewrite (get_col_has _ _ _ H).
  unfold get_col in *. rewrite labelled_set_same.
  destruct (labelled l df) as [|c1 [|c2 r]]; try discriminate. reflexivity.
Qed.

Lemma get_col_filter_rows l m df c :
  get_col l df = Ok c -> get_col l (filter_rows m df) = Ok (col_filter m c).
Proof. apply get_col_map. Qed.

Lemma labels_filter_rows m df : labels (filter_rows m df) = labels df.
Proof. unfold labels, filter_rows. rewrite map_map. reflexivity. Qed.

Lemma cleaned_cells cells :
  filter (fun o => match o with Some s => TickerRe.re_match s | None => false end)
    (map (option_map PyStr.upper)
       (map (option_map PyStr.strip)
          (filter (fun o : option string => match o with Some _ => true | None => false end)
                  cells)))
  = map Some (cleaned_tickers cells).
Proof.
  unfold cleaned_tickers, present_texts.
  induction cells as [|[s|] cells IH]; simpl; [reflexivity| |exact IH].
  destruct (TickerRe.re_match (PyStr.upper (PyStr.strip s))); simpl; now rewrite IH.
Qed.

Lemma cleaned_all_present cells :
  forallb (fun o : option string => match o with Some _ => true | None => false end)
    (map (option_map PyStr.upper)
       (map (option_map PyStr.strip)
          (filter (fun o : option string => match o with Some _ => true | None => false end)
                  cells))) = true.
Proof. induction cells as [|[s|] cells IH]; simpl; auto. Qed.

End CleanFacts.

(** X19. On a table with one text ticker column the cleaning step of the
    Invesco and Slickcharts tiers does not fail, and the ticker column it
    leaves holds, in their order, exactly the tickers of the rows that have
    one and whose ticker, stripped and put in capitals, matches the
    pattern: rows without a ticker or with another text are dropped, and
    no column is added or removed. *)
Theorem clean_tickers_keeps_matching_rows (df : Frame) (cells : list (option string)) :
  Table.get_col "ticker" df = Ok (StrCol cells) ->
  exists df',
    clean_tickers df = Ok df' /\
    Table.get_col "ticker" df' = Ok (StrCol (map Some (cleaned_tickers cells))) /\
    Table.labels df' = Table.labels df.
Proof.
  intros H. unfold clean_tickers. rewrite H. cbn [bind].
  pose proof (get_col_filter_rows "ticker" (Table.notna (StrCol cells)) df _ H) as H1.
  rewrite H1. cbn [bind Table.col_filter Table.notna]. rewrite pick_map_filter.
  cbn [Table.str_map bind].
  match goal with |- context [Table.set_col "ticker" ?c ?d] =>
    pose proof (get_col_set_same_Ok "ticker" c _ d H1) as H2;
    assert (Hh : Table.has_col "ticker" d = true) by exact (get_col_has _ _ _ H1);
    assert (Hl : Table.labels d = Table.labels df) by apply labels_filter_rows;
    set (df1 := d) in *; set (df2 := Table.set_col "ticker" c df1) in *
  end.
  rewrite H2. cbn [bind]. unfold str_match. rewrite cleaned_all_present. cbn [bind].
  eexists. split; [reflexivity|]. split.
  - rewrite (get_col_filter_rows _ _ _ _ H2). cbn [Table.col_filter].
    rewrite pick_map_filter, cleaned_cells. reflexivity.
  - rewrite labels_filter_rows, <- Hl. unfold df2, Table.set_col. rewrite Hh.
    unfold Table.labels. rewrite map_map.
    apply map_ext. intros [l c]. cbn [fst]. destruct (String.eqb "ticker" l); reflexivity.
Qed.

Lemma clean_tickers_keeps_matching_rows_witness :
  let df := [ ("ticker", StrCol [Some "AAPL "; Some "msft"; None; Some "Cash & Other"; Some "BRK.B"]);
              ("weight_str", StrCol [Some "30%"; Some "50%"; Some "1%"; Some "2%"; Some "3%"]) ] in
  Table.get_col "ticker" df
    = Ok (StrCol [Some "AAPL "; Some "msft"; None; Some "Cash & Other"; Some "BRK.B"]) /\
  cleaned_tickers [Some "AAPL "; Some "msft"; None; Some "Cash & Other"; Some "BRK.B"]
    = ["AAPL"; "MSFT"] /\
  exists df',
    clean_tickers df = Ok df' /\
    Table.get_col "ticker" df' = Ok (StrCol [Some "AAPL"; Some "MSFT"]).
Proof.
  cbv zeta.
  set (df := [ ("ticker", StrCol [Some "AAPL "; Some "msft"; None; Some "Cash & Other"; Some "BRK.B"]);
               ("weight_str", StrCol [Some "30%"; Some "50%"; Some "1%"; Some "2%"; Some "3%"]) ]).
  assert (H : Table.get_col "ticker" df
              = Ok (StrCol [Some "AAPL "; Some "msft"; None; Some "Cash & Other"; Some "BRK.B"]))
    by reflexivity.
  split; [exact H|]. split; [vm_compute; reflexivity|].
  destruct (clean_tickers_keeps_matching_rows df _ H) as (df' & E1 & E2 & _).
  exists df'. split; [exact E1 | exact E2].
Defined.

(** ** Which spelling keys the batch *)

Lemma norm_map_fold_get tickers acc k v :
  PyDict.get k (fold_left (fun d t => PyDict.set (_normalize_ticker t) t d) tickers acc) = Some v
  <->
  (exists before after,
      tickers = (before ++ v :: after)%list /\ _normalize_ticker v = k /\
      forall u, In u after -> _normalize_ticker u <> k) \/
  (PyDict.get k acc = Some v /\ forall u, In u tickers -> _normalize_ticker u <> k).
Proof.
  revert acc. induction tickers as [|t tickers IH]; intros acc.
  - simpl. split.
    + intros H. right. split; [exact H | intros u []].
    + intros [(before & after & E & _)|[H _]]; [|exact H].
      destruct before; discriminate E.
  - cbn [fold_left]. rewrite IH, get_set. split.
    + intros [(before & after & -> & Hk & Ha)|[Hg Hn]].
      * left. exists (t :: before), after. auto.
      * destruct (String.eqb_spec k (_normalize_ticker t)) as [->|Ne].
        -- injection Hg as <-. left. exists [], tickers. auto.
        -- right. split; [exact Hg|]. intros u [<-|Hu]; [congruence | now apply Hn].
    + intros [(before & after & E & Hk & Ha)|[Hg Hn]].
      * destruct before as [|b before]; simpl in E; injection E as <- ->.
        -- right. rewrite Hk, String.eqb_refl. auto.
        -- left. exists before, after. auto.
      * right. destruct (String.eqb_spec k (_normalize_ticker t)) as [->|Ne].
        -- exfalso. apply (Hn t); [now left | reflexivity].
        -- split; [exact Hg|]. intros u Hu. apply Hn. now right.
Qed.

(** X20. For any list of tickers, the keys of the map returned by
    [get_prices_batch] are the tickers that are the last of the list with
    their normal form: of several spellings of one normal form the last
    one keys the quote and the earlier ones have no entry. *)
Theorem batch_keys_are_last_spellings (dl : Download) (tickers : list string) (t : string) :
  In t (PyDict.keys (get_prices_batch dl tickers)) <-> last_spelling t tickers.
Proof.
  assert (Hm : PyDict.get (_normalize_ticker t) (norm_map_of tickers) = Some t
               <-> last_spelling t tickers).
  { unfold norm_map_of, last_spelling. rewrite norm_map_fold_get. split.
    - intros [(before & after & E & _ & Ha)|[H _]]; [eauto | discriminate H].
    - intros (before & after & E & Ha). left. exists before, after. auto. }
  rewrite <- Hm. unfold get_prices_batch. destruct tickers as [|t0 tickers'].
  - simpl. split; [intros [] | discriminate].
  - set (tickers := t0 :: tickers') in *. rewrite batch_fold_keys. split.
    + intros [[]|(k & _ & Hk)].
      pose proof (norm_map_entries _ _ _ Hk) as [-> _]. exact Hk.
    + intros H. right. exists (_normalize_ticker t). split; [|exact H].
      apply keys_get. eauto.
Qed.

(** ** The total of the contributions *)

Lemma computed_total py w c r :
  fst (compute_qqq_data py w c) = Ok r ->
  exists l, Permutation l (Aggregate.holdings r) /\
            Fund.total_contribution (Aggregate.qqq r) = total_of l.
Proof.
  unfold compute_qqq_data.
  destruct (get_qqq_holdings py (time_holdings w) (sources w) c) as [holdings_df c1].
  destruct (bind _ _) as [tickers|]; [|discriminate].
  destruct (get_market_caps (fast_info w) (time_caps w) tickers c1) as [caps c2].
  destruct (holding_rows py holdings_df tickers) as [rws|]; [|discriminate].
  cbn [fst]. intros [= <-]. eexists. split; [apply sort_by_abs_perm | reflexivity].
Qed.

(** X21. In every result of [get_qqq_data], fresh or cached, the total
    contribution of the summary is the sum of the contributions of all the
    entries of the holdings list, valid or not, added in binary64 in the
    order of the holdings table (an order of the same entries) and rounded
    to 4 decimals. *)
Theorem total_is_the_rounded_sum py (w : World) c r c' :
  Reachable py c ->
  get_qqq_data py w c = (Ok r, c') ->
  exists l,
    Permutation l (Aggregate.holdings r) /\
    Fund.total_contribution (Aggregate.qqq r) =
      PyFloat.round (fold_left (fun acc e => (acc + Entry.contribution e)%float) l 0%float) 4.
Proof.
  intros Hr H.
  exact (reachable_result
           (fun r => exists l, Permutation l (Aggregate.holdings r) /\
                               Fund.total_contribution (Aggregate.qqq r) = total_of l)
           py w c r c' (computed_total py) Hr H).
Qed.

Lemma total_is_the_rounded_sum_witness :
  Reachable Demo.py Cache.initial /\
  get_qqq_data Demo.py Demo.world Cache.initial = (Ok Demo.result, Demo.cache_after) /\
  Fund.total_contribution (Aggregate.qqq Demo.result) = (-2)%float /\
  exists l,
    Permutation l (Aggregate.holdings Demo.result) /\
    Fund.total_contribution (Aggregate.qqq Demo.result) =
      PyFloat.round (fold_left (fun acc e => (acc + Entry.contribution e)%float) l 0%float) 4.
Proof.
  assert (H1 : Reachable Demo.py Cache.initial) by constructor.
  assert (H2 : get_qqq_data Demo.py Demo.world Cache.initial = (Ok Demo.result, Demo.cache_after))
    by exact demo_outcome.
  split; [exact H1|]. split; [exact H2|]. split; [vm_compute; reflexivity|].
  exact (total_is_the_rounded_sum Demo.py Demo.world Cache.initial _ _ H1 H2).
Defined.
